(** * Kalshi trading bot: paper-trading ledger, performance metrics and
      capital allocator

    A shallow embedding of [src/paper_trader.py], [src/performance.py],
    [src/allocator.py] and the exit rule and position size of
    [src/strategies/mean_reversion.py].  The SQLite writes of the
    performance tracker are not part of the model; its in-memory cache and
    capital history are.

    Numeric model.  Python's [float] is read as a real number ([R]); the one
    non-finite value the program builds itself, [float('inf')], is a separate
    constructor of [xfloat].  A division whose divisor can be zero at run time
    returns [option] ([None] stands for Python's [ZeroDivisionError]).  Over
    the reals an equation between sums, products and quotients is read up
    to rounding.  What rounding itself decides (the number of contracts
    that [int(size / price)] buys, whether the deviation of equal returns
    is zero) is settled on a second embedding of [execute_signal] and
    [_calculate_sharpe], over binary64 numbers, in [Binary64].
    [uuid.uuid4()] and [datetime.now()] are inputs of the operations that call
    them.  The structlog calls are kept as the list of event messages an
    operation emits. *)

From Stdlib Require Import Reals Lra Lia ZArith String List Bool Permutation Sorted.
From Stdlib Require Floats.
Import ListNotations.
Open Scope string_scope.
Open Scope list_scope.
Open Scope R_scope.

(* ===================================================================== *)
(** * Python values *)
(* ===================================================================== *)

Definition float := R.
Definition datetime := R.          (* seconds since the epoch *)
Definition Log := list string.     (* structlog event messages, oldest first *)

Definition Rgtb (x y : R) : bool := if Rgt_dec x y then true else false.
Definition Rltb (x y : R) : bool := if Rlt_dec x y then true else false.
Definition Rgeb (x y : R) : bool := if Rge_dec x y then true else false.
Definition Rleb (x y : R) : bool := if Rle_dec x y then true else false.
Definition Reqb (x y : R) : bool := if Req_dec_T x y then true else false.

Infix ">?" := Rgtb (at level 70, no associativity) : R_scope.
Infix "<?" := Rltb (at level 70, no associativity) : R_scope.
Infix ">=?" := Rgeb (at level 70, no associativity) : R_scope.
Infix "<=?" := Rleb (at level 70, no associativity) : R_scope.
Infix "=?" := Reqb (at level 70, no associativity) : R_scope.

(** [int(x)] on a float: truncation toward zero. *)
Definition py_int (x : R) : Z :=
  if Rle_dec 0 x then Int_part x else (- Int_part (- x))%Z.

(** The floor of a real, as the specification uses it. *)
Definition floor (x : R) : Z := Int_part x.

(** [max(a, b)] and [min(a, b)]: the first argument wins unless the second
    is strictly larger (smaller). *)
Definition py_max (a b : R) : R := if b >? a then b else a.
Definition py_min (a b : R) : R := if b <? a then b else a.

(** [sum(xs)]: a left fold that starts from 0. *)
Definition py_sum (xs : list R) : R := fold_left Rplus xs 0.

(** Values of [Dict[str, Any]] metadata. *)
Inductive Any :=
| AStr (s : string)
| ANum (r : R).

(** ** Insertion-ordered dictionaries with string keys.

    Iteration order is observable in the program ([close_position] takes the
    first portfolio that holds the id, [rank_strategies] breaks ties by
    encounter order), so a dict is an association list in insertion order. *)
Module Dict.
Section Defs.
Context {V : Type}.

Definition t := list (string * V).

Fixpoint get (d : list (string * V)) (k : string) : option V :=
  match d with
  | [] => None
  | (k', v) :: d' => if String.eqb k k' then Some v else get d' k
  end.

Definition mem (d : list (string * V)) (k : string) : bool :=
  match get d k with Some _ => true | None => false end.

(** [d[k] = v]: overwrite in place, or append a new key. *)
Fixpoint set (d : list (string * V)) (k : string) (v : V) : list (string * V) :=
  match d with
  | [] => [(k, v)]
  | (k', v') :: d' =>
      if String.eqb k k' then (k', v) :: d' else (k', v') :: set d' k v
  end.

(** [del d[k]] *)
Fixpoint del (d : list (string * V)) (k : string) : list (string * V) :=
  match d with
  | [] => []
  | (k', v') :: d' =>
      if String.eqb k k' then del d' k else (k', v') :: del d' k
  end.

Definition keys (d : list (string * V)) : list string := map fst d.
Definition values (d : list (string * V)) : list V := map snd d.
End Defs.
Arguments t : clear implicits.
End Dict.

(* ===================================================================== *)
(** * config.py *)
(* ===================================================================== *)

Module RiskConfig.
Record t := mk {
  max_total_capital : float;
  max_position_size : float;
  max_daily_loss : float;
  max_concurrent_positions : Z;
  max_exposure_pct : float
}.
Definition default : t := mk 200 10 20 10 (20 / 100).
End RiskConfig.

Module PerformanceConfig.
Record t := mk {
  rolling_window_days : Z;
  min_trades_for_ranking : Z
}.
Definition default : t := mk 30 5.
End PerformanceConfig.

Module AllocatorConfig.
Record t := mk {
  rebalance_interval_hours : float;
  min_sharpe_ratio : float;
  performance_weight : float;
  risk_weight : float
}.
Definition default : t := mk 24 (5 / 10) (7 / 10) (3 / 10).
End AllocatorConfig.

(* ===================================================================== *)
(** * strategies/base.py *)
(* ===================================================================== *)

Module Signal.
Record t := mk {
  market_id : string;
  side : string;
  confidence : float;
  size : float;
  strategy_name : string;
  timestamp : datetime;
  metadata : option (Dict.t Any)
}.
End Signal.

(** The market snapshot handed to [check_exits]: a dict read with [.get];
    an absent key is [None]. *)
Module MarketData.
Record t := mk {
  market_id : option string;
  yes_price : option float;
  close_in_hours : option float
}.
End MarketData.

(** The reduced view of a position that [check_exits] passes to the
    strategy. *)
Module PosDict.
Record t := mk {
  entry_price : float;
  side : string;
  metadata : Dict.t Any
}.
End PosDict.

Module Strategy.
Record t := mk {
  name : string;
  should_exit : PosDict.t -> MarketData.t -> bool
}.
End Strategy.

(* ===================================================================== *)
(** * strategies/mean_reversion.py *)
(* ===================================================================== *)

(** [d.get(key, default)] on a key that may be absent. *)
Definition get_or {A : Type} (o : option A) (default : A) : A :=
  match o with Some x => x | None => default end.

(** The keys of the config dict that [MeanReversionStrategy] reads. *)
Module MeanReversionParams.
Record t := mk {
  extreme_threshold : option float;
  min_threshold : option float;
  exit_target : option float;
  base_position_size : option float;
  max_position_size : option float
}.
Definition empty : t := mk None None None None None.
End MeanReversionParams.

Module MeanReversionStrategy.
Record t := mk {
  name : string;
  config : MeanReversionParams.t;
  extreme_threshold : float;
  min_threshold : float;
  exit_target : float
}.

Definition __init__ (config : MeanReversionParams.t) : t :=
  mk "MeanReversion" config
     (get_or (MeanReversionParams.extreme_threshold config) (95 / 100))
     (get_or (MeanReversionParams.min_threshold config) (5 / 100))
     (get_or (MeanReversionParams.exit_target config) (50 / 100)).

Definition should_exit (self : t) (position : PosDict.t) (market_data : MarketData.t)
    : bool :=
  let entry_price := PosDict.entry_price position in
  let current_price := get_or (MarketData.yes_price market_data) (5 / 10) in
  if (entry_price >? 5 / 10) && (current_price <=? exit_target self) then true
  else if (entry_price <? 5 / 10) && (current_price >=? exit_target self) then true
  else if get_or (MarketData.close_in_hours market_data) 24 <? 1 then true
  else false.

Definition _calculate_position_size (self : t) (price : float) : float :=
  let distance_from_50 := Rabs (price - 5 / 10) in
  let base_size := get_or (MeanReversionParams.base_position_size (config self)) 5 in
  let multiplier := 1 + distance_from_50 * 2 in
  py_min (base_size * multiplier)
         (get_or (MeanReversionParams.max_position_size (config self)) 10).

(** The strategy as [check_exits] sees it. *)
Definition as_strategy (self : t) : Strategy.t :=
  Strategy.mk (name self) (should_exit self).
End MeanReversionStrategy.

(* ===================================================================== *)
(** * paper_trader.py *)
(* ===================================================================== *)

Inductive PositionStatus := OPEN | CLOSED | EXPIRED.

Definition PositionStatus_eqb (a b : PositionStatus) : bool :=
  match a, b with
  | OPEN, OPEN | CLOSED, CLOSED | EXPIRED, EXPIRED => true
  | _, _ => false
  end.

Module PaperPosition.
Record t := mk {
  id : string;
  strategy_name : string;
  market_id : string;
  ticker : string;
  side : string;
  quantity : Z;
  entry_price : float;
  entry_time : datetime;
  entry_cost : float;
  exit_price : option float;
  exit_time : option datetime;
  exit_value : option float;
  status : PositionStatus;
  metadata : Dict.t Any
}.

Definition pnl (self : t) : float :=
  match status self with
  | OPEN => 0
  | _ =>
      match exit_value self with
      | Some v => v - entry_cost self
      | None => 0
      end
  end.

Definition pnl_pct (self : t) : float :=
  if entry_cost self =? 0 then 0 else (pnl self / entry_cost self) * 100.
End PaperPosition.

Module StrategyPortfolio.
Record t := mk {
  strategy_name : string;
  initial_capital : float;
  current_capital : float;
  positions : Dict.t PaperPosition.t;
  closed_positions : list PaperPosition.t
}.

Definition open_positions (self : t) : list PaperPosition.t :=
  filter (fun p => PositionStatus_eqb (PaperPosition.status p) OPEN)
         (Dict.values (positions self)).

Definition total_exposure (self : t) : float :=
  py_sum (map PaperPosition.entry_cost (open_positions self)).

Definition available_capital (self : t) : float :=
  current_capital self - total_exposure self.

Definition total_pnl (self : t) : float :=
  py_sum (map PaperPosition.pnl (closed_positions self)).

Definition total_trades (self : t) : Z :=
  Z.of_nat (length (closed_positions self)).

Definition winning_trades (self : t) : Z :=
  Z.of_nat (length (filter (fun p => PaperPosition.pnl p >? 0)
                           (closed_positions self))).

Definition win_rate (self : t) : float :=
  if (total_trades self =? 0)%Z then 0
  else (IZR (winning_trades self) / IZR (total_trades self)) * 100.

Definition with_positions (self : t) (ps : Dict.t PaperPosition.t) : t :=
  mk (strategy_name self) (initial_capital self) (current_capital self)
     ps (closed_positions self).
End StrategyPortfolio.

Module PaperTrader.
Import StrategyPortfolio.

Record t := mk {
  risk_config : RiskConfig.t;
  portfolios : Dict.t StrategyPortfolio.t;
  _daily_pnl : float;
  _daily_start_date : option datetime
}.

Definition with_portfolios (self : t) (ps : Dict.t StrategyPortfolio.t) : t :=
  mk (risk_config self) ps (_daily_pnl self) (_daily_start_date self).

Definition __init__ (risk : RiskConfig.t) : t := mk risk [] 0 None.

Definition initialize_portfolio (self : t) (strategy_name : string)
    (capital : float) : t * Log :=
  (with_portfolios self
     (Dict.set (portfolios self) strategy_name
        (StrategyPortfolio.mk strategy_name capital capital [] [])),
   ["Initialized portfolio"]).

Definition get_portfolio (self : t) (strategy_name : string)
    : option StrategyPortfolio.t :=
  Dict.get (portfolios self) strategy_name.

Definition _check_risk_limits (self : t) (signal : Signal.t)
    (portfolio : StrategyPortfolio.t) : bool * Log :=
  if Signal.size signal >? available_capital portfolio then
    (false, ["Insufficient capital"])
  else if Signal.size signal >? RiskConfig.max_position_size (risk_config self) then
    (false, ["Position too large"])
  else
    let total_exposure :=
      py_sum (map StrategyPortfolio.total_exposure (Dict.values (portfolios self))) in
    let max_exposure :=
      RiskConfig.max_total_capital (risk_config self)
      * RiskConfig.max_exposure_pct (risk_config self) in
    if total_exposure + Signal.size signal >? max_exposure then
      (false, ["Would exceed max exposure"])
    else
      let total_positions :=
        fold_left Z.add
          (map (fun p => Z.of_nat (length (open_positions p)))
               (Dict.values (portfolios self))) 0%Z in
      if (total_positions >=? RiskConfig.max_concurrent_positions (risk_config self))%Z then
        (false, ["Max positions reached"])
      else if _daily_pnl self <? - RiskConfig.max_daily_loss (risk_config self) then
        (false, ["Daily loss limit reached"])
      else (true, []).

(** [uuid4] is the value of [str(uuid.uuid4())] and [now] the value of
    [datetime.now(timezone.utc)] in this call.  Quantity and cost are
    those of exact arithmetic here; [Binary64.PaperTrader.execute_signal]
    has the rounded ones. *)
Definition execute_signal (self : t) (signal : Signal.t) (market_price : float)
    (uuid4 : string) (now : datetime)
    : option PaperPosition.t * t * Log :=
  match Dict.get (portfolios self) (Signal.strategy_name signal) with
  | None => (None, self, ["No portfolio for strategy"])
  | Some portfolio =>
      let (ok, log) := _check_risk_limits self signal portfolio in
      if negb ok then (None, self, log)
      else
        let price :=
          if String.eqb (Signal.side signal) "yes" then market_price
          else 1 - market_price in
        let quantity :=
          if price >? 0 then py_int (Signal.size signal / price) else 0%Z in
        if (quantity <=? 0)%Z then (None, self, log ++ ["Quantity too small"])
        else
          let entry_cost := IZR quantity * price in
          let position :=
            PaperPosition.mk uuid4 (Signal.strategy_name signal)
              (Signal.market_id signal) (Signal.market_id signal)
              (Signal.side signal) quantity price now entry_cost
              None None None OPEN
              (match Signal.metadata signal with
               | Some ((_ :: _) as m) => m
               | _ => []
               end) in
          let portfolio' :=
            with_positions portfolio
              (Dict.set (positions portfolio) (PaperPosition.id position) position) in
          (Some position,
           with_portfolios self
             (Dict.set (portfolios self) (Signal.strategy_name signal) portfolio'),
           log ++ ["Paper trade opened"])
  end.

(** The "update position" block of [close_position]: the exit price
    mirrors the entry side, and the position is marked [CLOSED]. *)
Definition mark_closed (position : PaperPosition.t) (exit_price : float)
    (reason : string) (now : datetime) : PaperPosition.t :=
  let price :=
    if String.eqb (PaperPosition.side position) "yes" then exit_price
    else 1 - exit_price in
  let exit_value := IZR (PaperPosition.quantity position) * price in
  PaperPosition.mk (PaperPosition.id position)
    (PaperPosition.strategy_name position) (PaperPosition.market_id position)
    (PaperPosition.ticker position) (PaperPosition.side position)
    (PaperPosition.quantity position) (PaperPosition.entry_price position)
    (PaperPosition.entry_time position) (PaperPosition.entry_cost position)
    (Some price) (Some now) (Some exit_value) CLOSED
    (Dict.set (PaperPosition.metadata position) "close_reason" (AStr reason)).

(** The "update portfolio" block of [close_position] for the position
    found in [portfolio] under [position_id]. *)
Definition close_in_portfolio (portfolio : StrategyPortfolio.t)
    (position_id : string) (position : PaperPosition.t)
    (exit_price : float) (reason : string) (now : datetime)
    : PaperPosition.t * StrategyPortfolio.t :=
  let position' := mark_closed position exit_price reason now in
  (position',
   StrategyPortfolio.mk (strategy_name portfolio) (initial_capital portfolio)
     (current_capital portfolio + PaperPosition.pnl position')
     (Dict.del (positions portfolio) position_id)
     (closed_positions portfolio ++ [position'])).

(** [for portfolio in self.portfolios.values(): if position_id in
    portfolio.positions: ... return position] *)
Fixpoint close_first (ps : Dict.t StrategyPortfolio.t) (position_id : string)
    (exit_price : float) (reason : string) (now : datetime)
    : option (PaperPosition.t * Dict.t StrategyPortfolio.t) :=
  match ps with
  | [] => None
  | (name, portfolio) :: rest =>
      match Dict.get (positions portfolio) position_id with
      | Some position =>
          let (position', portfolio') :=
            close_in_portfolio portfolio position_id position exit_price reason now in
          Some (position', (name, portfolio') :: rest)
      | None =>
          match close_first rest position_id exit_price reason now with
          | Some (position', rest') => Some (position', (name, portfolio) :: rest')
          | None => None
          end
      end
  end.

Definition close_position (self : t) (position_id : string)
    (exit_price : float) (reason : string) (now : datetime)
    : option PaperPosition.t * t * Log :=
  match close_first (portfolios self) position_id exit_price reason now with
  | Some (position, ps') =>
      (Some position,
       mk (risk_config self) ps'
          (_daily_pnl self + PaperPosition.pnl position)
          (_daily_start_date self),
       ["Paper trade closed"])
  | None => (None, self, ["Position not found"])
  end.

(** The loop of [check_exits] over the snapshot
    [list(portfolio.open_positions)]. *)
Fixpoint check_exits_loop (self : t) (strategy : Strategy.t)
    (market_data : MarketData.t) (snapshot : list PaperPosition.t)
    (now : datetime) (closed : list PaperPosition.t)
    : list PaperPosition.t * t * Log :=
  match snapshot with
  | [] => (closed, self, [])
  | position :: rest =>
      if negb (match MarketData.market_id market_data with
               | Some m => String.eqb (PaperPosition.ticker position) m
               | None => false
               end)
      then check_exits_loop self strategy market_data rest now closed
      else
        let pos_dict :=
          PosDict.mk (PaperPosition.entry_price position)
            (PaperPosition.side position) (PaperPosition.metadata position) in
        if Strategy.should_exit strategy pos_dict market_data then
          let '(result, self', log) :=
            close_position self (PaperPosition.id position)
              (match MarketData.yes_price market_data with
               | Some p => p
               | None => 5 / 10
               end)
              "strategy_exit" now in
          let closed' :=
            match result with Some r => closed ++ [r] | None => closed end in
          let '(out, self'', log') :=
            check_exits_loop self' strategy market_data rest now closed' in
          (out, self'', log ++ log')
        else check_exits_loop self strategy market_data rest now closed
  end.

Definition check_exits (self : t) (strategy : Strategy.t)
    (market_data : MarketData.t) (now : datetime)
    : list PaperPosition.t * t * Log :=
  match Dict.get (portfolios self) (Strategy.name strategy) with
  | None => ([], self, [])
  | Some portfolio =>
      check_exits_loop self strategy market_data (open_positions portfolio) now []
  end.

Definition reset_daily_stats (self : t) (now : datetime) : t :=
  mk (risk_config self) (portfolios self) 0 (Some now).




Definition get_all_positions (self : t) (status : string) : list PaperPosition.t :=
  flat_map
    (fun portfolio =>
       if String.eqb status "open" then StrategyPortfolio.open_positions portfolio
       else if String.eqb status "closed"
            then StrategyPortfolio.closed_positions portfolio
            else Dict.values (StrategyPortfolio.positions portfolio)
                 ++ StrategyPortfolio.closed_positions portfolio)
    (Dict.values (portfolios self)).
End PaperTrader.

(* ===================================================================== *)
(** * performance.py *)
(* ===================================================================== *)

(** A float that may be the sentinel [float('inf')]. *)
Inductive xfloat :=
| Fin (r : R)
| PInf.

(** [a / b] on floats; [None] is [ZeroDivisionError]. *)
Definition py_div (a b : R) : option R :=
  if b =? 0 then None else Some (a / b).

(** [[f(x) for x in xs]] where [f] may raise. *)
Fixpoint traverse {A B : Type} (f : A -> option B) (xs : list A) : option (list B) :=
  match xs with
  | [] => Some []
  | x :: xs' =>
      match f x with
      | None => None
      | Some y =>
          match traverse f xs' with
          | None => None
          | Some ys => Some (y :: ys)
          end
      end
  end.

(** [max(xs)] on a list; [None] is the [ValueError] on an empty list. *)
Definition py_max_list (xs : list R) : option R :=
  match xs with
  | [] => None
  | x :: xs' => Some (fold_left py_max xs' x)
  end.

(** [sorted(xs, key=key)]: stable, ascending. *)
Fixpoint insert_by_key {A : Type} (key : A -> R) (x : A) (l : list A) : list A :=
  match l with
  | [] => [x]
  | y :: l' => if key y <? key x then y :: insert_by_key key x l' else x :: y :: l'
  end.

Definition sorted_by_key {A : Type} (key : A -> R) (xs : list A) : list A :=
  fold_right (insert_by_key key) [] xs.

Definition len {A : Type} (xs : list A) : R := INR (List.length xs).

Module StrategyMetrics.
Record t := mk {
  strategy_name : string;
  total_return : float;
  total_return_pct : float;
  sharpe_ratio : float;
  sortino_ratio : xfloat;
  max_drawdown : float;
  total_trades : Z;
  winning_trades : Z;
  losing_trades : Z;
  win_rate : float;
  average_win : float;
  average_loss : float;
  profit_factor : xfloat;
  expectancy : float;
  average_hold_time_hours : float;
  current_capital : float;
  peak_capital : float;
  last_updated : datetime
}.

(** [StrategyMetrics(strategy_name=...)] followed by
    [metrics.current_capital = ...]. *)
Definition fresh (name : string) (capital : float) (now : datetime) : t :=
  mk name 0 0 0 (Fin 0) 0 0 0 0 0 0 0 (Fin 0) 0 0 capital 0 now.
End StrategyMetrics.

Module PerformanceTracker.
Import PaperPosition StrategyPortfolio.

Record t := mk {
  config : PerformanceConfig.t;
  _metrics : Dict.t StrategyMetrics.t;
  _capital_history : Dict.t (list float)
}.

Definition trades_per_year : R := 2500.

(** Mean and variance are those of exact arithmetic here;
    [Binary64.PerformanceTracker._calculate_sharpe] has the rounded
    ones. *)
Definition _calculate_sharpe (trades : list PaperPosition.t)
    (initial_capital risk_free_rate : float) : option float :=
  if (List.length trades <? 2)%nat then Some 0
  else
    match traverse (fun t => py_div (pnl t) initial_capital) trades with
    | None => None
    | Some returns =>
        let mean_return := py_sum returns / len returns in
        let variance :=
          py_sum (map (fun r => (r - mean_return) ^ 2) returns) / len returns in
        let std_return := if variance >? 0 then sqrt variance else 0 in
        if std_return =? 0 then Some 0
        else
          let annualized_return := mean_return * trades_per_year in
          let annualized_std := std_return * sqrt trades_per_year in
          Some ((annualized_return - risk_free_rate) / annualized_std)
    end.

Definition _calculate_sortino (trades : list PaperPosition.t)
    (initial_capital risk_free_rate : float) : option xfloat :=
  if (List.length trades <? 2)%nat then Some (Fin 0)
  else
    match traverse (fun t => py_div (pnl t) initial_capital) trades with
    | None => None
    | Some returns =>
        let mean_return := py_sum returns / len returns in
        let negative_returns := filter (fun r => r <? 0) returns in
        match negative_returns with
        | [] => Some PInf
        | _ :: _ =>
            let downside_variance :=
              py_sum (map (fun r => r ^ 2) negative_returns) / len returns in
            let downside_std := sqrt downside_variance in
            if downside_std =? 0 then Some (Fin 0)
            else
              let annualized_return := mean_return * trades_per_year in
              let annualized_downside := downside_std * sqrt trades_per_year in
              Some (Fin ((annualized_return - risk_free_rate) / annualized_downside))
        end
    end.

(** The drawdown walk over a capital series: [(peak, max_dd)] after the
    loop. *)
Definition drawdown_step (acc : R * R) (capital : R) : R * R :=
  let (peak, max_dd) := acc in
  let peak := if capital >? peak then capital else peak in
  let drawdown := if peak >? 0 then (peak - capital) / peak else 0 in
  (peak, py_max max_dd drawdown).

(** [capital = initial; history = [capital]; for trade in ...:
    capital += trade.pnl; history.append(capital)]. *)
Fixpoint capital_series (capital : R) (trades : list PaperPosition.t) : list R :=
  match trades with
  | [] => [capital]
  | t :: ts => capital :: capital_series (capital + pnl t) ts
  end.

Definition _calculate_max_drawdown (self : t) (strategy_name : string)
    (portfolio : StrategyPortfolio.t) : float :=
  let history :=
    match Dict.get (_capital_history self) strategy_name with
    | Some h => h
    | None => []
    end in
  let history :=
    match history with
    | _ :: _ => history
    | [] =>
        capital_series (initial_capital portfolio)
          (sorted_by_key
             (fun t => match exit_time t with Some e => e | None => entry_time t end)
             (closed_positions portfolio))
    end in
  match history with
  | [] | [_] => 0
  | h0 :: _ => snd (fold_left drawdown_step history (h0, 0)) * 100
  end.

(** [now] is the value of [datetime.now(timezone.utc)].  The result is
    the metrics record and the tracker with its cache updated; [None] is
    an exception of the Python code ([ZeroDivisionError] on a zero
    [initial_capital], [ValueError] on an empty capital history). *)
Definition calculate_metrics (self : t) (portfolio : StrategyPortfolio.t)
    (now : datetime) : option (StrategyMetrics.t * t) :=
  let strategy_name := StrategyPortfolio.strategy_name portfolio in
  let trades := closed_positions portfolio in
  match trades with
  | [] => Some (StrategyMetrics.fresh strategy_name (current_capital portfolio) now, self)
  | _ :: _ =>
      let total_trades := Z.of_nat (List.length trades) in
      let total_return := py_sum (map pnl trades) in
      match py_div total_return (initial_capital portfolio) with
      | None => None
      | Some ratio =>
          let total_return_pct := ratio * 100 in
          let wins := filter (fun t => pnl t >? 0) trades in
          let losses := filter (fun t => pnl t <=? 0) trades in
          let winning_trades := Z.of_nat (List.length wins) in
          let losing_trades := Z.of_nat (List.length losses) in
          let win_rate := (IZR winning_trades / IZR total_trades) * 100 in
          let average_win :=
            match wins with
            | [] => 0
            | _ :: _ => py_sum (map pnl wins) / len wins
            end in
          let average_loss :=
            match losses with
            | [] => 0
            | _ :: _ => py_sum (map pnl losses) / len losses
            end in
          let gross_profit :=
            match wins with [] => 0 | _ :: _ => py_sum (map pnl wins) end in
          let gross_loss :=
            match losses with [] => 0 | _ :: _ => Rabs (py_sum (map pnl losses)) end in
          let profit_factor :=
            if gross_loss >? 0 then Fin (gross_profit / gross_loss) else PInf in
          let expectancy := total_return / IZR total_trades in
          let hold_times :=
            flat_map
              (fun t => match exit_time t with
                        | Some e => [(e - entry_time t) / 3600]
                        | None => []
                        end)
              trades in
          let average_hold_time_hours :=
            match hold_times with
            | [] => 0
            | _ :: _ => py_sum hold_times / len hold_times
            end in
          match _calculate_sharpe trades (initial_capital portfolio) (5 / 100),
                _calculate_sortino trades (initial_capital portfolio) (5 / 100) with
          | Some sharpe_ratio, Some sortino_ratio =>
              let max_drawdown := _calculate_max_drawdown self strategy_name portfolio in
              match py_max_list
                      (match Dict.get (_capital_history self) strategy_name with
                       | Some h => h
                       | None => [initial_capital portfolio]
                       end) with
              | None => None
              | Some peak_capital =>
                  let metrics :=
                    StrategyMetrics.mk strategy_name total_return total_return_pct
                      sharpe_ratio sortino_ratio max_drawdown
                      total_trades winning_trades losing_trades win_rate
                      average_win average_loss profit_factor expectancy
                      average_hold_time_hours (current_capital portfolio)
                      peak_capital now in
                  Some (metrics,
                        mk (config self)
                           (Dict.set (_metrics self) strategy_name metrics)
                           (_capital_history self))
              end
          | _, _ => None
          end
      end
  end.

Definition record_capital_snapshot (self : t) (strategy_name : string)
    (capital : float) : t :=
  let old :=
    match Dict.get (_capital_history self) strategy_name with
    | Some h => h
    | None => []
    end in
  mk (config self) (_metrics self)
     (Dict.set (_capital_history self) strategy_name (old ++ [capital])).
Definition __init__ (config : PerformanceConfig.t) : t := mk config [] [].

Definition get_metrics (self : t) (strategy_name : string)
    : option StrategyMetrics.t :=
  Dict.get (_metrics self) strategy_name.

(** [sorted(qualified, key=lambda m: m.sharpe_ratio, reverse=True)]:
    descending by Sharpe ratio, equal ratios in cache order. *)
Definition get_leaderboard (self : t) : list StrategyMetrics.t :=
  let metrics_list := Dict.values (_metrics self) in
  let qualified :=
    filter (fun m => (StrategyMetrics.total_trades m
                      >=? PerformanceConfig.min_trades_for_ranking (config self))%Z)
           metrics_list in
  sorted_by_key (fun m => - StrategyMetrics.sharpe_ratio m) qualified.
End PerformanceTracker.

(* ===================================================================== *)
(** * allocator.py *)
(* ===================================================================== *)

(** Arithmetic of [calculate_strategy_score] on a value that may be
    [float('inf')]: [x - a], [x / a] for a positive literal [a], and
    [min(a, x)]. *)
Definition x_sub (x : xfloat) (a : R) : xfloat :=
  match x with Fin r => Fin (r - a) | PInf => PInf end.
Definition x_div_pos (x : xfloat) (a : R) : xfloat :=
  match x with Fin r => Fin (r / a) | PInf => PInf end.
Definition py_min_x (a : R) (x : xfloat) : R :=
  match x with Fin r => py_min a r | PInf => a end.

Module AllocationResult.
Record t := mk {
  strategy_name : string;
  current_capital : float;
  new_allocation : float;
  allocation_change : float;
  rank : Z;
  score : float;
  reason : string
}.
End AllocationResult.

Definition Ranking : Type := string * float * StrategyMetrics.t.

Module CapitalAllocator.
Import StrategyMetrics.

Record t := mk {
  config : AllocatorConfig.t;
  performance_tracker : PerformanceTracker.t;
  paper_trader : PaperTrader.t;
  total_capital : float;
  _last_rebalance : option datetime;
  _allocation_history : list (datetime * list AllocationResult.t)
}.

Definition with_tracker (self : t) (tr : PerformanceTracker.t) : t :=
  mk (config self) tr (paper_trader self) (total_capital self)
     (_last_rebalance self) (_allocation_history self).

Definition calculate_strategy_score (self : t) (metrics : StrategyMetrics.t) : float :=
  if (total_trades metrics <? 3)%Z then 0
  else
    let sharpe_score := py_max 0 (py_min 1 (sharpe_ratio metrics / 2)) in
    let win_rate_score := win_rate metrics / 100 in
    let profit_factor_score :=
      py_max 0 (py_min_x 1 (x_div_pos (x_sub (profit_factor metrics) 1) 2)) in
    let drawdown_penalty := py_min 1 (max_drawdown metrics / 20) in
    let performance_score :=
      4 / 10 * sharpe_score + 3 / 10 * win_rate_score + 3 / 10 * profit_factor_score in
    let score :=
      AllocatorConfig.performance_weight (config self) * performance_score
      - AllocatorConfig.risk_weight (config self) * drawdown_penalty in
    py_max 0 score.

(** The loop of [rank_strategies] over [portfolios.items()]; the tracker's
    cache is threaded through the calls of [calculate_metrics]. *)
Fixpoint rank_loop (self : t) (tracker : PerformanceTracker.t)
    (items : Dict.t StrategyPortfolio.t) (now : datetime)
    : option (list Ranking * PerformanceTracker.t) :=
  match items with
  | [] => Some ([], tracker)
  | (name, portfolio) :: rest =>
      match PerformanceTracker.calculate_metrics tracker portfolio now with
      | None => None
      | Some (metrics, tracker') =>
          let score := calculate_strategy_score self metrics in
          match rank_loop self tracker' rest now with
          | None => None
          | Some (rankings, tracker'') => Some ((name, score, metrics) :: rankings, tracker'')
          end
      end
  end.

(** [rankings.sort(key=lambda x: x[1], reverse=True)]: descending by score,
    equal scores in encounter order; that is the stable ascending sort on
    the negated score. *)
Definition rank_strategies (self : t) (now : datetime)
    : option (list Ranking * t) :=
  match rank_loop self (performance_tracker self)
          (PaperTrader.portfolios (paper_trader self)) now with
  | None => None
  | Some (rankings, tracker') =>
      Some (sorted_by_key (fun x : Ranking => - snd (fst x)) rankings,
            with_tracker self tracker')
  end.

Definition current_of (self : t) (name : string) : float :=
  match PaperTrader.get_portfolio (paper_trader self) name with
  | Some portfolio => StrategyPortfolio.current_capital portfolio
  | None => 0
  end.

Definition is_qualified (self : t) (x : Ranking) : bool :=
  let '(_, score, metrics) := x in
  (score >? 0)
  || (total_trades metrics
      <? PerformanceConfig.min_trades_for_ranking
           (PerformanceTracker.config (performance_tracker self)))%Z.

(** [for rank, (name, score, metrics) in enumerate(rankings, rank): ...]
    of the branch without qualified strategies. *)
Fixpoint equal_allocation (self : t) (per_strategy : float) (rank : Z)
    (rankings : list Ranking) : list AllocationResult.t :=
  match rankings with
  | [] => []
  | (name, score, metrics) :: rest =>
      AllocationResult.mk name (current_of self name) per_strategy
        (per_strategy - current_of self name) rank score
        "equal_allocation_no_qualified"
      :: equal_allocation self per_strategy (rank + 1) rest
  end.

Definition reason_of (score : float) (metrics : StrategyMetrics.t) : string :=
  if score >=? 5 / 10 then "high_performer"
  else if score >=? 25 / 100 then "moderate_performer"
  else if (total_trades metrics <? 5)%Z then "insufficient_history"
  else "low_performer".

(** [for rank, (name, score, metrics) in enumerate(qualified, rank): ...]
    of the proportional branch, before normalisation.  [n] is
    [len(qualified)] of the whole list. *)
Fixpoint proportional_allocation (self : t) (total_score min_allocation n : float)
    (rank : Z) (qualified : list Ranking) : list AllocationResult.t :=
  match qualified with
  | [] => []
  | (name, score, metrics) :: rest =>
      let current := current_of self name in
      let base_allocation :=
        if total_score >? 0 then (score / total_score) * total_capital self
        else total_capital self / n in
      let new_allocation := py_max min_allocation base_allocation in
      let new_allocation := py_min new_allocation (total_capital self * (5 / 10)) in
      AllocationResult.mk name current new_allocation (new_allocation - current)
        rank score (reason_of score metrics)
      :: proportional_allocation self total_score min_allocation n (rank + 1) rest
  end.

Definition total_allocated (results : list AllocationResult.t) : float :=
  py_sum (map AllocationResult.new_allocation results).

Definition rescale (scale : float) (r : AllocationResult.t) : AllocationResult.t :=
  AllocationResult.mk (AllocationResult.strategy_name r)
    (AllocationResult.current_capital r)
    (AllocationResult.new_allocation r * scale)
    (AllocationResult.new_allocation r * scale - AllocationResult.current_capital r)
    (AllocationResult.rank r) (AllocationResult.score r) (AllocationResult.reason r).

(** Lines 190-197: the division is not guarded against a zero
    [total_allocated] in the source, hence [py_div]. *)
Definition normalize (self : t) (results : list AllocationResult.t)
    : option (list AllocationResult.t) :=
  if total_allocated results >? total_capital self then
    match py_div (total_capital self) (total_allocated results) with
    | None => None
    | Some scale => Some (map (rescale scale) results)
    end
  else Some results.

(** The allocations proposed for a non-empty [qualified] list, before
    normalisation. *)
Definition proposed (self : t) (qualified : list Ranking) : list AllocationResult.t :=
  let total_score := py_sum (map (fun x : Ranking => snd (fst x)) qualified) in
  let min_allocation := (total_capital self / len qualified) * (1 / 10) in
  proportional_allocation self total_score min_allocation (len qualified) 1 qualified.

(** [calculate_allocations] from the ranking on (lines 120-198). *)
Definition allocate (self : t) (rankings : list Ranking)
    : option (list AllocationResult.t) :=
  match rankings with
  | [] => Some []
  | _ :: _ =>
      match filter (is_qualified self) rankings with
      | [] =>
          let per_strategy := total_capital self / len rankings in
          Some (equal_allocation self per_strategy 1 rankings)
      | (_ :: _) as qualified => normalize self (proposed self qualified)
      end
  end.

Definition calculate_allocations (self : t) (now : datetime)
    : option (list AllocationResult.t * t) :=
  match rank_strategies self now with
  | None => None
  | Some (rankings, self') =>
      match allocate self' rankings with
      | None => None
      | Some results => Some (results, self')
      end
  end.

Definition should_rebalance (self : t) (now : datetime) : bool :=
  match _last_rebalance self with
  | None => true
  | Some last =>
      now - last >=? AllocatorConfig.rebalance_interval_hours (config self) * 3600
  end.
Definition __init__ (config : AllocatorConfig.t)
    (performance_tracker : PerformanceTracker.t) (paper_trader : PaperTrader.t)
    (total_capital : float) : t :=
  mk config performance_tracker paper_trader total_capital None [].

(** The body of the loop of [rebalance] for one allocation: the portfolio
    object of the strategy, if the trader has one, gets the new allocation
    as its capital and as its baseline. *)
Definition apply_allocation (trader : PaperTrader.t) (alloc : AllocationResult.t)
    : PaperTrader.t * Log :=
  match PaperTrader.get_portfolio trader (AllocationResult.strategy_name alloc) with
  | Some portfolio =>
      (PaperTrader.with_portfolios trader
         (Dict.set (PaperTrader.portfolios trader)
            (AllocationResult.strategy_name alloc)
            (StrategyPortfolio.mk
               (StrategyPortfolio.strategy_name portfolio)
               (AllocationResult.new_allocation alloc)
               (AllocationResult.new_allocation alloc)
               (StrategyPortfolio.positions portfolio)
               (StrategyPortfolio.closed_positions portfolio))),
       ["Capital reallocated"])
  | None => (trader, [])
  end.

Fixpoint apply_allocations (trader : PaperTrader.t)
    (allocations : list AllocationResult.t) : PaperTrader.t * Log :=
  match allocations with
  | [] => (trader, [])
  | alloc :: rest =>
      let (trader', log) := apply_allocation trader alloc in
      let (trader'', log') := apply_allocations trader' rest in
      (trader'', log ++ log')
  end.

(** [now] is the clock reading of [should_rebalance] and of the metrics,
    [stamp] the one stored in [_last_rebalance]. *)
Definition rebalance (self : t) (now stamp : datetime)
    : option (list AllocationResult.t * t * Log) :=
  if negb (should_rebalance self now) then Some ([], self, ["Rebalance not due yet"])
  else
    match calculate_allocations self now with
    | None => None
    | Some (allocations, self') =>
        let (trader', log) := apply_allocations (paper_trader self') allocations in
        Some (allocations,
              mk (config self') (performance_tracker self') trader'
                 (total_capital self') (Some stamp)
                 (_allocation_history self' ++ [(stamp, allocations)]),
              log)
    end.
End CapitalAllocator.

(* ===================================================================== *)
(** * paper_trader.py and performance.py over binary64 *)
(* ===================================================================== *)

(** Python's [float] is the IEEE 754 binary64 format, and every operation
    on it rounds.  Where a result turns on that rounding (the integer
    part of a quotient, a test against zero) the reals above do not tell
    what the program computes, so [execute_signal] and [_calculate_sharpe]
    are embedded once more, over the kernel's binary64 numbers. *)
Module Binary64.
Import PrimFloat FloatOps SpecFloat.
#[local] Set Warnings "-inexact-float".
#[local] Open Scope float_scope.

#[local] Notation "x <- e ;; k" :=
  (match e with Some x => k | None => None end)
  (at level 61, e at next level, right associativity, only parsing).

(** [int(x)]: truncation toward zero.  [None] stands for the
    [OverflowError] of an infinity and the [ValueError] of a NaN. *)
Definition py_int (x : float) : option Z :=
  match Prim2SF x with
  | S754_zero _ => Some 0%Z
  | S754_finite s m e => Some (cond_Zopp s (Z.shiftl (Zpos m) e))
  | S754_infinity _ | S754_nan => None
  end.

(** The conversion of an int operand of [*] and [/]: the nearest binary64
    number.  [None] stands for the [OverflowError] of an int beyond the
    range. *)
Definition float_of_int (n : Z) : option float :=
  let x := SF2Prim (binary_normalize prec emax n 0 false) in
  if is_infinity x then None else Some x.

(** [a / b]; [None] stands for [ZeroDivisionError]. *)
Definition py_div (a b : float) : option float :=
  if b =? 0 then None else Some (a / b).

(** [x ** 2], that is C's [pow(x, 2.0)], read as the correctly rounded
    square (a libm may miss it by one unit in the last place where the
    square is not a binary64 number).  [None] stands for the
    [OverflowError] of a finite [x] whose square is out of range. *)
Definition py_square (x : float) : option float :=
  let y := x * x in
  if is_infinity y && is_finite x then None else Some y.

(** The built-in [sum] on floats.  CPython up to 3.11 adds from left to
    right; from 3.12 on it carries Neumaier's compensation along and adds
    it at the end.  The int 0 that [sum] starts from, and returns for an
    empty list (also as a summand, for a portfolio without open position),
    is read as 0.0. *)
Inductive summation := left_to_right | compensated.

Definition neumaier (acc : float * float) (x : float) : float * float :=
  let (f_result, c) := acc in
  let t := f_result + x in
  (t, if abs x <=? abs f_result then c + ((f_result - t) + x)
      else c + ((x - t) + f_result)).

Definition py_sum (cpython : summation) (xs : list float) : float :=
  match cpython with
  | left_to_right => fold_left add xs 0
  | compensated =>
      match xs with
      | [] => 0
      | x :: rest =>
          let (f_result, c) := fold_left neumaier rest (0 + x, 0) in
          if negb (c =? 0) && is_finite c then f_result + c else f_result
      end
  end.

(** The real number that a finite binary64 number is, as a fraction (0
    for the others). *)
Definition fraction (x : float) : Z * Z :=
  match Prim2SF x with
  | S754_finite s m e =>
      if (0 <=? e)%Z then (cond_Zopp s (Zpos m) * 2 ^ e, 1)%Z
      else (cond_Zopp s (Zpos m), 2 ^ (- e))%Z
  | _ => (0, 1)%Z
  end.

Definition B2R (x : float) : R :=
  (IZR (fst (fraction x)) / IZR (snd (fraction x)))%R.

Module RiskConfig.
Record t := mk {
  max_total_capital : float;
  max_position_size : float;
  max_daily_loss : float;
  max_concurrent_positions : Z;
  max_exposure_pct : float
}.
Definition default : t := mk 200 10 20 10 0.20.
End RiskConfig.

Module Signal.
Record t := mk {
  market_id : string;
  side : string;
  confidence : float;
  size : float;
  strategy_name : string;
  timestamp : datetime;
  metadata : option (Dict.t Any)
}.
End Signal.

Module PaperPosition.
Record t := mk {
  id : string;
  strategy_name : string;
  market_id : string;
  ticker : string;
  side : string;
  quantity : Z;
  entry_price : float;
  entry_time : datetime;
  entry_cost : float;
  exit_price : option float;
  exit_time : option datetime;
  exit_value : option float;
  status : PositionStatus;
  metadata : Dict.t Any
}.

Definition pnl (self : t) : float :=
  match status self with
  | OPEN => 0
  | _ =>
      match exit_value self with
      | Some v => v - entry_cost self
      | None => 0
      end
  end.
End PaperPosition.

Module StrategyPortfolio.
Record t := mk {
  strategy_name : string;
  initial_capital : float;
  current_capital : float;
  positions : Dict.t PaperPosition.t;
  closed_positions : list PaperPosition.t
}.

Definition open_positions (self : t) : list PaperPosition.t :=
  filter (fun p => PositionStatus_eqb (PaperPosition.status p) OPEN)
         (Dict.values (positions self)).

Definition total_exposure (cpython : summation) (self : t) : float :=
  py_sum cpython (map PaperPosition.entry_cost (open_positions self)).

Definition available_capital (cpython : summation) (self : t) : float :=
  current_capital self - total_exposure cpython self.

Definition with_positions (self : t) (ps : Dict.t PaperPosition.t) : t :=
  mk (strategy_name self) (initial_capital self) (current_capital self)
     ps (closed_positions self).
End StrategyPortfolio.

Module PaperTrader.
Import StrategyPortfolio.

Record t := mk {
  risk_config : RiskConfig.t;
  portfolios : Dict.t StrategyPortfolio.t;
  _daily_pnl : float;
  _daily_start_date : option datetime
}.

Definition with_portfolios (self : t) (ps : Dict.t StrategyPortfolio.t) : t :=
  mk (risk_config self) ps (_daily_pnl self) (_daily_start_date self).

Definition __init__ (risk : RiskConfig.t) : t := mk risk [] 0 None.

Definition initialize_portfolio (self : t) (strategy_name : string)
    (capital : float) : t * Log :=
  (with_portfolios self
     (Dict.set (portfolios self) strategy_name
        (StrategyPortfolio.mk strategy_name capital capital [] [])),
   ["Initialized portfolio"]).

(** [a > b] on floats is [b <? a]: both are false on a NaN. *)
Definition _check_risk_limits (cpython : summation) (self : t)
    (signal : Signal.t) (portfolio : StrategyPortfolio.t) : bool * Log :=
  if available_capital cpython portfolio <? Signal.size signal then
    (false, ["Insufficient capital"])
  else if RiskConfig.max_position_size (risk_config self) <? Signal.size signal then
    (false, ["Position too large"])
  else
    let total_exposure :=
      py_sum cpython
        (map (StrategyPortfolio.total_exposure cpython)
             (Dict.values (portfolios self))) in
    let max_exposure :=
      RiskConfig.max_total_capital (risk_config self)
      * RiskConfig.max_exposure_pct (risk_config self) in
    if max_exposure <? total_exposure + Signal.size signal then
      (false, ["Would exceed max exposure"])
    else
      let total_positions :=
        fold_left Z.add
          (map (fun p => Z.of_nat (List.length (open_positions p)))
               (Dict.values (portfolios self))) 0%Z in
      if (total_positions >=? RiskConfig.max_concurrent_positions (risk_config self))%Z then
        (false, ["Max positions reached"])
      else if _daily_pnl self <? - RiskConfig.max_daily_loss (risk_config self) then
        (false, ["Daily loss limit reached"])
      else (true, []).

(** The outer [None] stands for an exception: [int()] raises on a quotient
    that is infinite or a NaN.  The divisor of [signal.size / price] is
    positive, so the division itself does not raise. *)
Definition execute_signal (cpython : summation) (self : t) (signal : Signal.t)
    (market_price : float) (uuid4 : string) (now : datetime)
    : option (option PaperPosition.t * t * Log) :=
  match Dict.get (portfolios self) (Signal.strategy_name signal) with
  | None => Some (None, self, ["No portfolio for strategy"])
  | Some portfolio =>
      let (ok, log) := _check_risk_limits cpython self signal portfolio in
      if negb ok then Some (None, self, log)
      else
        let price :=
          if String.eqb (Signal.side signal) "yes" then market_price
          else 1 - market_price in
        quantity <- (if 0 <? price then py_int (Signal.size signal / price)
                     else Some 0%Z) ;;
        if (quantity <=? 0)%Z then
          Some (None, self, log ++ ["Quantity too small"])
        else
          contracts <- float_of_int quantity ;;
          let entry_cost := contracts * price in
          let position :=
            PaperPosition.mk uuid4 (Signal.strategy_name signal)
              (Signal.market_id signal) (Signal.market_id signal)
              (Signal.side signal) quantity price now entry_cost
              None None None OPEN
              (match Signal.metadata signal with
               | Some ((_ :: _) as m) => m
               | _ => []
               end) in
          let portfolio' :=
            with_positions portfolio
              (Dict.set (positions portfolio) (PaperPosition.id position) position) in
          Some (Some position,
                with_portfolios self
                  (Dict.set (portfolios self) (Signal.strategy_name signal) portfolio'),
                log ++ ["Paper trade opened"])
  end.
End PaperTrader.

Module PerformanceTracker.
(** [None] stands for an exception: the [ZeroDivisionError] of a zero
    [initial_capital], the [OverflowError] of a square out of range. *)
Definition _calculate_sharpe (cpython : summation) (trades : list PaperPosition.t)
    (initial_capital risk_free_rate : float) : option float :=
  if (List.length trades <? 2)%nat then Some 0
  else
    returns <- traverse (fun t => py_div (PaperPosition.pnl t) initial_capital) trades ;;
    n <- float_of_int (Z.of_nat (List.length returns)) ;;
    mean_return <- py_div (py_sum cpython returns) n ;;
    squares <- traverse (fun r => py_square (r - mean_return)) returns ;;
    variance <- py_div (py_sum cpython squares) n ;;
    let std_return := if 0 <? variance then sqrt variance else 0 in
    if std_return =? 0 then Some 0
    else
      let trades_per_year := 2500 in
      let annualized_return := mean_return * trades_per_year in
      let annualized_std := std_return * sqrt trades_per_year in
      py_div (annualized_return - risk_free_rate) annualized_std.
End PerformanceTracker.

(** The contract price a side pays. *)
Definition effective_price (side : string) (market_price : float) : float :=
  if String.eqb side "yes" then market_price else 1 - market_price.

(** ** Sample states over binary64 *)

(** A trader with the default risk limits and one strategy funded with
    [capital] ($50 for [one_strategy]), and a signal of [size] dollars on
    "yes". *)
Definition funded (capital : float) : PaperTrader.t :=
  fst (PaperTrader.initialize_portfolio
         (PaperTrader.__init__ RiskConfig.default) "Momentum" capital).

Definition one_strategy : PaperTrader.t := funded 50.

Definition buy (size : float) : Signal.t :=
  Signal.mk "KXMARKET" "yes" 0.9 size "Momentum" 0%R None.

(** A closed trade of 25 contracts bought for $5 and sold for $15: its
    P&L is exactly 10.0. *)
Definition closed_trade (id : string) : PaperPosition.t :=
  PaperPosition.mk id "Momentum" "KXMARKET" "KXMARKET" "yes" 25 0.2 0%R 5
    (Some 0.6) (Some 3600%R) (Some 15) CLOSED [].

Definition three_equal_trades : list PaperPosition.t :=
  [closed_trade "t1"; closed_trade "t2"; closed_trade "t3"].

(** The position that $5 at a yes-price of 0.2 buys, and the trader that
    holds it. *)
Definition sample_position : PaperPosition.t :=
  PaperPosition.mk "p1" "Momentum" "KXMARKET" "KXMARKET" "yes" 25 0.2 0%R 5
    None None None OPEN [].

Definition holding : PaperTrader.t :=
  PaperTrader.mk RiskConfig.default
    [("Momentum",
      StrategyPortfolio.mk "Momentum" 50 50 [("p1", sample_position)] [])]
    0 None.
End Binary64.

(* ===================================================================== *)
(** * Notions of the specification *)
(* ===================================================================== *)

(** The contract price a side pays: the market's yes-price for "yes", one
    minus it otherwise. *)
Definition effective_price (side : string) (market_price : float) : float :=
  if String.eqb side "yes" then market_price else 1 - market_price.

(** The ids of all positions held in the open maps, portfolio by
    portfolio. *)
Definition ids_of (ps : Dict.t StrategyPortfolio.t) : list string :=
  flat_map (fun np => Dict.keys (StrategyPortfolio.positions (snd np))) ps.

Definition open_ids (self : PaperTrader.t) : list string :=
  ids_of (PaperTrader.portfolios self).

(** [position] is held open under key [k] by one of the portfolios. *)
Definition held (ps : Dict.t StrategyPortfolio.t) (k : string)
    (position : PaperPosition.t) : Prop :=
  exists name portfolio,
    In (name, portfolio) ps
    /\ In (k, position) (StrategyPortfolio.positions portfolio).

(** Every position held by [ps'] is held by [ps]. *)
Definition held_sub (ps' ps : Dict.t StrategyPortfolio.t) : Prop :=
  forall k position, held ps' k position -> held ps k position.

(** Every entry of every open map is filed under its own id and has
    status [OPEN]. *)
Definition well_filed (ps : Dict.t StrategyPortfolio.t) : Prop :=
  forall k position,
    held ps k position ->
    PaperPosition.id position = k /\ PaperPosition.status position = OPEN.

(** The trader states that the public operations of the ledger produce
    from a fresh [PaperTrader].  The capital that a rebalance of the
    allocator writes into the portfolios comes in with [reachable_since]
    below. *)
Inductive reachable : PaperTrader.t -> Prop :=
| reach_init risk :
    reachable (PaperTrader.__init__ risk)
| reach_initialize self name capital :
    reachable self ->
    reachable (fst (PaperTrader.initialize_portfolio self name capital))
| reach_execute self signal market_price uuid4 now :
    reachable self ->
    reachable (snd (fst (PaperTrader.execute_signal self signal market_price uuid4 now)))
| reach_close self position_id exit_price reason now :
    reachable self ->
    reachable (snd (fst (PaperTrader.close_position self position_id exit_price reason now)))
| reach_check_exits self strategy market_data now :
    reachable self ->
    reachable (snd (fst (PaperTrader.check_exits self strategy market_data now)))
| reach_reset_daily self now :
    reachable self ->
    reachable (PaperTrader.reset_daily_stats self now).

(** The states reached when every [execute_signal] draws an id that no
    open map holds, as [uuid4] does. *)
Inductive reachable_fresh : PaperTrader.t -> Prop :=
| fresh_init risk :
    reachable_fresh (PaperTrader.__init__ risk)
| fresh_initialize self name capital :
    reachable_fresh self ->
    reachable_fresh (fst (PaperTrader.initialize_portfolio self name capital))
| fresh_execute self signal market_price uuid4 now :
    reachable_fresh self ->
    ~ In uuid4 (open_ids self) ->
    reachable_fresh
      (snd (fst (PaperTrader.execute_signal self signal market_price uuid4 now)))
| fresh_close self position_id exit_price reason now :
    reachable_fresh self ->
    reachable_fresh
      (snd (fst (PaperTrader.close_position self position_id exit_price reason now)))
| fresh_check_exits self strategy market_data now :
    reachable_fresh self ->
    reachable_fresh (snd (fst (PaperTrader.check_exits self strategy market_data now)))
| fresh_reset_daily self now :
    reachable_fresh self ->
    reachable_fresh (PaperTrader.reset_daily_stats self now).

(** The cash baseline of every portfolio, in dict order. *)
Definition capitals (self : PaperTrader.t) : list (string * float) :=
  map (fun np => (fst np, StrategyPortfolio.current_capital (snd np)))
      (PaperTrader.portfolios self).

(** [position] is in the closed list of one of the portfolios. *)
Definition archived (ps : Dict.t StrategyPortfolio.t)
    (position : PaperPosition.t) : Prop :=
  exists name portfolio,
    In (name, portfolio) ps
    /\ In position (StrategyPortfolio.closed_positions portfolio).

(** The view of a position that [check_exits] hands to the strategy. *)
Definition pos_dict_of (position : PaperPosition.t) : PosDict.t :=
  PosDict.mk (PaperPosition.entry_price position) (PaperPosition.side position)
    (PaperPosition.metadata position).

(** The position is on the snapshot's market and its strategy wants it
    closed. *)
Definition wants_exit (strategy : Strategy.t) (market_data : MarketData.t)
    (position : PaperPosition.t) : Prop :=
  MarketData.market_id market_data = Some (PaperPosition.ticker position)
  /\ Strategy.should_exit strategy (pos_dict_of position) market_data = true.

(** ** Statistics, as the specification words them *)

(** Per-trade returns [r_i = pnl_i / initial_capital]. *)
Definition returns_of (trades : list PaperPosition.t) (initial_capital : float) : list R :=
  map (fun t => PaperPosition.pnl t / initial_capital) trades.

Definition mean (rs : list R) : R := py_sum rs / len rs.

(** Population variance and standard deviation. *)
Definition pvariance (rs : list R) : R :=
  py_sum (map (fun r => (r - mean rs) ^ 2) rs) / len rs.

Definition pstdev (rs : list R) : R := sqrt (pvariance rs).

(** Gross profit is the summed P&L of the trades with [pnl > 0], gross loss
    the absolute value of the summed P&L of the others. *)
Definition gross_profit (trades : list PaperPosition.t) : R :=
  py_sum (map PaperPosition.pnl (filter (fun t => PaperPosition.pnl t >? 0) trades)).

Definition gross_loss (trades : list PaperPosition.t) : R :=
  Rabs (py_sum (map PaperPosition.pnl
                    (filter (fun t => PaperPosition.pnl t <=? 0) trades))).

(** The capital history of the strategy, if there is one, is not the empty
    list (on which [max] raises). *)
Definition history_ok (self : PerformanceTracker.t) (name : string) : Prop :=
  Dict.get (PerformanceTracker._capital_history self) name <> Some [].

(** ** The score, as the specification words it *)

Definition clamp (x lo hi : R) : R := Rmax lo (Rmin hi x).

(** The clamp of a value that may be [+inf], which clamps to the upper
    bound. *)
Definition clamp_x (x : xfloat) (lo hi : R) : R :=
  match x with Fin r => clamp r lo hi | PInf => hi end.

(** The formula of the specification: every component is clamped to
    [0, 1]. *)
Definition claimed_score (performance_weight risk_weight : R)
    (m : StrategyMetrics.t) : R :=
  if (StrategyMetrics.total_trades m <? 3)%Z then 0
  else
    Rmax 0
      (performance_weight
       * (4 / 10 * clamp (StrategyMetrics.sharpe_ratio m / 2) 0 1
          + 3 / 10 * clamp (StrategyMetrics.win_rate m / 100) 0 1
          + 3 / 10 * clamp_x (x_div_pos (x_sub (StrategyMetrics.profit_factor m) 1) 2) 0 1)
       - risk_weight * clamp (StrategyMetrics.max_drawdown m / 20) 0 1).

(** The formula of the code: the win rate is not clamped, and the drawdown
    penalty is only capped at 1. *)
Definition coded_score (performance_weight risk_weight : R)
    (m : StrategyMetrics.t) : R :=
  if (StrategyMetrics.total_trades m <? 3)%Z then 0
  else
    Rmax 0
      (performance_weight
       * (4 / 10 * clamp (StrategyMetrics.sharpe_ratio m / 2) 0 1
          + 3 / 10 * (StrategyMetrics.win_rate m / 100)
          + 3 / 10 * clamp_x (x_div_pos (x_sub (StrategyMetrics.profit_factor m) 1) 2) 0 1)
       - risk_weight * Rmin 1 (StrategyMetrics.max_drawdown m / 20)).

(** A ranking of three strategies with the scores of the specification's
    example: 0.6, 0.3 and 0. *)
Definition scored_rankings (n1 n2 n3 : string) (m1 m2 m3 : StrategyMetrics.t)
    : list Ranking :=
  [(n1, 6 / 10, m1); (n2, 3 / 10, m2); (n3, 0, m3)].


(** ** Risk limits, as [_check_risk_limits] reads them *)

(** The dollar cost of all open positions, over all portfolios. *)
Definition exposure_all (self : PaperTrader.t) : float :=
  py_sum (map StrategyPortfolio.total_exposure (Dict.values (PaperTrader.portfolios self))).

(** The number of open positions, over all portfolios. *)
Definition open_count (self : PaperTrader.t) : Z :=
  fold_left Z.add
    (map (fun p => Z.of_nat (List.length (StrategyPortfolio.open_positions p)))
         (Dict.values (PaperTrader.portfolios self))) 0%Z.

Definition exposure_cap (self : PaperTrader.t) : float :=
  RiskConfig.max_total_capital (PaperTrader.risk_config self)
  * RiskConfig.max_exposure_pct (PaperTrader.risk_config self).

(** The five limits, none of them violated. *)
Definition within_limits (self : PaperTrader.t) (signal : Signal.t)
    (portfolio : StrategyPortfolio.t) : Prop :=
  Signal.size signal <= StrategyPortfolio.available_capital portfolio
  /\ Signal.size signal <= RiskConfig.max_position_size (PaperTrader.risk_config self)
  /\ exposure_all self + Signal.size signal <= exposure_cap self
  /\ (open_count self < RiskConfig.max_concurrent_positions (PaperTrader.risk_config self))%Z
  /\ - RiskConfig.max_daily_loss (PaperTrader.risk_config self) <= PaperTrader._daily_pnl self.

(** All open positions, portfolio by portfolio. *)
Definition all_open (ps : Dict.t StrategyPortfolio.t) : list PaperPosition.t :=
  flat_map (fun np => Dict.values (StrategyPortfolio.positions (snd np))) ps.

(** The test of [check_exits] on one open position: it is on the
    snapshot's market and the strategy wants it closed. *)
Definition wants_exit_b (strategy : Strategy.t) (market_data : MarketData.t)
    (position : PaperPosition.t) : bool :=
  match MarketData.market_id market_data with
  | Some m => String.eqb (PaperPosition.ticker position) m
  | None => false
  end
  && Strategy.should_exit strategy (pos_dict_of position) market_data.

(** The yes-price at which [check_exits] closes: the snapshot's, or 0.5. *)
Definition exit_yes_price (market_data : MarketData.t) : float :=
  match MarketData.yes_price market_data with Some p => p | None => 5 / 10 end.

(** The books of a ledger that draws fresh ids: ids are unique, every open
    position is filed under its id with status [OPEN], and its entry cost
    is positive. *)
Definition ledger_ok (self : PaperTrader.t) : Prop :=
  NoDup (open_ids self)
  /\ well_filed (PaperTrader.portfolios self)
  /\ (forall k position,
        held (PaperTrader.portfolios self) k position ->
        0 < PaperPosition.entry_cost position).

(** The summed entry cost of all open positions. *)
Definition open_cost (ps : Dict.t StrategyPortfolio.t) : R :=
  py_sum (map PaperPosition.entry_cost (all_open ps)).

(** A step that opens nothing: the books stay in order, the risk
    configuration is kept, and neither the cost nor the number of the open
    positions grows. *)
Definition shrinks (self self' : PaperTrader.t) : Prop :=
  ledger_ok self'
  /\ PaperTrader.risk_config self' = PaperTrader.risk_config self
  /\ open_cost (PaperTrader.portfolios self') <= open_cost (PaperTrader.portfolios self)
  /\ (List.length (all_open (PaperTrader.portfolios self'))
      <= List.length (all_open (PaperTrader.portfolios self)))%nat.

(** The cash baseline of a portfolio is what it started with plus the
    realized P&L of its closed trades, and its closed list holds closed
    positions only. *)
Definition balanced (portfolio : StrategyPortfolio.t) : Prop :=
  StrategyPortfolio.current_capital portfolio
  = StrategyPortfolio.initial_capital portfolio
    + StrategyPortfolio.total_pnl portfolio
  /\ Forall (fun p => PaperPosition.status p = CLOSED)
            (StrategyPortfolio.closed_positions portfolio).

Definition all_balanced (ps : Dict.t StrategyPortfolio.t) : Prop :=
  forall name portfolio, In (name, portfolio) ps -> balanced portfolio.

(** ** The tracker *)

(** The capital series that [_calculate_max_drawdown] walks: the recorded
    history of the strategy or, without one, the series rebuilt from the
    closed trades in the order of their exit times. *)
Definition drawdown_history (self : PerformanceTracker.t) (strategy_name : string)
    (portfolio : StrategyPortfolio.t) : list R :=
  match Dict.get (PerformanceTracker._capital_history self) strategy_name with
  | Some ((_ :: _) as h) => h
  | _ =>
      PerformanceTracker.capital_series (StrategyPortfolio.initial_capital portfolio)
        (sorted_by_key
           (fun t => match PaperPosition.exit_time t with
                     | Some e => e
                     | None => PaperPosition.entry_time t
                     end)
           (StrategyPortfolio.closed_positions portfolio))
  end.

(** The trackers that snapshots and metric calculations produce from a
    fresh [PerformanceTracker]. *)
Inductive tracker_reachable : PerformanceTracker.t -> Prop :=
| tracker_init config :
    tracker_reachable (PerformanceTracker.__init__ config)
| tracker_snapshot self strategy_name capital :
    tracker_reachable self ->
    tracker_reachable
      (PerformanceTracker.record_capital_snapshot self strategy_name capital)
| tracker_metrics self portfolio now metrics self' :
    tracker_reachable self ->
    PerformanceTracker.calculate_metrics self portfolio now = Some (metrics, self') ->
    tracker_reachable self'.

(** ** Allocations *)

(** The rankings that receive an allocation: the qualified ones, or all of
    them when none qualifies. *)
Definition allocated_rankings (self : CapitalAllocator.t) (rankings : list Ranking)
    : list Ranking :=
  match filter (CapitalAllocator.is_qualified self) rankings with
  | [] => rankings
  | (_ :: _) as qualified => qualified
  end.

(** The fields of an allocation result that normalisation leaves alone, and
    the change as the difference it is meant to be. *)
Definition allocation_for (self : CapitalAllocator.t) (x : Ranking)
    (rank : nat) (r : AllocationResult.t) : Prop :=
  AllocationResult.strategy_name r = fst (fst x)
  /\ AllocationResult.score r = snd (fst x)
  /\ AllocationResult.rank r = Z.of_nat rank
  /\ AllocationResult.current_capital r = CapitalAllocator.current_of self (fst (fst x))
  /\ AllocationResult.allocation_change r
     = AllocationResult.new_allocation r - AllocationResult.current_capital r.

(** [results] answers the rankings [xs] one by one, with ranks counted
    from [rank]. *)
Fixpoint allocations_for (self : CapitalAllocator.t) (rank : nat)
    (xs : list Ranking) (results : list AllocationResult.t) : Prop :=
  match xs, results with
  | [], [] => True
  | x :: xs', r :: results' =>
      allocation_for self x rank r /\ allocations_for self (S rank) xs' results'
  | _, _ => False
  end.

(** What [rebalance] does to the portfolio [pf] of strategy [name]: it
    keeps the name, the open positions and the closed trades; an
    allocation for the strategy becomes both the capital and the
    baseline; without one the portfolio is left as it is. *)
Definition reallocated (allocations : list AllocationResult.t) (name : string)
    (pf pf' : StrategyPortfolio.t) : Prop :=
  StrategyPortfolio.strategy_name pf' = StrategyPortfolio.strategy_name pf
  /\ StrategyPortfolio.positions pf' = StrategyPortfolio.positions pf
  /\ StrategyPortfolio.closed_positions pf' = StrategyPortfolio.closed_positions pf
  /\ (forall alloc,
        In alloc allocations -> AllocationResult.strategy_name alloc = name ->
        StrategyPortfolio.current_capital pf' = AllocationResult.new_allocation alloc
        /\ StrategyPortfolio.initial_capital pf' = AllocationResult.new_allocation alloc)
  /\ ((forall alloc,
         In alloc allocations -> AllocationResult.strategy_name alloc <> name) ->
      pf' = pf).

(** ** The cash baseline across rebalances *)

(** The number of closed trades in the portfolio of [name] (0 without
    one). *)
Definition closed_count (self : PaperTrader.t) (name : string) : nat :=
  match PaperTrader.get_portfolio self name with
  | Some portfolio => List.length (StrategyPortfolio.closed_positions portfolio)
  | None => 0%nat
  end.

(** Baseline marks say, per strategy, how many closed trades its portfolio
    held when its baseline was last set.  [rebased marks self names] moves
    the marks of [names] to the present counts of [self]. *)
Definition rebased (marks : string -> nat) (self : PaperTrader.t)
    (names : list string) : string -> nat :=
  fun name =>
    if existsb (String.eqb name) names then closed_count self name else marks name.

(** The trader states that the operations of the ledger and the rebalances
    of an allocator around it produce from a fresh [PaperTrader], each with
    its baseline marks: [initialize_portfolio] starts a portfolio without
    closed trades, and [rebalance] resets the baseline of every strategy
    it allocates to. *)
Inductive reachable_since : PaperTrader.t -> (string -> nat) -> Prop :=
| since_init risk :
    reachable_since (PaperTrader.__init__ risk) (fun _ => 0%nat)
| since_initialize self marks name capital :
    reachable_since self marks ->
    reachable_since (fst (PaperTrader.initialize_portfolio self name capital))
      (fun n => if String.eqb n name then 0%nat else marks n)
| since_execute self marks signal market_price uuid4 now :
    reachable_since self marks ->
    reachable_since
      (snd (fst (PaperTrader.execute_signal self signal market_price uuid4 now)))
      marks
| since_close self marks position_id exit_price reason now :
    reachable_since self marks ->
    reachable_since
      (snd (fst (PaperTrader.close_position self position_id exit_price reason now)))
      marks
| since_check_exits self marks strategy market_data now :
    reachable_since self marks ->
    reachable_since
      (snd (fst (PaperTrader.check_exits self strategy market_data now))) marks
| since_reset_daily self marks now :
    reachable_since self marks ->
    reachable_since (PaperTrader.reset_daily_stats self now) marks
| since_rebalance allocator marks now stamp allocations allocator' log :
    reachable_since (CapitalAllocator.paper_trader allocator) marks ->
    CapitalAllocator.rebalance allocator now stamp = Some (allocations, allocator', log) ->
    reachable_since (CapitalAllocator.paper_trader allocator')
      (rebased marks (CapitalAllocator.paper_trader allocator)
         (map AllocationResult.strategy_name allocations)).

(** The capital of a portfolio is its baseline plus the realized P&L of
    the trades closed after the first [mark] ones, and its closed list
    holds closed positions only. *)
Definition settled_portfolio (mark : nat) (portfolio : StrategyPortfolio.t) : Prop :=
  (mark <= List.length (StrategyPortfolio.closed_positions portfolio))%nat
  /\ StrategyPortfolio.current_capital portfolio
     = StrategyPortfolio.initial_capital portfolio
       + py_sum (map PaperPosition.pnl
                     (skipn mark (StrategyPortfolio.closed_positions portfolio)))
  /\ Forall (fun p => PaperPosition.status p = CLOSED)
            (StrategyPortfolio.closed_positions portfolio).

Definition settled (marks : string -> nat) (ps : Dict.t StrategyPortfolio.t) : Prop :=
  forall name portfolio,
    Dict.get ps name = Some portfolio -> settled_portfolio (marks name) portfolio.

(** ** Sample states *)

(** A trader with the default risk limits and one strategy funded with
    [capital]. *)
Definition one_strategy (capital : float) : PaperTrader.t :=
  fst (PaperTrader.initialize_portfolio
         (PaperTrader.__init__ RiskConfig.default) "Momentum" capital).

Definition buy (side : string) (size : float) : Signal.t :=
  Signal.mk "KXMARKET" side (9 / 10) size "Momentum" 0 None.

(** The position of the specification's example: $5 on "yes" at a
    yes-price of 0.20 buys 25 contracts. *)
Definition sample_position : PaperPosition.t :=
  PaperPosition.mk "p1" "Momentum" "KXMARKET" "KXMARKET" "yes" 25 (1 / 5) 0 5
    None None None OPEN [].

(** [one_strategy 50] holding [sample_position]. *)
Definition holding : PaperTrader.t :=
  PaperTrader.mk RiskConfig.default
    [("Momentum",
      StrategyPortfolio.mk "Momentum" 50 50 [("p1", sample_position)] [])]
    0 None.

(** A strategy that always wants out, and a snapshot of the sample market
    that carries no "yes_price". *)
Definition always_exit : Strategy.t := Strategy.mk "Momentum" (fun _ _ => true).

Definition snapshot_without_price : MarketData.t :=
  MarketData.mk (Some "KXMARKET") None (Some 12).

(** A closed trade of 25 contracts bought for $5 and sold for
    [exit_value]; its P&L is [exit_value - 5]. *)
Definition closed_trade (id : string) (exit_value : float) : PaperPosition.t :=
  PaperPosition.mk id "Momentum" "KXMARKET" "KXMARKET" "yes" 25 (1 / 5) 0 5
    (Some (exit_value / 25)) (Some 3600) (Some exit_value) CLOSED [].

(** A portfolio with a baseline of $100 and the given closed trades. *)
Definition with_history (trades : list PaperPosition.t) : StrategyPortfolio.t :=
  StrategyPortfolio.mk "Momentum" 100 100 [] trades.

Definition empty_tracker : PerformanceTracker.t :=
  PerformanceTracker.mk PerformanceConfig.default [] [].

(** An allocator over $200 with the default weights (0.7 and 0.3) and the
    default ranking threshold of 5 trades. *)
Definition allocator_200 : CapitalAllocator.t :=
  CapitalAllocator.mk AllocatorConfig.default empty_tracker
    (PaperTrader.__init__ RiskConfig.default) 200 None [].

(** Metrics that only say how many trades there were and what the win rate
    is. *)
Definition metrics_of (trades : Z) (win_rate : float) : StrategyMetrics.t :=
  StrategyMetrics.mk "Momentum" 0 0 0 (Fin 0) 0 trades 0 0 win_rate 0 0 (Fin 0) 0 0 0 0 0.

(** The ranking of the specification's example, under the default strategy
    names; the third strategy has two closed trades. *)
Definition example_rankings : list Ranking :=
  scored_rankings "MeanReversion" "Momentum" "MarketMaking"
    (metrics_of 10 60) (metrics_of 10 40) (metrics_of 2 0).

(** Four winning trades with P&L 1, 1, 3 and 3. *)
Definition four_wins : list PaperPosition.t :=
  [closed_trade "t1" 6; closed_trade "t2" 6; closed_trade "t3" 8; closed_trade "t4" 8].

Definition funded (name : string) (trades : list PaperPosition.t)
    : StrategyPortfolio.t :=
  StrategyPortfolio.mk name 100 100 [] trades.

(** Three strategies: two with the four winning trades, one with two
    trades only.  "Momentum" has a recorded capital history with a 20%
    drawdown. *)
Definition example_trader : PaperTrader.t :=
  PaperTrader.mk RiskConfig.default
    [("MeanReversion", funded "MeanReversion" four_wins);
     ("Momentum", funded "Momentum" four_wins);
     ("MarketMaking", funded "MarketMaking" [closed_trade "t5" 6; closed_trade "t6" 8])]
    0 None.

Definition example_tracker : PerformanceTracker.t :=
  PerformanceTracker.mk PerformanceConfig.default [] [("Momentum", [10; 8])].

(** An allocator over $200 with performance weight 0.6 and risk weight
    0.3, under which the three strategies score 0.6, 0.3 and 0. *)
Definition example_allocator : CapitalAllocator.t :=
  CapitalAllocator.mk (AllocatorConfig.mk 24 (5 / 10) (6 / 10) (3 / 10))
    example_tracker example_trader 200 None [].


(** A snapshot of the sample market quoted at 0.60. *)
Definition priced_snapshot : MarketData.t :=
  MarketData.mk (Some "KXMARKET") (Some (6 / 10)) (Some 12).

(** A snapshot of another market. *)
Definition other_snapshot : MarketData.t :=
  MarketData.mk (Some "KXOTHER") (Some (6 / 10)) (Some 12).

(** A new allocator over $200 for the trader with one strategy funded with
    $50 and no trade yet. *)
Definition young_allocator : CapitalAllocator.t :=
  CapitalAllocator.__init__ AllocatorConfig.default empty_tracker (one_strategy 50) 200.

(** A trader whose only strategy is mean reversion, a bet of [size]
    dollars against "yes", the position it buys at a yes-price of 0.96,
    and the snapshot of that price. *)
Definition fader : PaperTrader.t :=
  fst (PaperTrader.initialize_portfolio
         (PaperTrader.__init__ RiskConfig.default) "MeanReversion" 66).

Definition fade (size : float) : Signal.t :=
  Signal.mk "KXMARKET" "no" (95 / 100) size "MeanReversion" 0 None.

Definition faded_position : PaperPosition.t :=
  PaperPosition.mk "p1" "MeanReversion" "KXMARKET" "KXMARKET" "no" 125
    (1 - 96 / 100) 0 5 None None None OPEN [].

Definition fading : PaperTrader.t :=
  PaperTrader.mk RiskConfig.default
    [("MeanReversion",
      StrategyPortfolio.mk "MeanReversion" 66 66 [("p1", faded_position)] [])]
    0 None.

Definition extreme_snapshot : MarketData.t :=
  MarketData.mk (Some "KXMARKET") (Some (96 / 100)) (Some 12).

(** A trader that has lost $25 today, more than the default daily limit of
    $20. *)
Definition stopped : PaperTrader.t :=
  PaperTrader.mk RiskConfig.default
    [("Momentum", StrategyPortfolio.mk "Momentum" 50 25 [] [])] (-25) None.

(** The sample position sold at a yes-price of 0.30, and the portfolio
    that has sold it. *)
Definition sold_position : PaperPosition.t :=
  PaperTrader.mark_closed sample_position (3 / 10) "signal" 1.

Definition seasoned_portfolio : StrategyPortfolio.t :=
  StrategyPortfolio.mk "Momentum" 50 (50 + PaperPosition.pnl sold_position) []
    [sold_position].

(** An allocator over $200 around the trader that bought the sample
    position and sold it at a yes-price of 0.30, for a P&L of $2.50. *)
Definition seasoned_allocator : CapitalAllocator.t :=
  CapitalAllocator.__init__ AllocatorConfig.default empty_tracker
    (snd (fst (PaperTrader.close_position holding "p1" (3 / 10) "signal" 1))) 200.

(* ===================================================================== *)
(** * Facts about the Python primitives *)
(* ===================================================================== *)

Lemma Some_inj {A : Type} (a b : A) : Some a = Some b -> a = b.
Proof. congruence. Qed.

Section Comparisons.
Variables x y : R.

Lemma Rgtb_true_iff : (x >? y) = true <-> x > y.
Proof. unfold Rgtb. destruct (Rgt_dec x y); split; intros; (congruence || lra). Qed.

Lemma Rgtb_false_iff : (x >? y) = false <-> x <= y.
Proof. unfold Rgtb. destruct (Rgt_dec x y); split; intros; (congruence || lra). Qed.

Lemma Rltb_true_iff : (x <? y) = true <-> x < y.
Proof. unfold Rltb. destruct (Rlt_dec x y); split; intros; (congruence || lra). Qed.

Lemma Rltb_false_iff : (x <? y) = false <-> y <= x.
Proof. unfold Rltb. destruct (Rlt_dec x y); split; intros; (congruence || lra). Qed.

Lemma Rgeb_true_iff : (x >=? y) = true <-> x >= y.
Proof. unfold Rgeb. destruct (Rge_dec x y); split; intros; (congruence || lra). Qed.

Lemma Rgeb_false_iff : (x >=? y) = false <-> x < y.
Proof. unfold Rgeb. destruct (Rge_dec x y); split; intros; (congruence || lra). Qed.

Lemma Rleb_true_iff : (x <=? y) = true <-> x <= y.
Proof. unfold Rleb. destruct (Rle_dec x y); split; intros; (congruence || lra). Qed.

Lemma Rleb_false_iff : (x <=? y) = false <-> y < x.
Proof. unfold Rleb. destruct (Rle_dec x y); split; intros; (congruence || lra). Qed.

Lemma Reqb_true_iff : (x =? y) = true <-> x = y.
Proof. unfold Reqb. destruct (Req_dec_T x y); split; intros; (congruence || lra). Qed.

Lemma Reqb_false_iff : (x =? y) = false <-> x <> y.
Proof. unfold Reqb. destruct (Req_dec_T x y); split; intros; (congruence || lra). Qed.
End Comparisons.

(** Decide every float comparison in the goal whose outcome [lra] can
    settle. *)
Ltac float_decide :=
  repeat match goal with
  | |- context [Rgtb ?a ?b] =>
      first [ rewrite (proj2 (Rgtb_true_iff a b)) by lra
            | rewrite (proj2 (Rgtb_false_iff a b)) by lra ]
  | |- context [Rltb ?a ?b] =>
      first [ rewrite (proj2 (Rltb_true_iff a b)) by lra
            | rewrite (proj2 (Rltb_false_iff a b)) by lra ]
  | |- context [Rgeb ?a ?b] =>
      first [ rewrite (proj2 (Rgeb_true_iff a b)) by lra
            | rewrite (proj2 (Rgeb_false_iff a b)) by lra ]
  | |- context [Rleb ?a ?b] =>
      first [ rewrite (proj2 (Rleb_true_iff a b)) by lra
            | rewrite (proj2 (Rleb_false_iff a b)) by lra ]
  | |- context [Reqb ?a ?b] =>
      first [ rewrite (proj2 (Reqb_true_iff a b)) by lra
            | rewrite (proj2 (Reqb_false_iff a b)) by lra ]
  end.

(** Evaluate: decide comparisons and simplify, as long as that makes
    progress. *)
Ltac float_eval := repeat (progress (float_decide; simpl)).

(** Split on a float comparison and record its meaning. *)
Ltac float_case c :=
  let H := fresh "Hc" in
  destruct c eqn:H;
  [ first [ apply Rgtb_true_iff in H | apply Rltb_true_iff in H
          | apply Rgeb_true_iff in H | apply Rleb_true_iff in H
          | apply Reqb_true_iff in H ]
  | first [ apply Rgtb_false_iff in H | apply Rltb_false_iff in H
          | apply Rgeb_false_iff in H | apply Rleb_false_iff in H
          | apply Reqb_false_iff in H ] ].

Lemma py_max_Rmax a b : py_max a b = Rmax a b.
Proof.
  unfold py_max. float_case (b >? a).
  - rewrite Rmax_right; lra.
  - rewrite Rmax_left; lra.
Qed.

Lemma py_min_Rmin a b : py_min a b = Rmin a b.
Proof.
  unfold py_min. float_case (b <? a).
  - rewrite Rmin_right; lra.
  - rewrite Rmin_left; lra.
Qed.

Lemma fold_left_Rplus xs a : fold_left Rplus xs a = a + fold_left Rplus xs 0.
Proof.
  revert a. induction xs as [|x xs IH]; intros a; simpl.
  - lra.
  - rewrite (IH (a + x)), (IH (0 + x)). lra.
Qed.

Lemma py_sum_nil : py_sum [] = 0.
Proof. reflexivity. Qed.

Lemma py_sum_cons x xs : py_sum (x :: xs) = x + py_sum xs.
Proof. unfold py_sum. simpl. rewrite fold_left_Rplus. lra. Qed.

Lemma py_sum_app xs ys : py_sum (xs ++ ys) = py_sum xs + py_sum ys.
Proof.
  induction xs as [|x xs IH]; simpl.
  - rewrite py_sum_nil. lra.
  - rewrite !py_sum_cons, IH. lra.
Qed.

Lemma Rmult_div_same (a b : R) : b <> 0 -> b * (a / b) = a.
Proof. intros Hb. field. exact Hb. Qed.

Lemma Int_part_nonneg x : 0 <= x -> (0 <= Int_part x)%Z.
Proof.
  intros Hx. destruct (base_Int_part x) as [_ H].
  assert (Hlt : IZR (-1) < IZR (Int_part x)) by (simpl; lra).
  apply lt_IZR in Hlt. lia.
Qed.

(** On the values for which [int(x)] is positive, truncation is the floor. *)
Lemma py_int_pos_floor x : (0 < py_int x)%Z -> py_int x = floor x.
Proof.
  unfold py_int, floor. destruct (Rle_dec 0 x) as [H|H]; [reflexivity|].
  intros Hpos. assert (0 <= Int_part (- x))%Z by (apply Int_part_nonneg; lra). lia.
Qed.

Lemma py_int_IZR z : py_int (IZR z) = z.
Proof.
  unfold py_int. destruct (Rle_dec 0 (IZR z)) as [H|H].
  - symmetry. apply Int_part_spec. lra.
  - rewrite <- opp_IZR. rewrite <- (Int_part_spec (IZR (- z)) (- z)); [lia | lra].
Qed.

Section DictFacts.
Context {V : Type}.
Implicit Types (d : Dict.t V) (k : string) (v : V).

Lemma get_In d k v : Dict.get d k = Some v -> In (k, v) d.
Proof.
  induction d as [|[k' v'] d IH]; simpl; [discriminate|].
  destruct (String.eqb_spec k k') as [->|Hne].
  - intros [= ->]. now left.
  - intros H. right. auto.
Qed.

Lemma get_None_keys d k : Dict.get d k = None <-> ~ In k (Dict.keys d).
Proof.
  induction d as [|[k' v'] d IH]; simpl.
  - tauto.
  - destruct (String.eqb_spec k k') as [->|Hne].
    + split; [discriminate | intros H; exfalso; apply H; now left].
    + rewrite IH. split; intros H; [intros [E|E]; [congruence | tauto] | tauto].
Qed.

Lemma get_NoDup d k v : NoDup (Dict.keys d) -> In (k, v) d -> Dict.get d k = Some v.
Proof.
  induction d as [|[k' v'] d IH]; simpl; [tauto|].
  intros Hnd [E|Hin]; inversion Hnd as [|? ? Hk' Hnd']; subst.
  - injection E as -> ->. now rewrite String.eqb_refl.
  - destruct (String.eqb_spec k k') as [->|Hne]; [|auto].
    exfalso. apply Hk'. apply (in_map fst) in Hin. exact Hin.
Qed.

(** Overwriting the value found under [k] does not change anything that a
    projection [f] sees, when [f] agrees on the old and the new value. *)
Lemma set_same_projection {W : Type} (f : V -> W) d k v v' :
  Dict.get d k = Some v -> f v' = f v ->
  map (fun kv => (fst kv, f (snd kv))) (Dict.set d k v')
  = map (fun kv => (fst kv, f (snd kv))) d.
Proof.
  induction d as [|[k0 v0] d IH]; simpl; [discriminate|].
  destruct (String.eqb_spec k k0) as [->|Hne]; simpl.
  - intros [= ->] ->. reflexivity.
  - intros Hg Hf. now rewrite IH.
Qed.

Lemma keys_set_present d k v :
  In k (Dict.keys d) -> Dict.keys (Dict.set d k v) = Dict.keys d.
Proof.
  unfold Dict.keys. induction d as [|[k0 v0] d IH]; simpl; [tauto|].
  destruct (String.eqb_spec k k0) as [->|Hne]; simpl; [reflexivity|].
  intros [E|Hin]; [congruence|]. now rewrite IH.
Qed.

Lemma keys_set_absent d k v :
  ~ In k (Dict.keys d) -> Dict.keys (Dict.set d k v) = Dict.keys d ++ [k].
Proof.
  unfold Dict.keys. induction d as [|[k0 v0] d IH]; simpl; [reflexivity|].
  destruct (String.eqb_spec k k0) as [->|Hne]; simpl; [tauto|].
  intros Hn. rewrite IH; tauto.
Qed.

Lemma In_set d k v k' v' :
  In (k', v') (Dict.set d k v) -> (k' = k /\ v' = v) \/ In (k', v') d.
Proof.
  induction d as [|[k0 v0] d IH]; simpl.
  - intros [[= <- <-]|[]]. now left.
  - destruct (String.eqb_spec k k0) as [->|Hne]; simpl.
    + intros [[= <- <-]|H]; [now left | right; now right].
    + intros [E|H]; [right; now left|]. destruct (IH H); [now left | right; now right].
Qed.

Lemma In_del d k k' v' : In (k', v') (Dict.del d k) <-> k' <> k /\ In (k', v') d.
Proof.
  induction d as [|[k0 v0] d IH]; simpl; [tauto|].
  destruct (String.eqb_spec k k0) as [->|Hne]; simpl.
  - rewrite IH. split.
    + intros [? ?]; auto.
    + intros [Hne [[= -> ->]|H]]; [congruence | auto].
  - rewrite IH. split.
    + intros [[= <- <-]|[? ?]]; split; auto; congruence.
    + intros [Hk [E|H]]; [now left | right; auto].
Qed.

Lemma keys_del d k : Dict.keys (Dict.del d k) = List.remove string_dec k (Dict.keys d).
Proof.
  unfold Dict.keys. induction d as [|[k0 v0] d IH]; simpl; [reflexivity|].
  destruct (string_dec k k0) as [E|E].
  - subst. now rewrite String.eqb_refl.
  - destruct (String.eqb_spec k k0); [congruence|]. simpl. now rewrite IH.
Qed.
End DictFacts.

(* ===================================================================== *)
(** * The ledger: execute *)
(* ===================================================================== *)

Section Execute.
Import PaperTrader.

Lemma execute_signal_inv self signal market_price uuid4 now position self' log :
  execute_signal self signal market_price uuid4 now = (Some position, self', log) ->
  exists portfolio,
    Dict.get (portfolios self) (Signal.strategy_name signal) = Some portfolio
    /\ fst (_check_risk_limits self signal portfolio) = true
    /\ (0 < PaperPosition.quantity position)%Z
    /\ effective_price (Signal.side signal) market_price > 0
    /\ position =
       PaperPosition.mk uuid4 (Signal.strategy_name signal)
         (Signal.market_id signal) (Signal.market_id signal) (Signal.side signal)
         (py_int (Signal.size signal / effective_price (Signal.side signal) market_price))
         (effective_price (Signal.side signal) market_price) now
         (IZR (py_int (Signal.size signal
                       / effective_price (Signal.side signal) market_price))
          * effective_price (Signal.side signal) market_price)
         None None None OPEN
         (match Signal.metadata signal with Some ((_ :: _) as m) => m | _ => [] end)
    /\ self' =
       with_portfolios self
         (Dict.set (portfolios self) (Signal.strategy_name signal)
            (StrategyPortfolio.with_positions portfolio
               (Dict.set (StrategyPortfolio.positions portfolio) uuid4 position))).
Proof.
  unfold execute_signal. fold (effective_price (Signal.side signal) market_price).
  destruct (Dict.get (portfolios self) (Signal.strategy_name signal)) as [portfolio|];
    [|discriminate].
  destruct (_check_risk_limits self signal portfolio) as [ok l] eqn:Hrisk.
  destruct ok; simpl negb; cbv iota; [|discriminate].
  float_case (effective_price (Signal.side signal) market_price >? 0).
  - destruct (Z.leb_spec
                (py_int (Signal.size signal
                         / effective_price (Signal.side signal) market_price)) 0)
      as [Hq|Hq]; [discriminate|].
    intros H; injection H as <- <- <-.
    exists portfolio. rewrite Hrisk. simpl. repeat split; auto.
  - simpl. discriminate.
Qed.
End Execute.

(* ===================================================================== *)
(** * Binary64: the quantity and the cost of an executed signal *)
(* ===================================================================== *)

Section Binary64Execute.
Import PrimFloat FloatOps SpecFloat.
Import Binary64 Binary64.PaperTrader.
#[local] Set Warnings "-inexact-float".

Lemma Int_part_IZR z : Int_part (IZR z) = z.
Proof. symmetry. apply Int_part_spec. lra. Qed.

Lemma Int_part_quotient a d : (0 < d)%Z -> Int_part (IZR a / IZR d) = (a / d)%Z.
Proof.
  intros Hd. symmetry. apply Int_part_spec.
  assert (Hd' : 0 < IZR d) by now apply IZR_lt.
  pose proof (Z.mul_div_le a d Hd) as Hlo.
  pose proof (Z.mul_succ_div_gt a d Hd) as Hhi.
  apply IZR_le in Hlo. apply IZR_lt in Hhi.
  rewrite mult_IZR in Hlo, Hhi. rewrite succ_IZR in Hhi.
  split.
  - apply Rmult_lt_reg_r with (r := IZR d); [exact Hd'|].
    unfold Rminus. rewrite Rmult_plus_distr_r. unfold Rdiv.
    rewrite Rmult_assoc, Rinv_l by lra. lra.
  - apply Rmult_le_reg_r with (r := IZR d); [exact Hd'|].
    unfold Rdiv. rewrite Rmult_assoc, Rinv_l by lra. lra.
Qed.

(** On a number that truncates to a positive int, [int()] is the floor of
    the number's real value. *)
Lemma py_int_floor x z :
  py_int x = Some z -> (0 < z)%Z -> z = floor (B2R x).
Proof.
  unfold py_int, B2R, fraction, floor.
  destruct (Prim2SF x) as [s|s| |s m e]; try discriminate.
  - intros [= <-]. lia.
  - intros [= <-] Hpos. destruct s; simpl cond_Zopp in *.
    + exfalso. pose proof (Z.shiftl_nonneg (Zpos m) e) as [_ H].
      specialize (H ltac:(lia)). lia.
    + destruct (Z.leb_spec 0 e) as [He|He]; cbn [fst snd].
      * rewrite Z.shiftl_mul_pow2 by exact He.
        unfold Rdiv. rewrite Rinv_1, Rmult_1_r. now rewrite Int_part_IZR.
      * rewrite Int_part_quotient by (apply Z.pow_pos_nonneg; lia).
        rewrite <- (Z.opp_involutive e) at 1.
        rewrite Z.shiftl_opp_r. apply Z.shiftr_div_pow2. lia.
Qed.

#[local] Open Scope float_scope.

Lemma execute_signal_opened cpython self signal market_price uuid4 now
    position self' log :
  execute_signal cpython self signal market_price uuid4 now
  = Some (Some position, self', log) ->
  exists contracts,
    py_int (Signal.size signal / effective_price (Signal.side signal) market_price)
    = Some (PaperPosition.quantity position)
    /\ (0 < PaperPosition.quantity position)%Z
    /\ float_of_int (PaperPosition.quantity position) = Some contracts
    /\ PaperPosition.entry_price position
       = effective_price (Signal.side signal) market_price
    /\ PaperPosition.entry_cost position
       = contracts * effective_price (Signal.side signal) market_price.
Proof.
  unfold execute_signal. fold (effective_price (Signal.side signal) market_price).
  destruct (Dict.get (portfolios self) (Signal.strategy_name signal)) as [portfolio|];
    [|discriminate].
  destruct (_check_risk_limits cpython self signal portfolio) as [ok l].
  destruct ok; simpl negb; cbv iota; [|discriminate].
  destruct (0 <? effective_price (Signal.side signal) market_price).
  - destruct (py_int (Signal.size signal
                      / effective_price (Signal.side signal) market_price))
      as [quantity|]; [|discriminate].
    destruct (Z.leb_spec quantity 0) as [Hq|Hq]; [discriminate|].
    destruct (float_of_int quantity) as [contracts|] eqn:Hc; [|discriminate].
    intros H. apply Some_inj in H. injection H as <- _ _.
    exists contracts. simpl. auto.
  - simpl. discriminate.
Qed.

(** C4, as the code has it.  A call of [execute_signal] that returns a
    position gives it the effective price as entry price (the market
    price for side "yes", the binary64 difference [1.0 - market_price]
    otherwise), as quantity the integer part of the binary64 quotient
    [size / effective_price], which is at least 1 and is the floor of that
    rounded quotient, and as entry cost the binary64 product of quantity
    and price. *)
Theorem execute_signal_quantity_cost :
  forall cpython self signal market_price uuid4 now position self' log,
    execute_signal cpython self signal market_price uuid4 now
    = Some (Some position, self', log) ->
    let price := effective_price (Signal.side signal) market_price in
    py_int (Signal.size signal / price) = Some (PaperPosition.quantity position)
    /\ PaperPosition.quantity position = floor (B2R (Signal.size signal / price))
    /\ (1 <= PaperPosition.quantity position)%Z
    /\ PaperPosition.entry_price position = price
    /\ exists contracts,
         float_of_int (PaperPosition.quantity position) = Some contracts
         /\ PaperPosition.entry_cost position = contracts * price.
Proof.
  intros cpython self signal market_price uuid4 now position self' log H price.
  apply execute_signal_opened in H. fold price in H.
  destruct H as (contracts & Hint & Hpos & Hfloat & Hprice & Hcost).
  split; [exact Hint|]. split; [now apply py_int_floor|].
  split; [lia|]. split; [exact Hprice|]. now exists contracts.
Qed.

Lemma execute_example_binary64 cpython :
  execute_signal cpython one_strategy (buy 5) 0.2 "p1" 0%R
  = Some (Some sample_position, holding, ["Paper trade opened"]).
Proof. destruct cpython; vm_compute; reflexivity. Qed.

(** The example of the specification: $5 at a yes-price of 0.2 buys 25
    contracts for $5. *)
Lemma execute_signal_quantity_cost_witness :
  execute_signal left_to_right one_strategy (buy 5) 0.2 "p1" 0%R
  = Some (Some sample_position, holding, ["Paper trade opened"])
  /\ py_int (5 / 0.2) = Some (PaperPosition.quantity sample_position)
  /\ PaperPosition.quantity sample_position = floor (B2R (5 / 0.2))
  /\ (1 <= PaperPosition.quantity sample_position)%Z
  /\ PaperPosition.entry_price sample_position = 0.2
  /\ exists contracts,
       float_of_int (PaperPosition.quantity sample_position) = Some contracts
       /\ PaperPosition.entry_cost sample_position = contracts * 0.2.
Proof.
  split; [apply execute_example_binary64|].
  exact (execute_signal_quantity_cost left_to_right _ _ _ _ _ _ _ _
           (execute_example_binary64 left_to_right)).
Defined.

Ltac fraction_of x :=
  let v := eval vm_compute in (fraction x) in
  change (fraction x) with v; cbn [fst snd].

(** C4 as stated fails.  $5 at a yes-price of 0.2 buys 25 contracts: the
    binary64 number 0.2 is a little more than 1/5, so the quotient of the
    two numbers is less than 25 and its floor is 24, but the division
    rounds it to 25.0.  And $0.7 at a yes-price of 0.01 buys 70 contracts
    for 0.7000000000000001 dollars, which is not 70 times the price: the
    product is rounded (and exceeds the size of the signal). *)
Lemma quantity_and_cost_are_rounded :
  (exists self' log,
      execute_signal left_to_right one_strategy (buy 5) 0.2 "p1" 0%R
      = Some (Some sample_position, self', log)
      /\ execute_signal compensated one_strategy (buy 5) 0.2 "p1" 0%R
         = Some (Some sample_position, self', log)
      /\ PaperPosition.quantity sample_position = 25%Z
      /\ floor (B2R 5 / B2R 0.2)%R = 24%Z)
  /\ (exists position self' log,
        execute_signal left_to_right one_strategy (buy 0.7) 0.01 "p1" 0%R
        = Some (Some position, self', log)
        /\ execute_signal compensated one_strategy (buy 0.7) 0.01 "p1" 0%R
           = Some (Some position, self', log)
        /\ PaperPosition.quantity position = 70%Z
        /\ B2R (PaperPosition.entry_cost position) <> (70 * B2R 0.01)%R
        /\ (B2R (PaperPosition.entry_cost position) > B2R 0.7)%R).
Proof.
  split.
  - exists holding, ["Paper trade opened"].
    split; [apply execute_example_binary64|].
    split; [apply execute_example_binary64|]. split; [reflexivity|].
    unfold floor, B2R. fraction_of 5. fraction_of 0.2.
    symmetry. apply Int_part_spec. lra.
  - eexists _, _, _. split; [vm_compute; reflexivity|].
    split; [vm_compute; reflexivity|]. split; [reflexivity|].
    cbn [PaperPosition.entry_cost].
    unfold B2R. fraction_of 0.70000000000000007. fraction_of 0.01. fraction_of 0.7.
    split; lra.
Qed.
End Binary64Execute.


Section ExecuteFrame.
Import PaperTrader.

Lemma execute_signal_rejected self signal market_price uuid4 now self' log :
  execute_signal self signal market_price uuid4 now = (None, self', log) ->
  self' = self.
Proof.
  unfold execute_signal.
  destruct (Dict.get (portfolios self) (Signal.strategy_name signal)) as [portfolio|];
    [|now intros [= <- _]].
  destruct (_check_risk_limits self signal portfolio) as [ok l].
  destruct ok; simpl negb; cbv iota; [|now intros [= <- _]].
  match goal with |- context [Z.leb ?q 0] => destruct (Z.leb q 0) end;
    [now intros [= <- _] | discriminate].
Qed.

Lemma insufficient_capital_rejected self signal market_price uuid4 now portfolio :
  get_portfolio self (Signal.strategy_name signal) = Some portfolio ->
  Signal.size signal > StrategyPortfolio.available_capital portfolio ->
  execute_signal self signal market_price uuid4 now
  = (None, self, ["Insufficient capital"]).
Proof.
  unfold get_portfolio, execute_signal, _check_risk_limits. intros -> Hgt.
  now float_decide.
Qed.

(** C7.  [execute_signal] never changes a portfolio's [current_capital].
    When it returns a position, the new state is the old one with that
    position stored under its id in the open map of the signal's
    portfolio and nothing else changed.  When it rejects, the state is
    unchanged; a signal whose size exceeds the portfolio's available
    capital is rejected on the first risk check, whose event is
    "Insufficient capital", and no position is created. *)
Theorem execute_signal_frame :
  forall self signal market_price uuid4 now result self' log,
    execute_signal self signal market_price uuid4 now = (result, self', log) ->
    capitals self' = capitals self
    /\ (forall position, result = Some position ->
          exists portfolio,
            get_portfolio self (Signal.strategy_name signal) = Some portfolio
            /\ self' =
               with_portfolios self
                 (Dict.set (portfolios self) (Signal.strategy_name signal)
                    (StrategyPortfolio.with_positions portfolio
                       (Dict.set (StrategyPortfolio.positions portfolio)
                          (PaperPosition.id position) position))))
    /\ (result = None -> self' = self)
    /\ (forall portfolio,
          get_portfolio self (Signal.strategy_name signal) = Some portfolio ->
          Signal.size signal > StrategyPortfolio.available_capital portfolio ->
          result = None /\ self' = self /\ log = ["Insufficient capital"]).
Proof.
  intros self signal market_price uuid4 now result self' log Hexec.
  assert (Hsucc : forall position, result = Some position ->
            exists portfolio,
              get_portfolio self (Signal.strategy_name signal) = Some portfolio
              /\ self' =
                 with_portfolios self
                   (Dict.set (portfolios self) (Signal.strategy_name signal)
                      (StrategyPortfolio.with_positions portfolio
                         (Dict.set (StrategyPortfolio.positions portfolio)
                            (PaperPosition.id position) position)))).
  { intros position ->. apply execute_signal_inv in Hexec.
    destruct Hexec as (portfolio & Hget & _ & _ & _ & Hpos & Hself).
    exists portfolio. split; [exact Hget|].
    rewrite Hself. rewrite Hpos at 2. reflexivity. }
  assert (Hrej : result = None -> self' = self).
  { intros ->. eapply execute_signal_rejected; eauto. }
  split; [|split; [exact Hsucc | split; [exact Hrej|]]].
  - destruct result as [position|]; [|now rewrite Hrej].
    destruct (Hsucc position eq_refl) as (portfolio & Hget & ->).
    unfold capitals, with_portfolios; simpl.
    now apply set_same_projection with (v := portfolio).
  - intros portfolio Hget Hgt.
    rewrite (insufficient_capital_rejected _ _ market_price uuid4 now _ Hget Hgt)
      in Hexec.
    injection Hexec as <- <- <-. auto.
Qed.

(** The example of the specification: a request of $5 against $3 of
    available capital. *)
Lemma execute_signal_frame_witness :
  execute_signal (one_strategy 3) (buy "yes" 5) (1 / 2) "p1" 0
  = (None, one_strategy 3, ["Insufficient capital"])
  /\ capitals (one_strategy 3) = capitals (one_strategy 3).
Proof.
  assert (H : execute_signal (one_strategy 3) (buy "yes" 5) (1 / 2) "p1" 0
              = (None, one_strategy 3, ["Insufficient capital"])).
  { apply insufficient_capital_rejected
      with (portfolio := StrategyPortfolio.mk "Momentum" 3 3 [] []).
    - reflexivity.
    - unfold StrategyPortfolio.available_capital, StrategyPortfolio.total_exposure.
      unfold py_sum. simpl. lra. }
  split; [exact H|].
  exact (proj1 (execute_signal_frame _ _ _ _ _ _ _ _ H)).
Defined.
End ExecuteFrame.

(* ===================================================================== *)
(** * The ledger: close *)
(* ===================================================================== *)

Lemma remove_notin (k : string) (l : list string) :
  ~ In k l -> List.remove string_dec k l = l.
Proof.
  induction l as [|x l IH]; simpl; [reflexivity|].
  intros Hn. destruct (string_dec k x) as [->|Hne]; [tauto|].
  rewrite IH; tauto.
Qed.

Lemma NoDup_remove_string (k : string) (l : list string) :
  NoDup l -> NoDup (List.remove string_dec k l).
Proof.
  induction 1 as [|x l Hx Hnd IH]; simpl; [constructor|].
  destruct (string_dec k x); [exact IH|].
  constructor; [|exact IH]. intros Hin. apply in_remove in Hin. tauto.
Qed.

Section Close.
Import PaperTrader.
Variables (exit_price : float) (reason : string) (now : datetime).

Lemma close_first_absent ps position_id :
  ~ In position_id (ids_of ps) ->
  close_first ps position_id exit_price reason now = None.
Proof.
  induction ps as [|[name portfolio] rest IH]; simpl; [reflexivity|].
  intros Hn. rewrite in_app_iff in Hn.
  assert (Hg : Dict.get (StrategyPortfolio.positions portfolio) position_id = None)
    by (apply get_None_keys; tauto).
  rewrite Hg, IH; tauto.
Qed.

Lemma close_first_present ps position_id :
  In position_id (ids_of ps) ->
  exists position ps',
    close_first ps position_id exit_price reason now = Some (position, ps').
Proof.
  induction ps as [|[name portfolio] rest IH]; simpl; [tauto|].
  intros Hin.
  destruct (Dict.get (StrategyPortfolio.positions portfolio) position_id) eqn:Hg.
  - eauto.
  - apply get_None_keys in Hg. rewrite in_app_iff in Hin.
    destruct IH as (position & ps' & ->); [tauto|]. eauto.
Qed.

(** Closing removes the id from the open maps and adds none. *)
Lemma close_first_ids ps position_id position ps' :
  NoDup (ids_of ps) ->
  close_first ps position_id exit_price reason now = Some (position, ps') ->
  ids_of ps' = List.remove string_dec position_id (ids_of ps).
Proof.
  revert ps'. induction ps as [|[name portfolio] rest IH]; simpl; [discriminate|].
  intros ps' Hnd.
  destruct (Dict.get (StrategyPortfolio.positions portfolio) position_id) eqn:Hg.
  - intros [= <- <-]. simpl. rewrite remove_app, keys_del. f_equal.
    symmetry. apply remove_notin. intros Hin.
    apply get_In, (in_map fst) in Hg. simpl in Hg.
    apply NoDup_app_remove_l in Hnd as Hnd'.
    revert Hnd Hg Hin. clear. unfold Dict.keys.
    generalize (map fst (StrategyPortfolio.positions portfolio)) as l.
    induction l as [|x l IHl]; simpl; [tauto|].
    intros Hnd [->|Hin] Hr.
    + inversion Hnd as [|? ? Hx _]; subst. apply Hx, in_or_app. now right.
    + inversion Hnd; subst. auto.
  - destruct (close_first rest position_id exit_price reason now)
      as [[position' rest']|] eqn:Hc; [|discriminate].
    intros [= <- <-]. simpl. rewrite remove_app.
    apply get_None_keys in Hg. rewrite (remove_notin _ _ Hg). f_equal.
    eapply IH; eauto. now apply NoDup_app_remove_l in Hnd.
Qed.

Lemma close_position_ids self position_id position self' log :
  NoDup (open_ids self) ->
  close_position self position_id exit_price reason now = (Some position, self', log) ->
  open_ids self' = List.remove string_dec position_id (open_ids self).
Proof.
  unfold close_position, open_ids. intros Hnd.
  destruct (close_first (portfolios self) position_id exit_price reason now)
    as [[p ps']|] eqn:Hc; [|discriminate].
  intros [= <- <- _]. simpl. eapply close_first_ids; eauto.
Qed.

Lemma close_position_not_found self position_id :
  ~ In position_id (open_ids self) ->
  close_position self position_id exit_price reason now
  = (None, self, ["Position not found"]).
Proof.
  intros Hn. unfold close_position. now rewrite close_first_absent.
Qed.
End Close.

(** C6.  [close_position] on an id that no open map holds (it never
    existed, or its position is already closed) returns [None] and leaves
    the whole trader state as it was: capital, open maps, closed lists and
    the daily P&L counter.  With globally unique ids, the id of a position
    that was just closed is such an id, so a second close of it does
    nothing. *)
Theorem close_position_idempotent_safe :
  forall self position_id exit_price reason now,
    (~ In position_id (open_ids self) ->
     PaperTrader.close_position self position_id exit_price reason now
     = (None, self, ["Position not found"]))
    /\ (forall position self' log,
          NoDup (open_ids self) ->
          PaperTrader.close_position self position_id exit_price reason now
          = (Some position, self', log) ->
          forall exit_price' reason' now',
            PaperTrader.close_position self' position_id exit_price' reason' now'
            = (None, self', ["Position not found"])).
Proof.
  intros self position_id exit_price reason now. split.
  - apply close_position_not_found.
  - intros position self' log Hnd Hclose exit_price' reason' now'.
    apply close_position_not_found.
    rewrite (close_position_ids _ _ _ _ _ _ _ _ Hnd Hclose).
    apply remove_In.
Qed.

Lemma NoDup_open_ids_holding : NoDup (open_ids holding).
Proof. repeat constructor. simpl. tauto. Qed.

Lemma close_position_idempotent_safe_witness :
  PaperTrader.close_position holding "p2" (1 / 2) "signal" 1
  = (None, holding, ["Position not found"])
  /\ (forall exit_price' reason' now',
        let self' :=
          snd (fst (PaperTrader.close_position holding "p1" (3 / 10) "signal" 1)) in
        PaperTrader.close_position self' "p1" exit_price' reason' now'
        = (None, self', ["Position not found"])).
Proof.
  split.
  - apply (close_position_idempotent_safe holding "p2" (1 / 2) "signal" 1).
    simpl. intros [H|[]]. discriminate.
  - intros exit_price' reason' now'.
    eapply (proj2 (close_position_idempotent_safe holding "p1" (3 / 10) "signal" 1)).
    + exact NoDup_open_ids_holding.
    + reflexivity.
Defined.

Lemma py_int_quotient (a b : R) (z : Z) :
  b <> 0 -> a = IZR z * b -> py_int (a / b) = z.
Proof.
  intros Hb ->. replace (IZR z * b / b) with (IZR z) by (field; exact Hb).
  apply py_int_IZR.
Qed.

(** The example of the specification: size $5, yes-price 0.20, side "yes"
    gives 25 contracts at a cost of $5. *)
Lemma execute_example :
  PaperTrader.execute_signal (one_strategy 50) (buy "yes" 5) (1 / 5) "p1" 0
  = (Some sample_position, holding, ["Paper trade opened"]).
Proof.
  unfold PaperTrader.execute_signal, PaperTrader._check_risk_limits,
    StrategyPortfolio.available_capital, StrategyPortfolio.total_exposure, py_sum.
  simpl. float_decide. simpl.
  rewrite (py_int_quotient 5 (1 / 5) 25) by lra. simpl.
  unfold sample_position, holding, PaperTrader.with_portfolios,
    StrategyPortfolio.with_positions, one_strategy. simpl.
  replace (25 * (1 / 5)) with 5 by lra. reflexivity.
Qed.

(* ===================================================================== *)
(** * The ledger: what every reachable state satisfies *)
(* ===================================================================== *)

Section Invariant.
Import PaperTrader.

Lemma well_filed_sub ps ps' : held_sub ps' ps -> well_filed ps -> well_filed ps'.
Proof. unfold well_filed, held_sub. auto. Qed.

Lemma well_filed_set ps name portfolio :
  well_filed ps ->
  (forall k position,
      In (k, position) (StrategyPortfolio.positions portfolio) ->
      PaperPosition.id position = k /\ PaperPosition.status position = OPEN) ->
  well_filed (Dict.set ps name portfolio).
Proof.
  intros Hwf Hnew k position (n & pf & Hin & Hpos).
  apply In_set in Hin. destruct Hin as [[-> ->]|Hin]; [auto|].
  apply Hwf. now exists n, pf.
Qed.

Lemma close_first_held_sub ps position_id exit_price reason now position ps' :
  close_first ps position_id exit_price reason now = Some (position, ps') ->
  held_sub ps' ps.
Proof.
  revert ps'. induction ps as [|[name portfolio] rest IH]; simpl; [discriminate|].
  intros ps'.
  destruct (Dict.get (StrategyPortfolio.positions portfolio) position_id) eqn:Hg.
  - intros [= <- <-] k pos (n & pf & [[= <- <-]|Hin] & Hpos).
    + simpl in Hpos. apply In_del in Hpos. exists name, portfolio. split; [now left | tauto].
    + exists n, pf. split; [now right | exact Hpos].
  - destruct (close_first rest position_id exit_price reason now)
      as [[position' rest']|] eqn:Hc; [|discriminate].
    intros [= <- <-] k pos (n & pf & [[= <- <-]|Hin] & Hpos).
    + exists name, portfolio. split; [now left | exact Hpos].
    + destruct (IH _ eq_refl k pos) as (n' & pf' & Hin' & Hpos'); [now exists n, pf|].
      exists n', pf'. split; [now right | exact Hpos'].
Qed.

Lemma close_position_held_sub self position_id exit_price reason now :
  held_sub
    (portfolios (snd (fst (close_position self position_id exit_price reason now))))
    (portfolios self).
Proof.
  unfold close_position.
  destruct (close_first (portfolios self) position_id exit_price reason now)
    as [[p ps']|] eqn:Hc; simpl.
  - eapply close_first_held_sub; eauto.
  - intros k position H; exact H.
Qed.

Lemma check_exits_loop_held_sub strategy market_data now snapshot :
  forall self closed,
    held_sub
      (portfolios (snd (fst (check_exits_loop self strategy market_data snapshot
                               now closed))))
      (portfolios self).
Proof.
  induction snapshot as [|position rest IH]; intros self closed; simpl.
  - intros k p H; exact H.
  - destruct (negb _); [apply IH|].
    destruct (Strategy.should_exit _ _ _); [|apply IH].
    pose proof (close_position_held_sub self (PaperPosition.id position)
                  (match MarketData.yes_price market_data with
                   | Some p => p | None => 5 / 10 end) "strategy_exit" now) as Hc.
    destruct (close_position _ _ _ _ _) as [[result self1] log1]. simpl in Hc.
    specialize (IH self1
                  (match result with Some r => closed ++ [r] | None => closed end)).
    destruct (check_exits_loop _ _ _ _ _ _) as [[out self2] log2]. simpl in *.
    intros k p H. apply Hc, IH, H.
Qed.

Lemma reachable_well_filed self : reachable self -> well_filed (portfolios self).
Proof.
  induction 1 as [risk | self name capital _ IH
                 | self signal market_price uuid4 now _ IH
                 | self position_id exit_price reason now _ IH
                 | self strategy market_data now _ IH
                 | self now' _ IH].
  - intros k position (n & pf & [] & _).
  - simpl. apply well_filed_set; [exact IH|]. simpl. tauto.
  - destruct (execute_signal self signal market_price uuid4 now)
      as [[[position|] self'] log] eqn:Hexec; simpl.
    + apply execute_signal_inv in Hexec.
      destruct Hexec as (portfolio & Hget & _ & _ & _ & Hpos & ->). simpl.
      apply well_filed_set; [exact IH|]. simpl.
      intros k p Hin. apply In_set in Hin. destruct Hin as [[-> ->]|Hin].
      * rewrite Hpos. simpl. auto.
      * apply IH. exists (Signal.strategy_name signal), portfolio.
        split; [now apply get_In | exact Hin].
    + apply execute_signal_rejected in Hexec. now subst.
  - eapply well_filed_sub; [apply close_position_held_sub | exact IH].
  - unfold check_exits.
    destruct (Dict.get (portfolios self) (Strategy.name strategy)); simpl; [|exact IH].
    eapply well_filed_sub; [apply check_exits_loop_held_sub | exact IH].
  - exact IH.
Qed.

Lemma filter_all {A : Type} (f : A -> bool) (l : list A) :
  (forall x, In x l -> f x = true) -> filter f l = l.
Proof.
  induction l as [|x l IH]; simpl; [reflexivity|]. intros H.
  rewrite (H x) by now left. f_equal. apply IH. intros y Hy. apply H. now right.
Qed.

(** C5.  In every state reached by [execute_signal] and [close_position]
    calls (and the other public operations of the ledger), for every
    portfolio, the positions counted as open are all the entries of the
    open map, and [available_capital] is [current_capital] minus the sum
    of their entry costs. *)
Theorem available_capital_invariant :
  forall self name portfolio,
    reachable self ->
    In (name, portfolio) (portfolios self) ->
    StrategyPortfolio.open_positions portfolio
    = Dict.values (StrategyPortfolio.positions portfolio)
    /\ StrategyPortfolio.available_capital portfolio
       = StrategyPortfolio.current_capital portfolio
         - py_sum (map PaperPosition.entry_cost
                       (Dict.values (StrategyPortfolio.positions portfolio))).
Proof.
  intros self name portfolio Hreach Hin.
  assert (Hopen : StrategyPortfolio.open_positions portfolio
                  = Dict.values (StrategyPortfolio.positions portfolio)).
  { apply filter_all. intros p Hp. unfold Dict.values in Hp.
    apply in_map_iff in Hp. destruct Hp as ([k p'] & <- & Hp). simpl.
    destruct (reachable_well_filed self Hreach k p') as [_ ->]; [|reflexivity].
    now exists name, portfolio. }
  split; [exact Hopen|].
  unfold StrategyPortfolio.available_capital, StrategyPortfolio.total_exposure.
  now rewrite Hopen.
Qed.

Lemma reachable_holding : reachable holding.
Proof.
  change holding
    with (snd (fst (Some sample_position, holding, ["Paper trade opened"]))).
  rewrite <- execute_example. apply reach_execute.
  unfold one_strategy. apply reach_initialize, reach_init.
Qed.

Lemma available_capital_invariant_witness :
  StrategyPortfolio.available_capital
    (StrategyPortfolio.mk "Momentum" 50 50 [("p1", sample_position)] [])
  = 50 - py_sum [5].
Proof.
  apply (available_capital_invariant holding "Momentum").
  - exact reachable_holding.
  - simpl. now left.
Defined.
End Invariant.

(* ===================================================================== *)
(** * The ledger: check_exits *)
(* ===================================================================== *)

Section CheckExits.
Import PaperTrader.

Lemma In_ids_held ps k : In k (ids_of ps) <-> exists position, held ps k position.
Proof.
  unfold ids_of, held. rewrite in_flat_map. split.
  - intros ([name pf] & Hin & Hk). unfold Dict.keys in Hk. apply in_map_iff in Hk.
    destruct Hk as ([k' position] & <- & Hpos). exists position, name, pf. auto.
  - intros (position & name & pf & Hin & Hpos). exists (name, pf). split; [exact Hin|].
    apply (in_map fst) in Hpos. exact Hpos.
Qed.

Lemma NoDup_ids_keys ps name portfolio :
  NoDup (ids_of ps) -> In (name, portfolio) ps ->
  NoDup (Dict.keys (StrategyPortfolio.positions portfolio)).
Proof.
  induction ps as [|x rest IH]; simpl; [tauto|].
  intros Hnd [->|Hin].
  - now apply NoDup_app_remove_r in Hnd.
  - apply IH; [|exact Hin]. now apply NoDup_app_remove_l in Hnd.
Qed.

(** With unique ids, closing the id of a held position closes exactly
    that position, keeps every other held position, and files the closed
    position in a closed list. *)
Lemma close_first_held ps k position exit_price reason now :
  NoDup (ids_of ps) -> held ps k position ->
  exists ps',
    close_first ps k exit_price reason now
    = Some (mark_closed position exit_price reason now, ps')
    /\ (forall k' position', k' <> k -> held ps k' position' -> held ps' k' position')
    /\ archived ps' (mark_closed position exit_price reason now).
Proof.
  induction ps as [|[name pf] rest IH]; intros Hnd (n & p & Hin & Hpos);
    [destruct Hin|].
  simpl in Hnd. simpl close_first.
  destruct (Dict.get (StrategyPortfolio.positions pf) k) as [x|] eqn:Hg.
  - assert (Hhere : In (k, position) (StrategyPortfolio.positions pf)).
    { destruct Hin as [[= <- <-]|Hin]; [exact Hpos|]. exfalso.
      apply get_In, (in_map fst) in Hg. simpl in Hg.
      assert (Hk : In k (ids_of rest)) by (apply In_ids_held; exists position, n, p; auto).
      revert Hnd Hg Hk. clear. unfold Dict.keys.
      generalize (map fst (StrategyPortfolio.positions pf)) as l.
      induction l as [|y l IHl]; simpl; [tauto|].
      intros Hnd [->|Hy] Hk; inversion Hnd as [|? ? Hy' Hnd']; subst.
      - apply Hy', in_or_app. now right.
      - auto. }
    assert (x = position) as ->.
    { apply NoDup_app_remove_r in Hnd.
      rewrite (get_NoDup _ _ _ Hnd Hhere) in Hg. congruence. }
    eexists. split; [reflexivity|]. split.
    + intros k' position' Hne (n' & p' & [[= <- <-]|Hin'] & Hpos').
      * exists name. eexists. split; [now left|]. simpl. apply In_del. auto.
      * exists n', p'. split; [now right | exact Hpos'].
    + exists name. eexists. split; [now left|]. simpl. apply in_or_app. right. now left.
  - assert (Hrest : held rest k position).
    { destruct Hin as [[= <- <-]|Hin]; [|now exists n, p].
      apply get_None_keys in Hg. exfalso. apply Hg.
      apply (in_map fst) in Hpos. exact Hpos. }
    destruct (IH (NoDup_app_remove_l _ _ Hnd) Hrest) as (rest' & -> & Hkeep & Harch).
    eexists. split; [reflexivity|]. split.
    + intros k' position' Hne (n' & p' & [[= <- <-]|Hin'] & Hpos').
      * exists name, pf. split; [now left | exact Hpos'].
      * destruct (Hkeep k' position' Hne) as (n2 & p2 & Hin2 & Hpos2); [now exists n', p'|].
        exists n2, p2. split; [now right | exact Hpos2].
    + destruct Harch as (n2 & p2 & Hin2 & Hc). exists n2, p2. split; [now right | exact Hc].
Qed.

Lemma close_first_archived ps position_id exit_price reason now position ps' q :
  close_first ps position_id exit_price reason now = Some (position, ps') ->
  archived ps q -> archived ps' q.
Proof.
  revert ps'. induction ps as [|[name pf] rest IH]; simpl; [discriminate|].
  intros ps'.
  destruct (Dict.get (StrategyPortfolio.positions pf) position_id) eqn:Hg.
  - intros [= <- <-] (n & p & [[= <- <-]|Hin] & Hq).
    + exists name. eexists. split; [now left|]. simpl. apply in_or_app. now left.
    + exists n, p. split; [now right | exact Hq].
  - destruct (close_first rest position_id exit_price reason now)
      as [[position' rest']|] eqn:Hc; [|discriminate].
    intros [= <- <-] (n & p & [[= <- <-]|Hin] & Hq).
    + exists name, pf. split; [now left | exact Hq].
    + destruct (IH _ eq_refl) as (n' & p' & Hin' & Hq'); [now exists n, p|].
      exists n', p'. split; [now right | exact Hq'].
Qed.

Lemma close_position_archived self position_id exit_price reason now q :
  archived (portfolios self) q ->
  archived
    (portfolios (snd (fst (close_position self position_id exit_price reason now)))) q.
Proof.
  unfold close_position.
  destruct (close_first (portfolios self) position_id exit_price reason now)
    as [[p ps']|] eqn:Hc; simpl; [|auto].
  eapply close_first_archived; eauto.
Qed.

Lemma check_exits_loop_archived strategy market_data now snapshot q :
  forall self closed,
    archived (portfolios self) q ->
    archived
      (portfolios (snd (fst (check_exits_loop self strategy market_data snapshot
                               now closed)))) q.
Proof.
  induction snapshot as [|position rest IH]; intros self closed Hq; simpl; [exact Hq|].
  destruct (negb _); [now apply IH|].
  destruct (Strategy.should_exit _ _ _); [|now apply IH].
  pose proof (close_position_archived self (PaperPosition.id position)
                (match MarketData.yes_price market_data with
                 | Some p => p | None => 5 / 10 end) "strategy_exit" now q Hq) as Hc.
  destruct (close_position _ _ _ _ _) as [[result self1] log1]. simpl in Hc.
  specialize (IH self1
                (match result with Some r => closed ++ [r] | None => closed end) Hc).
  destruct (check_exits_loop _ _ _ _ _ _) as [[out self2] log2]. exact IH.
Qed.
End CheckExits.

Section CheckExitsDefault.
Import PaperTrader.
Variables (strategy : Strategy.t) (market_data : MarketData.t) (now : datetime).
Hypothesis no_yes_price : MarketData.yes_price market_data = None.

Lemma check_exits_loop_closes snapshot :
  forall self closed out self' log,
    NoDup (open_ids self) ->
    NoDup (map PaperPosition.id snapshot) ->
    (forall p, In p snapshot -> held (portfolios self) (PaperPosition.id p) p) ->
    check_exits_loop self strategy market_data snapshot now closed = (out, self', log) ->
    (forall p, In p closed -> In p out)
    /\ (forall p, In p snapshot -> wants_exit strategy market_data p ->
          In (mark_closed p (5 / 10) "strategy_exit" now) out
          /\ ~ In (PaperPosition.id p) (open_ids self')
          /\ archived (portfolios self')
               (mark_closed p (5 / 10) "strategy_exit" now)).
Proof.
  induction snapshot as [|a rest IH];
    intros self closed out self' log Hnd Hids Hheld Hloop.
  - simpl in Hloop. injection Hloop as <- <- <-. split; [auto | intros p []].
  - simpl in Hloop. inversion Hids as [|? ? Ha Hids']; subst.
    assert (Hrest : forall p, In p rest -> held (portfolios self) (PaperPosition.id p) p)
      by (intros p Hp; apply Hheld; now right).
    destruct (match MarketData.market_id market_data with
              | Some m => String.eqb (PaperPosition.ticker a) m
              | None => false
              end) eqn:Hticker; simpl negb in Hloop; cbv iota in Hloop.
    2:{ destruct (IH _ _ _ _ _ Hnd Hids' Hrest Hloop) as [Hmono Hall].
        split; [exact Hmono|]. intros p [<-|Hp] Hw; [|auto].
        destruct Hw as [Hm _]. rewrite Hm, String.eqb_refl in Hticker. discriminate. }
    fold (pos_dict_of a) in Hloop.
    destruct (Strategy.should_exit strategy (pos_dict_of a) market_data) eqn:Hexit.
    2:{ destruct (IH _ _ _ _ _ Hnd Hids' Hrest Hloop) as [Hmono Hall].
        split; [exact Hmono|]. intros p [<-|Hp] Hw; [|auto].
        destruct Hw as [_ Hs]. congruence. }
    rewrite no_yes_price in Hloop.
    destruct (close_first_held (portfolios self) (PaperPosition.id a) a (5 / 10)
                "strategy_exit" now Hnd (Hheld a (or_introl eq_refl)))
      as (ps1 & Hclose & Hkeep & Harch).
    assert (Hids1 : ids_of ps1
                    = List.remove string_dec (PaperPosition.id a) (open_ids self))
      by (eapply close_first_ids; eauto).
    unfold close_position in Hloop. rewrite Hclose in Hloop.
    set (self1 := mk (risk_config self) ps1
                    (_daily_pnl self
                     + PaperPosition.pnl (mark_closed a (5 / 10) "strategy_exit" now))
                    (_daily_start_date self)) in Hloop.
    pose proof (check_exits_loop_held_sub strategy market_data now rest self1
                  (closed ++ [mark_closed a (5 / 10) "strategy_exit" now])) as Hsub.
    pose proof (check_exits_loop_archived strategy market_data now rest
                  (mark_closed a (5 / 10) "strategy_exit" now) self1
                  (closed ++ [mark_closed a (5 / 10) "strategy_exit" now]) Harch)
      as Harch'.
    destruct (check_exits_loop self1 strategy market_data rest now
                (closed ++ [mark_closed a (5 / 10) "strategy_exit" now]))
      as [[out2 self2] log2] eqn:Hloop2.
    injection Hloop as <- <- <-. simpl in Hsub, Harch'.
    assert (Hnd1 : NoDup (open_ids self1)).
    { unfold open_ids. simpl. rewrite Hids1. now apply NoDup_remove_string. }
    assert (Hheld1 : forall p, In p rest ->
                       held (portfolios self1) (PaperPosition.id p) p).
    { intros p Hp. simpl. apply Hkeep; [|now apply Hrest].
      intros E. apply Ha. rewrite <- E. now apply in_map. }
    destruct (IH self1 _ _ _ _ Hnd1 Hids' Hheld1 Hloop2) as [Hmono Hall].
    split.
    + intros p Hp. apply Hmono, in_or_app. now left.
    + intros p [<-|Hp] Hw; [|auto].
      split; [apply Hmono, in_or_app; right; now left|].
      split; [|exact Harch'].
      intros Hin. apply In_ids_held in Hin. destruct Hin as (q & Hq).
      apply Hsub in Hq. simpl in Hq.
      assert (Hin1 : In (PaperPosition.id a) (ids_of ps1))
        by (apply In_ids_held; now exists q).
      rewrite Hids1 in Hin1. now apply remove_In in Hin1.
Qed.

(** C10.  When the snapshot has no "yes_price" entry, [check_exits] still
    closes every open position of the strategy on the snapshot's market
    for which [should_exit] answers true: the closed position is in the
    returned list and in a closed list, it has left the open maps, and
    its exit price is the default 0.5 on either side (exit value:
    quantity times 0.5).  Ids are unique across portfolios and every open
    position is filed under its own id, as [execute_signal] with fresh
    uuids ensures. *)
Theorem check_exits_default_price :
  forall self portfolio out self' log,
    NoDup (open_ids self) ->
    well_filed (portfolios self) ->
    get_portfolio self (Strategy.name strategy) = Some portfolio ->
    check_exits self strategy market_data now = (out, self', log) ->
    forall position,
      In position (StrategyPortfolio.open_positions portfolio) ->
      MarketData.market_id market_data = Some (PaperPosition.ticker position) ->
      Strategy.should_exit strategy (pos_dict_of position) market_data = true ->
      exists closed,
        In closed out
        /\ PaperPosition.id closed = PaperPosition.id position
        /\ PaperPosition.status closed = CLOSED
        /\ PaperPosition.exit_price closed = Some (5 / 10)
        /\ PaperPosition.exit_value closed
           = Some (IZR (PaperPosition.quantity position) * (5 / 10))
        /\ ~ In (PaperPosition.id position) (open_ids self')
        /\ archived (portfolios self') closed.
Proof.
  intros self portfolio out self' log Hnd Hwf Hget Hcheck position Hopen Hm Hexit.
  unfold check_exits, get_portfolio in *. rewrite Hget in Hcheck.
  apply get_In in Hget.
  assert (Hfiled : forall k p, In (k, p) (StrategyPortfolio.positions portfolio) ->
                               PaperPosition.id p = k /\ PaperPosition.status p = OPEN).
  { intros k p Hp. apply Hwf. now exists (Strategy.name strategy), portfolio. }
  assert (Hvals : forall p, In p (StrategyPortfolio.open_positions portfolio) ->
                            In (PaperPosition.id p, p)
                               (StrategyPortfolio.positions portfolio)).
  { intros p Hp. apply filter_In in Hp. destruct Hp as [Hp _].
    unfold Dict.values in Hp. apply in_map_iff in Hp.
    destruct Hp as ([k p'] & <- & Hp). simpl.
    now rewrite (proj1 (Hfiled k p' Hp)). }
  assert (Hsnap : NoDup (map PaperPosition.id
                           (StrategyPortfolio.open_positions portfolio))).
  { pose proof (NoDup_ids_keys _ _ _ Hnd Hget) as Hkeys.
    unfold StrategyPortfolio.open_positions, Dict.values, Dict.keys in *.
    revert Hkeys Hfiled. clear.
    induction (StrategyPortfolio.positions portfolio) as [|[k p] d IHd]; simpl;
      [constructor|].
    intros Hkeys Hfiled. inversion Hkeys as [|? ? Hk Hkeys']; subst.
    assert (Hd : forall k0 p0, In (k0, p0) d ->
                   PaperPosition.id p0 = k0 /\ PaperPosition.status p0 = OPEN)
      by (intros; apply Hfiled; now right).
    destruct (PositionStatus_eqb (PaperPosition.status p) OPEN); [|auto].
    simpl. constructor; [|auto].
    intros Hin. apply in_map_iff in Hin. destruct Hin as (q & Hq & Hin).
    apply filter_In in Hin. destruct Hin as [Hin _].
    apply in_map_iff in Hin. destruct Hin as ([k' q'] & <- & Hin). simpl in Hq.
    apply Hk. rewrite <- (proj1 (Hfiled k p (or_introl eq_refl))), <- Hq.
    rewrite (proj1 (Hd k' q' Hin)). apply (in_map fst) in Hin. exact Hin. }
  assert (Hheld : forall p, In p (StrategyPortfolio.open_positions portfolio) ->
                    held (portfolios self) (PaperPosition.id p) p).
  { intros p Hp. exists (Strategy.name strategy), portfolio. auto. }
  destruct (check_exits_loop_closes _ _ _ _ _ _ Hnd Hsnap Hheld Hcheck) as [_ Hall].
  destruct (Hall position Hopen (conj Hm Hexit)) as (Hin & Hgone & Harch).
  exists (mark_closed position (5 / 10) "strategy_exit" now).
  repeat split; auto; unfold mark_closed; simpl;
    destruct (String.eqb (PaperPosition.side position) "yes");
    f_equal; lra.
Qed.
End CheckExitsDefault.

Lemma well_filed_holding : well_filed (PaperTrader.portfolios holding).
Proof. exact (reachable_well_filed holding reachable_holding). Qed.

Lemma check_exits_default_price_witness :
  exists closed,
    In closed
       (fst (fst (PaperTrader.check_exits holding always_exit snapshot_without_price 7)))
    /\ PaperPosition.id closed = "p1"
    /\ PaperPosition.status closed = CLOSED
    /\ PaperPosition.exit_price closed = Some (5 / 10)
    /\ PaperPosition.exit_value closed = Some (25 * (5 / 10))
    /\ ~ In "p1"
         (open_ids
            (snd (fst (PaperTrader.check_exits holding always_exit
                         snapshot_without_price 7))))
    /\ archived
         (PaperTrader.portfolios
            (snd (fst (PaperTrader.check_exits holding always_exit
                         snapshot_without_price 7))))
         closed.
Proof.
  eapply (check_exits_default_price always_exit snapshot_without_price 7 eq_refl holding
            _ _ _ _ NoDup_open_ids_holding well_filed_holding)
    with (position := sample_position).
  - reflexivity.
  - reflexivity.
  - simpl. now left.
  - reflexivity.
  - reflexivity.
Defined.

(* ===================================================================== *)
(** * The ledger: ids stay unique *)
(* ===================================================================== *)

Section UniqueIds.
Import PaperTrader.

Lemma ids_of_app ps qs : ids_of (ps ++ qs) = ids_of ps ++ ids_of qs.
Proof. unfold ids_of. apply flat_map_app. Qed.

Lemma set_present_split {V : Type} (d : Dict.t V) k v v' :
  Dict.get d k = Some v ->
  exists pre post, d = pre ++ (k, v) :: post /\ Dict.set d k v' = pre ++ (k, v') :: post.
Proof.
  induction d as [|[k0 v0] d IH]; simpl; [discriminate|].
  destruct (String.eqb_spec k k0) as [<-|Hne].
  - intros [= ->]. now exists [], d.
  - intros Hg. destruct (IH Hg) as (pre & post & -> & ->).
    now exists ((k0, v0) :: pre), post.
Qed.

Lemma set_absent_append {V : Type} (d : Dict.t V) k v' :
  Dict.get d k = None -> Dict.set d k v' = d ++ [(k, v')].
Proof.
  induction d as [|[k0 v0] d IH]; simpl; [reflexivity|].
  destruct (String.eqb k k0); [discriminate|]. intros Hg. now rewrite IH.
Qed.

Lemma unique_after_insert ps name portfolio uuid4 position :
  NoDup (ids_of ps) -> ~ In uuid4 (ids_of ps) ->
  Dict.get ps name = Some portfolio ->
  NoDup (ids_of (Dict.set ps name
                   (StrategyPortfolio.with_positions portfolio
                      (Dict.set (StrategyPortfolio.positions portfolio) uuid4 position)))).
Proof.
  intros Hnd Hfresh Hget.
  destruct (set_present_split ps name portfolio
              (StrategyPortfolio.with_positions portfolio
                 (Dict.set (StrategyPortfolio.positions portfolio) uuid4 position)) Hget)
    as (pre & post & Hps & ->).
  rewrite Hps in Hnd, Hfresh. rewrite ids_of_app in *. simpl in *.
  rewrite keys_set_absent.
  - rewrite <- app_assoc. simpl. rewrite app_assoc.
    eapply Permutation_NoDup; [apply Permutation_middle|].
    constructor; rewrite <- app_assoc; assumption.
  - intros Hin. apply Hfresh. apply in_or_app. right. apply in_or_app. now left.
Qed.

Lemma unique_after_initialize ps name portfolio :
  StrategyPortfolio.positions portfolio = [] ->
  NoDup (ids_of ps) -> NoDup (ids_of (Dict.set ps name portfolio)).
Proof.
  intros Hempty Hnd. destruct (Dict.get ps name) as [old|] eqn:Hget.
  - destruct (set_present_split ps name old portfolio Hget) as (pre & post & Hps & ->).
    rewrite Hps in Hnd. rewrite ids_of_app in *. simpl in *. rewrite Hempty. simpl.
    apply (Permutation_NoDup (Permutation_app_swap_app _ _ _)) in Hnd.
    now apply NoDup_app_remove_l in Hnd.
  - rewrite (set_absent_append _ _ _ Hget), ids_of_app. simpl.
    rewrite Hempty. simpl. now rewrite app_nil_r.
Qed.

Lemma close_position_unique self position_id exit_price reason now :
  NoDup (open_ids self) ->
  NoDup (open_ids (snd (fst (close_position self position_id exit_price reason now)))).
Proof.
  intros Hnd.
  destruct (close_position self position_id exit_price reason now)
    as [[[position|] self'] log] eqn:Hclose; simpl.
  - rewrite (close_position_ids _ _ _ _ _ _ _ _ Hnd Hclose).
    now apply NoDup_remove_string.
  - unfold close_position in Hclose.
    destruct (close_first (portfolios self) position_id exit_price reason now)
      as [[p ps']|]; [discriminate|]. now injection Hclose as <- _.
Qed.

Lemma check_exits_loop_unique strategy market_data now snapshot :
  forall self closed,
    NoDup (open_ids self) ->
    NoDup (open_ids (snd (fst (check_exits_loop self strategy market_data snapshot
                                 now closed)))).
Proof.
  induction snapshot as [|position rest IH]; intros self closed Hnd; simpl; [exact Hnd|].
  destruct (negb _); [now apply IH|].
  destruct (Strategy.should_exit _ _ _); [|now apply IH].
  pose proof (close_position_unique self (PaperPosition.id position)
                (match MarketData.yes_price market_data with
                 | Some p => p | None => 5 / 10 end) "strategy_exit" now Hnd) as Hc.
  destruct (close_position _ _ _ _ _) as [[result self1] log1]. simpl in Hc.
  specialize (IH self1
                (match result with Some r => closed ++ [r] | None => closed end) Hc).
  destruct (check_exits_loop _ _ _ _ _ _) as [[out self2] log2]. exact IH.
Qed.

Lemma reachable_fresh_reachable self : reachable_fresh self -> reachable self.
Proof. induction 1; now constructor. Qed.

(** With fresh uuids, no two open positions of the ledger share an id,
    and each is filed under its own id with status [OPEN]. *)
Lemma reachable_fresh_unique self :
  reachable_fresh self -> NoDup (open_ids self) /\ well_filed (portfolios self).
Proof.
  intros Hreach. split; [|now apply reachable_well_filed, reachable_fresh_reachable].
  induction Hreach as [risk | self name capital _ IH
                      | self signal market_price uuid4 now _ IH Hfresh
                      | self position_id exit_price reason now _ IH
                      | self strategy market_data now _ IH
                      | self now' _ IH].
  - constructor.
  - unfold open_ids. simpl. now apply unique_after_initialize.
  - destruct (execute_signal self signal market_price uuid4 now)
      as [[[position|] self'] log] eqn:Hexec; simpl.
    + apply execute_signal_inv in Hexec.
      destruct Hexec as (portfolio & Hget & _ & _ & _ & _ & ->).
      unfold open_ids. simpl. now apply unique_after_insert.
    + apply execute_signal_rejected in Hexec. now subst.
  - now apply close_position_unique.
  - unfold check_exits.
    destruct (Dict.get (portfolios self) (Strategy.name strategy)); simpl; [|exact IH].
    now apply check_exits_loop_unique.
  - exact IH.
Qed.
End UniqueIds.

(* ===================================================================== *)
(** * The metrics engine *)
(* ===================================================================== *)

Section Statistics.
Lemma len_pos {A : Type} (x : A) (xs : list A) : 0 < len (x :: xs).
Proof. unfold len. apply lt_0_INR. simpl. lia. Qed.

Lemma len_map {A B : Type} (f : A -> B) (xs : list A) : len (map f xs) = len xs.
Proof. unfold len. now rewrite length_map. Qed.

Lemma py_sum_nonneg xs : (forall x, In x xs -> 0 <= x) -> 0 <= py_sum xs.
Proof.
  induction xs as [|x xs IH]; intros H.
  - rewrite py_sum_nil. lra.
  - rewrite py_sum_cons. assert (0 <= x) by (apply H; now left).
    assert (0 <= py_sum xs) by (apply IH; intros y Hy; apply H; now right). lra.
Qed.

Lemma py_sum_nonpos xs :
  (forall x, In x xs -> x <= 0) ->
  py_sum xs <= 0 /\ (py_sum xs = 0 -> forall x, In x xs -> x = 0).
Proof.
  induction xs as [|x xs IH]; intros H.
  - rewrite py_sum_nil. split; [lra | intros _ x []].
  - rewrite py_sum_cons. assert (x <= 0) by (apply H; now left).
    destruct IH as [Hle Hz]; [intros y Hy; apply H; now right|].
    split; [lra|]. intros Hs y [<-|Hy]; [lra|]. apply Hz; [lra | exact Hy].
Qed.

Lemma pvariance_nonneg rs : rs <> [] -> 0 <= pvariance rs.
Proof.
  destruct rs as [|r rs]; [congruence|]. intros _. unfold pvariance.
  apply Rmult_le_pos.
  - apply py_sum_nonneg. intros x Hx. apply in_map_iff in Hx.
    destruct Hx as (y & <- & _). apply pow2_ge_0.
  - left. apply Rinv_0_lt_compat, len_pos.
Qed.

Lemma traverse_py_div trades initial_capital :
  initial_capital <> 0 ->
  traverse (fun t => py_div (PaperPosition.pnl t) initial_capital) trades
  = Some (returns_of trades initial_capital).
Proof.
  intros Hic. induction trades as [|t ts IH]; simpl; [reflexivity|].
  unfold py_div at 1. rewrite (proj2 (Reqb_false_iff _ _) Hic). now rewrite IH.
Qed.

Lemma returns_of_nil_iff trades initial_capital :
  returns_of trades initial_capital = [] <-> trades = [].
Proof. destruct trades; simpl; split; congruence. Qed.
End Statistics.

Section Sharpe.
Import PerformanceTracker.
Variables (trades : list PaperPosition.t) (initial_capital : float).

Lemma sharpe_short :
  (List.length trades < 2)%nat ->
  _calculate_sharpe trades initial_capital (5 / 100) = Some 0.
Proof.
  intros H. unfold _calculate_sharpe.
  now rewrite (proj2 (Nat.ltb_lt _ _) H).
Qed.

(** From two trades on, the code's deviation is the population standard
    deviation of the returns. *)
Lemma sharpe_long :
  (2 <= List.length trades)%nat -> initial_capital <> 0 ->
  _calculate_sharpe trades initial_capital (5 / 100)
  = Some (if pstdev (returns_of trades initial_capital) =? 0 then 0
          else (mean (returns_of trades initial_capital) * 2500 - 5 / 100)
               / (pstdev (returns_of trades initial_capital) * sqrt 2500)).
Proof.
  intros Hlen Hic. unfold _calculate_sharpe.
  rewrite (proj2 (Nat.ltb_ge _ _) Hlen), (traverse_py_div _ _ Hic).
  set (rs := returns_of trades initial_capital).
  fold (mean rs). fold (pvariance rs).
  assert (Hv : 0 <= pvariance rs).
  { apply pvariance_nonneg. unfold rs. rewrite returns_of_nil_iff.
    destruct trades; [simpl in Hlen; lia | congruence]. }
  assert (Hstd : (if pvariance rs >? 0 then sqrt (pvariance rs) else 0) = pstdev rs).
  { unfold pstdev. float_case (pvariance rs >? 0); [reflexivity|].
    replace (pvariance rs) with 0 by lra. now rewrite sqrt_0. }
  rewrite Hstd. now destruct (pstdev rs =? 0).
Qed.

Lemma sharpe_total :
  initial_capital <> 0 ->
  exists s, _calculate_sharpe trades initial_capital (5 / 100) = Some s.
Proof.
  intros Hic. destruct (Nat.lt_ge_cases (List.length trades) 2) as [H|H].
  - rewrite sharpe_short; eauto.
  - rewrite sharpe_long; eauto.
Qed.
End Sharpe.

Section Sortino.
Import PerformanceTracker.
Variables (trades : list PaperPosition.t) (initial_capital : float).

Lemma sortino_total :
  initial_capital <> 0 ->
  exists s, _calculate_sortino trades initial_capital (5 / 100) = Some s.
Proof.
  intros Hic. unfold _calculate_sortino.
  destruct (List.length trades <? 2)%nat; [eauto|].
  rewrite (traverse_py_div _ _ Hic).
  destruct (filter _ _); [eauto|].
  match goal with |- context [Reqb ?a ?b] => destruct (Reqb a b) end; eauto.
Qed.

Lemma sortino_inf_iff s :
  initial_capital <> 0 ->
  _calculate_sortino trades initial_capital (5 / 100) = Some s ->
  (s = PInf <->
   (2 <= List.length trades)%nat
   /\ forall t, In t trades -> ~ PaperPosition.pnl t / initial_capital < 0).
Proof.
  intros Hic. unfold _calculate_sortino.
  destruct (Nat.ltb_spec (List.length trades) 2) as [Hlen|Hlen].
  - intros [= <-]. split; [discriminate | intros [H _]; lia].
  - rewrite (traverse_py_div _ _ Hic).
    destruct (filter (fun r => r <? 0) (returns_of trades initial_capital))
      as [|r negs] eqn:Hneg.
    + intros [= <-]. split; [|reflexivity]. intros _. split; [exact Hlen|].
      intros t Ht Hlt.
      assert (Hin : In (PaperPosition.pnl t / initial_capital)
                       (filter (fun r => r <? 0) (returns_of trades initial_capital))).
      { apply filter_In. split.
        - unfold returns_of. now apply in_map with (f := fun t => PaperPosition.pnl t / initial_capital).
        - now apply Rltb_true_iff. }
      rewrite Hneg in Hin. destruct Hin.
    + assert (Hr : In r (filter (fun r => r <? 0) (returns_of trades initial_capital)))
        by (rewrite Hneg; now left).
      apply filter_In in Hr. destruct Hr as [Hr Hrneg].
      apply Rltb_true_iff in Hrneg. unfold returns_of in Hr.
      apply in_map_iff in Hr. destruct Hr as (t & <- & Ht).
      intros Hs. split.
      * intros ->.
        match type of Hs with context [Reqb ?a ?b] => destruct (Reqb a b) end;
          discriminate.
      * intros [_ Hall]. exfalso. exact (Hall t Ht Hrneg).
Qed.
End Sortino.

Section CalculateMetrics.
Import PerformanceTracker.
Variables (self : PerformanceTracker.t) (portfolio : StrategyPortfolio.t)
          (now : datetime).

(** With a closed trade, a non-zero baseline and a usable capital history
    [calculate_metrics] returns, and these are the fields it computes. *)
Lemma calculate_metrics_nonempty :
  let trades := StrategyPortfolio.closed_positions portfolio in
  let capital := StrategyPortfolio.initial_capital portfolio in
  trades <> [] -> capital <> 0 ->
  history_ok self (StrategyPortfolio.strategy_name portfolio) ->
  exists m self',
    calculate_metrics self portfolio now = Some (m, self')
    /\ _calculate_sharpe trades capital (5 / 100) = Some (StrategyMetrics.sharpe_ratio m)
    /\ _calculate_sortino trades capital (5 / 100) = Some (StrategyMetrics.sortino_ratio m)
    /\ StrategyMetrics.profit_factor m
       = (if gross_loss trades >? 0 then Fin (gross_profit trades / gross_loss trades)
          else PInf)
    /\ StrategyMetrics.total_trades m = Z.of_nat (List.length trades)
    /\ StrategyMetrics.win_rate m
       = IZR (Z.of_nat (List.length (filter (fun t => PaperPosition.pnl t >? 0) trades)))
         / IZR (Z.of_nat (List.length trades)) * 100
    /\ StrategyMetrics.max_drawdown m
       = _calculate_max_drawdown self (StrategyPortfolio.strategy_name portfolio) portfolio
    /\ config self' = config self
    /\ _capital_history self' = _capital_history self.
Proof.
  intros trades capital Hne Hic Hhist. subst trades capital.
  unfold calculate_metrics.
  destruct (StrategyPortfolio.closed_positions portfolio) as [|t ts] eqn:Htrades;
    [congruence|].
  unfold py_div. rewrite (proj2 (Reqb_false_iff _ _) Hic).
  destruct (sharpe_total (t :: ts) _ Hic) as (sh & ->).
  destruct (sortino_total (t :: ts) _ Hic) as (so & ->).
  assert (Hpeak : exists pk,
            py_max_list
              (match Dict.get (_capital_history self)
                       (StrategyPortfolio.strategy_name portfolio) with
               | Some h => h
               | None => [StrategyPortfolio.initial_capital portfolio]
               end) = Some pk).
  { unfold history_ok in Hhist.
    destruct (Dict.get (_capital_history self) _) as [[|h hs]|];
      [congruence | simpl; eauto | simpl; eauto]. }
  destruct Hpeak as (pk & ->).
  do 2 eexists. split; [reflexivity|].
  cbn [StrategyMetrics.sharpe_ratio StrategyMetrics.sortino_ratio
       StrategyMetrics.profit_factor StrategyMetrics.total_trades].
  repeat split.
  unfold gross_loss, gross_profit.
  set (wins := filter (fun t0 => PaperPosition.pnl t0 >? 0) (t :: ts)).
  set (losses := filter (fun t0 => PaperPosition.pnl t0 <=? 0) (t :: ts)).
  assert (Hl : match losses with
               | [] => 0
               | _ :: _ => Rabs (py_sum (map PaperPosition.pnl losses))
               end = Rabs (py_sum (map PaperPosition.pnl losses))).
  { destruct losses; [|reflexivity]. unfold py_sum; simpl. now rewrite Rabs_R0. }
  assert (Hw : match wins with
               | [] => 0
               | _ :: _ => py_sum (map PaperPosition.pnl wins)
               end = py_sum (map PaperPosition.pnl wins)).
  { destruct wins; reflexivity. }
  rewrite Hl, Hw. reflexivity.
Qed.

(** No gross loss means no trade lost money. *)
Lemma gross_loss_zero_iff (trades : list PaperPosition.t) :
  (gross_loss trades >? 0) = false
  <-> forall t, In t trades -> ~ PaperPosition.pnl t < 0.
Proof.
  rewrite Rgtb_false_iff. unfold gross_loss.
  set (losses := filter (fun t => PaperPosition.pnl t <=? 0) trades).
  assert (Hneg : forall x, In x (map PaperPosition.pnl losses) -> x <= 0).
  { intros x Hx. apply in_map_iff in Hx. destruct Hx as (t & <- & Ht).
    apply filter_In in Ht. now apply Rleb_true_iff. }
  destruct (py_sum_nonpos _ Hneg) as [Hle Hzero].
  rewrite (Rabs_left1 _ Hle).
  split.
  - intros Habs t Ht Hlt.
    assert (Hs : py_sum (map PaperPosition.pnl losses) = 0) by lra.
    assert (Hin : In (PaperPosition.pnl t) (map PaperPosition.pnl losses)).
    { apply in_map, filter_In. split; [exact Ht | apply Rleb_true_iff; lra]. }
    specialize (Hzero Hs _ Hin). lra.
  - intros Hall.
    assert (Hs : py_sum (map PaperPosition.pnl losses) = 0).
    { apply Rle_antisym; [exact Hle|]. apply py_sum_nonneg.
      intros x Hx. apply in_map_iff in Hx. destruct Hx as (t & <- & Ht).
      apply filter_In in Ht. destruct Ht as [Ht _].
      specialize (Hall t Ht). lra. }
    rewrite Hs. lra.
Qed.
End CalculateMetrics.

Section Ranges.
Import PerformanceTracker.

Lemma py_max_ge_l a b : a <= py_max a b.
Proof. rewrite py_max_Rmax. apply Rmax_l. Qed.

Lemma drawdown_walk_nonneg history :
  forall acc, 0 <= snd acc -> 0 <= snd (fold_left drawdown_step history acc).
Proof.
  induction history as [|capital rest IH]; intros [peak max_dd] Hacc; simpl; [exact Hacc|].
  apply IH. simpl in *. pose proof (py_max_ge_l max_dd
    (if (if capital >? peak then capital else peak) >? 0
     then ((if capital >? peak then capital else peak) - capital)
          / (if capital >? peak then capital else peak)
     else 0)). lra.
Qed.

Lemma max_drawdown_nonneg self name portfolio :
  0 <= _calculate_max_drawdown self name portfolio.
Proof.
  unfold _calculate_max_drawdown.
  match goal with |- 0 <= match ?h with _ => _ end => destruct h as [|h0 [|h1 hs]] end;
    try lra.
  assert (0 <= snd (fold_left drawdown_step (h0 :: h1 :: hs) (h0, 0)))
    by (apply drawdown_walk_nonneg; simpl; lra).
  lra.
Qed.

Lemma ratio_percent (w n : nat) :
  (w <= n)%nat -> (0 < n)%nat ->
  0 <= IZR (Z.of_nat w) / IZR (Z.of_nat n) * 100 <= 100.
Proof.
  intros Hwn Hn. rewrite <- !INR_IZR_INZ.
  assert (Hn' : 0 < INR n) by now apply lt_0_INR.
  assert (Hw : 0 <= INR w) by apply pos_INR.
  assert (Hle : INR w <= INR n) by now apply le_INR.
  assert (Hinv : 0 < / INR n) by now apply Rinv_0_lt_compat.
  assert (Hone : INR n * / INR n = 1) by (apply Rinv_r; lra).
  unfold Rdiv. split; nra.
Qed.

(** What [calculate_metrics] returns has a win rate between 0 and 100 and
    a drawdown that is not negative. *)
Lemma calculate_metrics_ranges self portfolio now m self' :
  calculate_metrics self portfolio now = Some (m, self') ->
  0 <= StrategyMetrics.win_rate m <= 100 /\ 0 <= StrategyMetrics.max_drawdown m.
Proof.
  unfold calculate_metrics.
  destruct (StrategyPortfolio.closed_positions portfolio) as [|t ts] eqn:Htrades.
  - intros [= <- _]. simpl. lra.
  - destruct (py_div _ _); [|discriminate].
    destruct (_calculate_sharpe _ _ _); [|discriminate].
    destruct (_calculate_sortino _ _ _); [|discriminate].
    destruct (py_max_list _); [|discriminate].
    intros [= <- _].
    cbn [StrategyMetrics.win_rate StrategyMetrics.max_drawdown].
    split; [|apply max_drawdown_nonneg].
    apply (ratio_percent
             (List.length (filter (fun t0 => PaperPosition.pnl t0 >? 0) (t :: ts)))
             (List.length (t :: ts))); [apply filter_length_le | simpl; lia].
Qed.
End Ranges.

(** C1, as the code has it.  For a portfolio with at least one closed
    trade (and a non-zero baseline, without which the code divides by
    zero), [calculate_metrics] returns metrics whose profit factor is
    [float('inf')] exactly when no closed trade has a negative P&L, and
    whose Sortino ratio is [float('inf')] exactly when there are at least
    two closed trades and none has a negative return [pnl / initial_capital]. *)
Theorem infinite_ratios :
  forall self portfolio now,
    StrategyPortfolio.closed_positions portfolio <> [] ->
    StrategyPortfolio.initial_capital portfolio <> 0 ->
    history_ok self (StrategyPortfolio.strategy_name portfolio) ->
    exists m self',
      PerformanceTracker.calculate_metrics self portfolio now = Some (m, self')
      /\ (StrategyMetrics.profit_factor m = PInf <->
          forall t, In t (StrategyPortfolio.closed_positions portfolio) ->
                    ~ PaperPosition.pnl t < 0)
      /\ (StrategyMetrics.sortino_ratio m = PInf <->
          (2 <= List.length (StrategyPortfolio.closed_positions portfolio))%nat
          /\ forall t, In t (StrategyPortfolio.closed_positions portfolio) ->
               ~ PaperPosition.pnl t / StrategyPortfolio.initial_capital portfolio < 0).
Proof.
  intros self portfolio now Hne Hic Hhist.
  destruct (calculate_metrics_nonempty self portfolio now Hne Hic Hhist)
    as (m & self' & Hcalc & _ & Hsortino & Hpf & _).
  exists m, self'. split; [exact Hcalc|]. split.
  - rewrite Hpf, <- gross_loss_zero_iff.
    destruct (gross_loss (StrategyPortfolio.closed_positions portfolio) >? 0);
      split; congruence.
  - now apply sortino_inf_iff.
Qed.

Lemma history_ok_empty name : history_ok empty_tracker name.
Proof. unfold history_ok. simpl. discriminate. Qed.

Lemma infinite_ratios_witness :
  exists m self',
    PerformanceTracker.calculate_metrics empty_tracker
      (with_history [closed_trade "p1" 6; closed_trade "p2" 8]) 0 = Some (m, self')
    /\ StrategyMetrics.profit_factor m = PInf
    /\ StrategyMetrics.sortino_ratio m = PInf.
Proof.
  destruct (infinite_ratios empty_tracker
              (with_history [closed_trade "p1" 6; closed_trade "p2" 8]) 0)
    as (m & self' & Hcalc & Hpf & Hso).
  - discriminate.
  - simpl. lra.
  - apply history_ok_empty.
  - exists m, self'. split; [exact Hcalc|]. split.
    + apply Hpf. simpl. intros t [<-|[<-|[]]]; unfold PaperPosition.pnl; simpl; lra.
    + apply Hso. split; [simpl; lia|].
      simpl. intros t [<-|[<-|[]]]; unfold PaperPosition.pnl; simpl; lra.
Defined.

(** C1 as stated fails: one closed trade that broke even has no winner,
    yet its profit factor is [float('inf')]. *)
Lemma profit_factor_inf_without_winner :
  exists m self',
    PerformanceTracker.calculate_metrics empty_tracker
      (with_history [closed_trade "p1" 5]) 0 = Some (m, self')
    /\ StrategyMetrics.profit_factor m = PInf
    /\ ~ (exists t, In t [closed_trade "p1" 5] /\ PaperPosition.pnl t > 0).
Proof.
  destruct (calculate_metrics_nonempty empty_tracker
              (with_history [closed_trade "p1" 5]) 0)
    as (m & self' & Hcalc & _ & _ & Hpf & _).
  - discriminate.
  - simpl. lra.
  - apply history_ok_empty.
  - exists m, self'. split; [exact Hcalc|]. split.
    + rewrite Hpf.
      change (StrategyPortfolio.closed_positions (with_history [closed_trade "p1" 5]))
        with [closed_trade "p1" 5].
      rewrite (proj2 (gross_loss_zero_iff [closed_trade "p1" 5])); [reflexivity|].
      simpl. intros t [<-|[]]. unfold PaperPosition.pnl; simpl; lra.
    + intros (t & [<-|[]] & Hgt). unfold PaperPosition.pnl in Hgt; simpl in Hgt; lra.
Qed.

(* ===================================================================== *)
(** * Binary64: the Sharpe ratio of equal returns *)
(* ===================================================================== *)

Section Binary64Sharpe.
Import PrimFloat.
Import Binary64.
#[local] Set Warnings "-inexact-float".
#[local] Open Scope float_scope.

(** C8 on the program's numbers.  Three closed trades with a P&L of
    exactly 10.0 each on a baseline of 100.0 have the same return 0.1, so
    the deviation of the claim is 0.  Whichever way [sum] adds, the mean
    of the three returns is rounded to 0.10000000000000002, every squared
    deviation is 2^-112, the computed variance is positive, and
    [_calculate_sharpe] returns 3.602159125956018e+17 instead of 0. *)
Theorem sharpe_of_equal_returns :
  forall cpython,
    map PaperPosition.pnl three_equal_trades = [10; 10; 10]
    /\ traverse (fun t => py_div (PaperPosition.pnl t) 100) three_equal_trades
       = Some [0.1; 0.1; 0.1]
    /\ py_sum cpython [0.1; 0.1; 0.1] / 3 = 0.10000000000000002
    /\ py_square (0.1 - 0.10000000000000002) = Some 0x1p-112
    /\ (0 <? py_sum cpython [0x1p-112; 0x1p-112; 0x1p-112] / 3) = true
    /\ PerformanceTracker._calculate_sharpe cpython three_equal_trades 100 0.05
       = Some 3.602159125956018e+17.
Proof.
  intros cpython. split; [reflexivity|]. split; [vm_compute; reflexivity|].
  destruct cpython; repeat split; vm_compute; reflexivity.
Qed.
End Binary64Sharpe.

(* ===================================================================== *)
(** * The allocator: score *)
(* ===================================================================== *)

Section Score.
Import CapitalAllocator.

Lemma clamp_unit x : 0 <= x <= 1 -> clamp x 0 1 = x.
Proof.
  intros [H0 H1]. unfold clamp. rewrite Rmin_right by lra. now rewrite Rmax_right.
Qed.

Lemma py_min_x_clamp x : py_max 0 (py_min_x 1 x) = clamp_x x 0 1.
Proof.
  destruct x as [r|]; simpl.
  - now rewrite py_max_Rmax, py_min_Rmin.
  - rewrite py_max_Rmax, Rmax_right; lra.
Qed.

Lemma score_as_coded self m :
  calculate_strategy_score self m
  = coded_score (AllocatorConfig.performance_weight (config self))
      (AllocatorConfig.risk_weight (config self)) m.
Proof.
  unfold calculate_strategy_score, coded_score.
  destruct (StrategyMetrics.total_trades m <? 3)%Z; [reflexivity|].
  rewrite py_min_x_clamp, !py_max_Rmax, !py_min_Rmin. reflexivity.
Qed.

Lemma score_as_claimed self m :
  0 <= StrategyMetrics.win_rate m <= 100 ->
  0 <= StrategyMetrics.max_drawdown m ->
  calculate_strategy_score self m
  = claimed_score (AllocatorConfig.performance_weight (config self))
      (AllocatorConfig.risk_weight (config self)) m.
Proof.
  intros Hwr Hdd. rewrite score_as_coded. unfold coded_score, claimed_score.
  destruct (StrategyMetrics.total_trades m <? 3)%Z; [reflexivity|].
  rewrite (clamp_unit (StrategyMetrics.win_rate m / 100)) by lra.
  replace (clamp (StrategyMetrics.max_drawdown m / 20) 0 1)
    with (Rmin 1 (StrategyMetrics.max_drawdown m / 20)); [reflexivity|].
  unfold clamp. rewrite Rmax_right; [reflexivity|].
  apply Rmin_glb; lra.
Qed.

(** C9, as the code has it.  The score is 0 below three trades and
    otherwise [max(0, pw * (0.4 * clamp(sharpe/2) + 0.3 * win_rate/100
    + 0.3 * clamp((profit_factor - 1)/2)) - rw * min(1, max_drawdown/20))]:
    the win rate enters unclamped and the drawdown penalty is only capped
    at 1.  The score is never negative, and it is the fully clamped formula
    of the specification whenever the win rate lies in [0, 100] and the
    drawdown is not negative, in particular on every metrics record that
    [calculate_metrics] returns. *)
Theorem strategy_score_formula :
  forall self m,
    calculate_strategy_score self m
    = coded_score (AllocatorConfig.performance_weight (config self))
        (AllocatorConfig.risk_weight (config self)) m
    /\ ((StrategyMetrics.total_trades m < 3)%Z -> calculate_strategy_score self m = 0)
    /\ 0 <= calculate_strategy_score self m
    /\ (0 <= StrategyMetrics.win_rate m <= 100 ->
        0 <= StrategyMetrics.max_drawdown m ->
        calculate_strategy_score self m
        = claimed_score (AllocatorConfig.performance_weight (config self))
            (AllocatorConfig.risk_weight (config self)) m)
    /\ (forall tracker portfolio now tracker',
          PerformanceTracker.calculate_metrics tracker portfolio now = Some (m, tracker') ->
          calculate_strategy_score self m
          = claimed_score (AllocatorConfig.performance_weight (config self))
              (AllocatorConfig.risk_weight (config self)) m).
Proof.
  intros self m. split; [apply score_as_coded|]. split; [|split; [|split]].
  - intros Hlt. unfold calculate_strategy_score.
    now rewrite (proj2 (Z.ltb_lt _ _) Hlt).
  - unfold calculate_strategy_score.
    destruct (StrategyMetrics.total_trades m <? 3)%Z; [lra|].
    rewrite py_max_Rmax. apply Rmax_l.
  - apply score_as_claimed.
  - intros tracker portfolio now tracker' Hcalc.
    destruct (calculate_metrics_ranges _ _ _ _ _ Hcalc) as [Hwr Hdd].
    now apply score_as_claimed.
Qed.

Lemma strategy_score_formula_witness :
  calculate_strategy_score allocator_200 (metrics_of 10 60)
  = claimed_score (7 / 10) (3 / 10) (metrics_of 10 60).
Proof.
  apply (strategy_score_formula allocator_200 (metrics_of 10 60)); simpl; lra.
Defined.

(** C9 as stated fails: on metrics with a win rate above 100 the code
    scores the unclamped rate. *)
Lemma score_ignores_win_rate_clamp :
  calculate_strategy_score allocator_200 (metrics_of 3 200)
  <> claimed_score (7 / 10) (3 / 10) (metrics_of 3 200).
Proof.
  rewrite score_as_coded. unfold coded_score, claimed_score, clamp_x, clamp. simpl.
  replace (0 / 2) with 0 by lra. replace ((0 - 1) / 2) with (- (1 / 2)) by lra.
  replace (0 / 20) with 0 by lra. replace (200 / 100) with 2 by lra.
  rewrite (Rmin_right 1 0), (Rmin_right 1 (- (1 / 2))), (Rmin_left 1 2) by lra.
  rewrite (Rmax_left 0 0), (Rmax_left 0 (- (1 / 2))), (Rmax_right 0 1) by lra.
  rewrite !Rmax_right by lra. lra.
Qed.
End Score.

(* ===================================================================== *)
(** * The allocator: allocations *)
(* ===================================================================== *)

Section Allocations.
Import CapitalAllocator.

Lemma len_cons {A : Type} (x : A) (xs : list A) : len (x :: xs) = len xs + 1.
Proof. unfold len. simpl List.length. now rewrite S_INR. Qed.

Lemma total_allocated_cons r rs :
  total_allocated (r :: rs) = AllocationResult.new_allocation r + total_allocated rs.
Proof. unfold total_allocated. simpl. apply py_sum_cons. Qed.

Lemma total_allocated_rescale scale rs :
  total_allocated (map (rescale scale) rs) = total_allocated rs * scale.
Proof.
  induction rs as [|r rs IH].
  - unfold total_allocated, py_sum. simpl. lra.
  - simpl map. rewrite !total_allocated_cons, IH. simpl. lra.
Qed.

Lemma total_allocated_equal self per_strategy rankings :
  forall rank,
    total_allocated (equal_allocation self per_strategy rank rankings)
    = len rankings * per_strategy.
Proof.
  induction rankings as [|[[name score] metrics] rest IH]; intros rank.
  - unfold total_allocated, py_sum, len. simpl. lra.
  - simpl equal_allocation. rewrite total_allocated_cons, IH, len_cons. simpl. lra.
Qed.

Lemma normalize_within self rs :
  0 <= total_capital self ->
  exists results,
    normalize self rs = Some results
    /\ total_allocated results <= total_capital self
    /\ (total_allocated rs > total_capital self ->
        exists scale,
          0 <= scale < 1
          /\ results = map (rescale scale) rs
          /\ total_allocated results = total_capital self).
Proof.
  intros Hcap. unfold normalize.
  float_case (total_allocated rs >? total_capital self).
  - unfold py_div. rewrite (proj2 (Reqb_false_iff _ _)) by lra.
    eexists. split; [reflexivity|].
    assert (Hsum : total_allocated
                     (map (rescale (total_capital self / total_allocated rs)) rs)
                   = total_capital self).
    { rewrite total_allocated_rescale. apply Rmult_div_same. lra. }
    split; [lra|]. intros _.
    exists (total_capital self / total_allocated rs). repeat split; auto.
    + apply Rmult_le_pos; [lra|]. left. apply Rinv_0_lt_compat. lra.
    + apply Rmult_lt_reg_r with (r := total_allocated rs); [lra|].
      rewrite Rmult_comm, Rmult_div_same; lra.
  - eexists. split; [reflexivity|]. split; [lra|]. intros Hgt. lra.
Qed.

Lemma allocate_within self rankings :
  0 <= total_capital self ->
  exists results,
    allocate self rankings = Some results
    /\ total_allocated results <= total_capital self
    /\ (forall q qs,
          filter (is_qualified self) rankings = q :: qs ->
          total_allocated (proposed self (q :: qs)) > total_capital self ->
          exists scale,
            0 <= scale < 1
            /\ results = map (rescale scale) (proposed self (q :: qs))
            /\ total_allocated results = total_capital self).
Proof.
  intros Hcap. unfold allocate. destruct rankings as [|r rest].
  - exists []. split; [reflexivity|]. split; [|discriminate].
    unfold total_allocated, py_sum. simpl. exact Hcap.
  - destruct (filter (is_qualified self) (r :: rest)) as [|q qs] eqn:Hq.
    + eexists. split; [reflexivity|]. split; [|discriminate].
      rewrite total_allocated_equal.
      pose proof (len_pos r rest).
      rewrite Rmult_div_same; lra.
    + destruct (normalize_within self (proposed self (q :: qs)) Hcap)
        as (results & Hn & Hle & Hscale).
      exists results. split; [exact Hn|]. split; [exact Hle|].
      intros q' qs' [= <- <-]. exact Hscale.
Qed.

Lemma allocate_qualified self rankings qualified :
  filter (is_qualified self) rankings = qualified -> qualified <> [] ->
  allocate self rankings = normalize self (proposed self qualified).
Proof.
  unfold allocate. intros <- Hne. destruct rankings as [|r rest]; [now elim Hne|].
  destruct (filter (is_qualified self) (r :: rest)); [now elim Hne | reflexivity].
Qed.


End Allocations.

Section ScoredExample.
Import CapitalAllocator.
Variables (self : CapitalAllocator.t) (n1 n2 n3 : string)
          (m1 m2 m3 : StrategyMetrics.t).
Hypothesis pool : total_capital self = 200.
Hypothesis threshold :
  PerformanceConfig.min_trades_for_ranking
    (PerformanceTracker.config (performance_tracker self)) = 5%Z.
Hypothesis short_history : StrategyMetrics.total_trades m3 = 2%Z.

Lemma scored_third_qualified : is_qualified self (n3, 0, m3) = true.
Proof.
  unfold is_qualified. rewrite threshold, short_history. apply orb_true_r.
Qed.

Lemma scored_all_qualified :
  filter (is_qualified self) (scored_rankings n1 n2 n3 m1 m2 m3)
  = scored_rankings n1 n2 n3 m1 m2 m3.
Proof.
  unfold scored_rankings, is_qualified. simpl filter.
  rewrite threshold, short_history. now float_decide.
Qed.

Lemma scored_proposals :
  map AllocationResult.new_allocation
      (proposed self (scored_rankings n1 n2 n3 m1 m2 m3))
  = [100; 200 / 3; 20 / 3].
Proof.
  unfold proposed, scored_rankings, len, py_sum. simpl. rewrite pool.
  replace (0 + 6 / 10 + 3 / 10 + 0) with (9 / 10) by lra.
  float_decide.
  replace (6 / 10 / (9 / 10) * 200) with (400 / 3) by field.
  replace (3 / 10 / (9 / 10) * 200) with (200 / 3) by field.
  replace (0 / (9 / 10) * 200) with 0 by field.
  unfold py_max, py_min. float_decide.
  repeat (apply f_equal2; [lra|]). reflexivity.
Qed.

Lemma scored_reasons :
  map AllocationResult.reason (proposed self (scored_rankings n1 n2 n3 m1 m2 m3))
  = ["high_performer"; "moderate_performer"; "insufficient_history"].
Proof.
  unfold proposed, scored_rankings. simpl. unfold reason_of.
  rewrite short_history. simpl. now float_decide.
Qed.

Lemma scored_total :
  total_allocated (proposed self (scored_rankings n1 n2 n3 m1 m2 m3)) = 520 / 3.
Proof.
  unfold total_allocated. rewrite scored_proposals. unfold py_sum. simpl. lra.
Qed.

Lemma scored_allocate :
  allocate self (scored_rankings n1 n2 n3 m1 m2 m3)
  = Some (proposed self (scored_rankings n1 n2 n3 m1 m2 m3)).
Proof.
  rewrite (allocate_qualified _ _ _ scored_all_qualified) by discriminate.
  unfold normalize. rewrite scored_total, pool. now float_decide.
Qed.
End ScoredExample.

(** C2, as the code has it.  With a pool of $200, the ranking threshold of
    5 trades and three strategies scored 0.6, 0.3 and 0, the third with two
    closed trades, all three strategies qualify (the third for its short
    history), the allocations are $100 (the 50% cap), $66.67 and $6.67 (the
    10% floor), and since they sum to $173.33, which does not exceed the
    pool, nothing is rescaled: the allocations returned sum to 520/3, not
    to 200. *)
Theorem example_rebalance_allocations :
  forall self n1 n2 n3 m1 m2 m3,
    CapitalAllocator.total_capital self = 200 ->
    PerformanceConfig.min_trades_for_ranking
      (PerformanceTracker.config (CapitalAllocator.performance_tracker self)) = 5%Z ->
    StrategyMetrics.total_trades m3 = 2%Z ->
    CapitalAllocator.is_qualified self (n3, 0, m3) = true
    /\ filter (CapitalAllocator.is_qualified self) (scored_rankings n1 n2 n3 m1 m2 m3)
       = scored_rankings n1 n2 n3 m1 m2 m3
    /\ exists results,
         CapitalAllocator.allocate self (scored_rankings n1 n2 n3 m1 m2 m3)
         = Some results
         /\ map AllocationResult.new_allocation results = [100; 200 / 3; 20 / 3]
         /\ map AllocationResult.reason results
            = ["high_performer"; "moderate_performer"; "insufficient_history"]
         /\ CapitalAllocator.total_allocated results = 520 / 3
         /\ CapitalAllocator.total_allocated results < 200.
Proof.
  intros self n1 n2 n3 m1 m2 m3 Hpool Hthr Hshort.
  split; [now apply scored_third_qualified|].
  split; [now apply scored_all_qualified|].
  exists (CapitalAllocator.proposed self (scored_rankings n1 n2 n3 m1 m2 m3)).
  split; [now apply scored_allocate|].
  split; [now apply scored_proposals|].
  split; [now apply scored_reasons|].
  rewrite (scored_total self n1 n2 n3 m1 m2 m3 Hpool). split; [reflexivity | lra].
Qed.

Lemma example_rebalance_allocations_witness :
  exists results,
    CapitalAllocator.allocate allocator_200 example_rankings = Some results
    /\ map AllocationResult.new_allocation results = [100; 200 / 3; 20 / 3].
Proof.
  destruct (example_rebalance_allocations allocator_200
              "MeanReversion" "Momentum" "MarketMaking"
              (metrics_of 10 60) (metrics_of 10 40) (metrics_of 2 0)
              eq_refl eq_refl eq_refl)
    as (_ & _ & results & Halloc & Hnew & _).
  exists results. split; [exact Halloc | exact Hnew].
Defined.

(* ===================================================================== *)
(** * The allocator: the example of the specification, end to end *)
(* ===================================================================== *)

Lemma sqrt_2500 : sqrt 2500 = 50.
Proof. replace 2500 with (50 * 50) by lra. apply sqrt_square. lra. Qed.

Lemma four_wins_mean : mean (returns_of four_wins 100) = 2 / 100.
Proof. unfold mean, returns_of, four_wins, py_sum, len, PaperPosition.pnl. simpl. lra. Qed.

Lemma four_wins_pstdev : pstdev (returns_of four_wins 100) = 1 / 100.
Proof.
  unfold pstdev, pvariance. rewrite four_wins_mean.
  replace (py_sum (map (fun r => (r - 2 / 100) ^ 2) (returns_of four_wins 100))
           / len (returns_of four_wins 100))
    with (1 / 100 * (1 / 100)).
  - apply sqrt_square. lra.
  - unfold returns_of, four_wins, py_sum, len, PaperPosition.pnl. simpl. lra.
Qed.

Lemma four_wins_sharpe :
  PerformanceTracker._calculate_sharpe four_wins 100 (5 / 100) = Some (999 / 10).
Proof.
  rewrite sharpe_long; [|simpl; lia | lra].
  rewrite four_wins_mean, four_wins_pstdev, sqrt_2500.
  float_decide. f_equal. lra.
Qed.

Lemma four_wins_no_loss : (gross_loss four_wins >? 0) = false.
Proof.
  apply gross_loss_zero_iff. unfold four_wins.
  intros t [<-|[<-|[<-|[<-|[]]]]]; unfold PaperPosition.pnl; simpl; lra.
Qed.

Lemma four_wins_all_win :
  filter (fun t => PaperPosition.pnl t >? 0) four_wins = four_wins.
Proof. unfold four_wins, PaperPosition.pnl. simpl. now float_decide. Qed.

Lemma drawdown_without_history name :
  name <> "Momentum" ->
  PerformanceTracker._calculate_max_drawdown example_tracker name (funded name four_wins) = 0.
Proof.
  intros Hne. unfold PerformanceTracker._calculate_max_drawdown. simpl.
  destruct (String.eqb_spec name "Momentum"); [congruence|].
  unfold sorted_by_key, four_wins. simpl. float_eval.
  unfold PerformanceTracker.drawdown_step, PaperPosition.pnl, py_max. simpl.
  float_eval. lra.
Qed.

Lemma drawdown_with_history trades :
  PerformanceTracker._calculate_max_drawdown example_tracker "Momentum"
    (funded "Momentum" trades) = 20.
Proof.
  unfold PerformanceTracker._calculate_max_drawdown. simpl.
  unfold PerformanceTracker.drawdown_step, py_max. simpl. float_eval. lra.
Qed.

Section FourWins.
Import PerformanceTracker.
Variables (tracker : PerformanceTracker.t) (name : string) (now : datetime).
Hypothesis usable : history_ok tracker name.

Lemma four_wins_metrics :
  exists m tracker',
    calculate_metrics tracker (funded name four_wins) now = Some (m, tracker')
    /\ StrategyMetrics.total_trades m = 4%Z
    /\ StrategyMetrics.sharpe_ratio m = 999 / 10
    /\ StrategyMetrics.win_rate m = 100
    /\ StrategyMetrics.profit_factor m = PInf
    /\ StrategyMetrics.max_drawdown m
       = _calculate_max_drawdown tracker name (funded name four_wins)
    /\ config tracker' = config tracker
    /\ _capital_history tracker' = _capital_history tracker.
Proof.
  destruct (calculate_metrics_nonempty tracker (funded name four_wins) now)
    as (m & tracker' & Hcalc & Hsharpe & _ & Hpf & Htrades & Hwr & Hdd & Hcfg & Hhist).
  - discriminate.
  - simpl. lra.
  - exact usable.
  - exists m, tracker'.
    cbn [StrategyPortfolio.closed_positions StrategyPortfolio.initial_capital
         StrategyPortfolio.strategy_name funded] in *.
    rewrite four_wins_sharpe in Hsharpe. rewrite four_wins_no_loss in Hpf.
    rewrite four_wins_all_win in Hwr.
    repeat split; auto; try congruence.
    rewrite Hwr. simpl. lra.
Qed.
End FourWins.

Section EndToEnd.
Import CapitalAllocator.

Lemma strong_score self m d :
  AllocatorConfig.performance_weight (config self) = 6 / 10 ->
  AllocatorConfig.risk_weight (config self) = 3 / 10 ->
  StrategyMetrics.total_trades m = 4%Z ->
  StrategyMetrics.sharpe_ratio m = 999 / 10 ->
  StrategyMetrics.win_rate m = 100 ->
  StrategyMetrics.profit_factor m = PInf ->
  StrategyMetrics.max_drawdown m = d ->
  (d = 0 -> calculate_strategy_score self m = 6 / 10)
  /\ (d = 20 -> calculate_strategy_score self m = 3 / 10).
Proof.
  intros Hpw Hrw Htrades Hsharpe Hwr Hpf Hdd.
  unfold calculate_strategy_score.
  rewrite Hpw, Hrw, Htrades, Hsharpe, Hwr, Hpf, Hdd. simpl.
  split; intros ->; unfold py_max, py_min; float_eval; lra.
Qed.

Lemma rank_loop_step self tracker name portfolio rest now m tracker' rankings tracker'' :
  PerformanceTracker.calculate_metrics tracker portfolio now = Some (m, tracker') ->
  rank_loop self tracker' rest now = Some (rankings, tracker'') ->
  rank_loop self tracker ((name, portfolio) :: rest) now
  = Some ((name, calculate_strategy_score self m, m) :: rankings, tracker'').
Proof. intros H1 H2. simpl. now rewrite H1, H2. Qed.

Lemma example_history_ok tracker name :
  PerformanceTracker._capital_history tracker
  = PerformanceTracker._capital_history example_tracker ->
  history_ok tracker name.
Proof.
  unfold history_ok. intros ->. simpl.
  destruct (String.eqb name "Momentum"); discriminate.
Qed.

Lemma example_ranking now :
  exists m1 m2 m3 self',
    rank_strategies example_allocator now
    = Some (scored_rankings "MeanReversion" "Momentum" "MarketMaking" m1 m2 m3, self')
    /\ StrategyMetrics.total_trades m3 = 2%Z
    /\ total_capital self' = 200
    /\ PerformanceConfig.min_trades_for_ranking
         (PerformanceTracker.config (performance_tracker self')) = 5%Z.
Proof.
  destruct (four_wins_metrics example_tracker "MeanReversion" now)
    as (m1 & tr1 & Hc1 & Ht1 & Hs1 & Hw1 & Hp1 & Hd1 & Hcfg1 & Hh1);
    [now apply example_history_ok|].
  destruct (four_wins_metrics tr1 "Momentum" now)
    as (m2 & tr2 & Hc2 & Ht2 & Hs2 & Hw2 & Hp2 & Hd2 & Hcfg2 & Hh2);
    [now apply example_history_ok|].
  destruct (calculate_metrics_nonempty tr2
              (funded "MarketMaking" [closed_trade "t5" 6; closed_trade "t6" 8]) now)
    as (m3 & tr3 & Hc3 & _ & _ & _ & Ht3 & _ & _ & Hcfg3 & Hh3);
    [discriminate | simpl; lra | apply example_history_ok; congruence |].
  exists m1, m2, m3, (with_tracker example_allocator tr3).
  assert (Hscore1 : calculate_strategy_score example_allocator m1 = 6 / 10).
  { apply (strong_score example_allocator m1 _ eq_refl eq_refl Ht1 Hs1 Hw1 Hp1 Hd1).
    now apply drawdown_without_history. }
  assert (Hscore2 : calculate_strategy_score example_allocator m2 = 3 / 10).
  { apply (strong_score example_allocator m2 _ eq_refl eq_refl Ht2 Hs2 Hw2 Hp2 Hd2).
    unfold PerformanceTracker._calculate_max_drawdown. rewrite Hh1.
    apply drawdown_with_history. }
  assert (Hscore3 : calculate_strategy_score example_allocator m3 = 0).
  { unfold calculate_strategy_score. now rewrite Ht3. }
  split; [|split; [exact Ht3 | split; [reflexivity|]]].
  - unfold rank_strategies.
    change (PaperTrader.portfolios (paper_trader example_allocator))
      with [("MeanReversion", funded "MeanReversion" four_wins);
            ("Momentum", funded "Momentum" four_wins);
            ("MarketMaking",
             funded "MarketMaking" [closed_trade "t5" 6; closed_trade "t6" 8])].
    change (performance_tracker example_allocator) with example_tracker.
    pose proof (rank_loop_step example_allocator tr2 "MarketMaking" _ [] now m3 tr3
                  [] tr3 Hc3 eq_refl) as Hr3.
    pose proof (rank_loop_step example_allocator tr1 "Momentum" _ _ now m2 tr2
                  _ tr3 Hc2 Hr3) as Hr2.
    rewrite (rank_loop_step example_allocator example_tracker "MeanReversion" _ _ now
               m1 tr1 _ tr3 Hc1 Hr2).
    rewrite Hscore1, Hscore2, Hscore3.
    unfold sorted_by_key, scored_rankings. simpl. float_eval. reflexivity.
  - simpl. rewrite Hcfg3, Hcfg2, Hcfg1. reflexivity.
Qed.

(** C2 as stated fails: three strategies that score 0.6, 0.3 and 0, the
    third with two closed trades, and a pool of $200; the allocations that
    [calculate_allocations] returns do not sum to 200. *)
Lemma calculate_allocations_below_200 :
  exists results self',
    calculate_allocations example_allocator 0 = Some (results, self')
    /\ map AllocationResult.new_allocation results = [100; 200 / 3; 20 / 3]
    /\ total_allocated results <> 200.
Proof.
  destruct (example_ranking 0) as (m1 & m2 & m3 & self' & Hrank & Hshort & Hpool & Hthr).
  exists (proposed self' (scored_rankings "MeanReversion" "Momentum" "MarketMaking" m1 m2 m3)),
         self'.
  unfold calculate_allocations. rewrite Hrank.
  rewrite (scored_allocate self' _ _ _ _ _ _ Hpool Hthr Hshort).
  split; [reflexivity|]. split.
  - now apply scored_proposals.
  - rewrite (scored_total self' _ _ _ _ _ _ Hpool). lra.
Qed.
End EndToEnd.

Section CrowdedEndToEnd.
Import CapitalAllocator.




Variables (self : CapitalAllocator.t) (m1 m2 m3 : StrategyMetrics.t).
Hypothesis pool : total_capital self = 200.
Hypothesis threshold :
  PerformanceConfig.min_trades_for_ranking
    (PerformanceTracker.config (performance_tracker self)) = 5%Z.
Hypothesis short_history : StrategyMetrics.total_trades m3 = 2%Z.




End CrowdedEndToEnd.


(* ===================================================================== *)
(** * The ledger: the risk gate *)
(* ===================================================================== *)

Section RiskGate.
Import PaperTrader.

Lemma check_risk_limits_iff self signal portfolio :
  fst (_check_risk_limits self signal portfolio) = true
  <-> within_limits self signal portfolio.
Proof.
  unfold _check_risk_limits, within_limits.
  fold (exposure_all self) (exposure_cap self) (open_count self).
  float_case (Signal.size signal >? StrategyPortfolio.available_capital portfolio);
    [simpl; split; [discriminate | intros (? & _); lra]|].
  float_case (Signal.size signal >? RiskConfig.max_position_size (risk_config self));
    [simpl; split; [discriminate | intros (_ & ? & _); lra]|].
  float_case (exposure_all self + Signal.size signal >? exposure_cap self);
    [simpl; split; [discriminate | intros (_ & _ & ? & _); lra]|].
  destruct (Z.geb_spec (open_count self)
              (RiskConfig.max_concurrent_positions (risk_config self))) as [Hn|Hn];
    [simpl; split; [discriminate | intros (_ & _ & _ & ? & _); lia]|].
  float_case (_daily_pnl self <? - RiskConfig.max_daily_loss (risk_config self));
    [simpl; split; [discriminate | intros (_ & _ & _ & _ & ?); lra]|].
  simpl. split; [|reflexivity]. intros _. repeat split; auto; lra.
Qed.

(** X1.  [execute_signal] opens a position exactly when the strategy has a
    portfolio, none of the five risk limits is violated, the effective
    price is positive and the size buys at least one contract. *)
Theorem execute_signal_accepts_iff :
  forall self signal market_price uuid4 now,
    (exists position self' log,
        execute_signal self signal market_price uuid4 now = (Some position, self', log))
    <-> (exists portfolio,
            get_portfolio self (Signal.strategy_name signal) = Some portfolio
            /\ within_limits self signal portfolio
            /\ effective_price (Signal.side signal) market_price > 0
            /\ (1 <= py_int (Signal.size signal
                             / effective_price (Signal.side signal) market_price))%Z).
Proof.
  intros self signal market_price uuid4 now. split.
  - intros (position & self' & log & Hexec). apply execute_signal_inv in Hexec.
    destruct Hexec as (portfolio & Hget & Hrisk & Hq & Hprice & Hpos & _).
    exists portfolio. split; [exact Hget|]. split; [now apply check_risk_limits_iff|].
    split; [exact Hprice|]. rewrite Hpos in Hq. simpl in Hq. lia.
  - intros (portfolio & Hget & Hlim & Hprice & Hq).
    apply check_risk_limits_iff in Hlim.
    unfold execute_signal, get_portfolio in *. rewrite Hget.
    destruct (_check_risk_limits self signal portfolio) as [ok l]. simpl in Hlim. subst ok.
    simpl negb. cbv iota. fold (effective_price (Signal.side signal) market_price).
    rewrite (proj2 (Rgtb_true_iff _ _) Hprice).
    destruct (Z.leb_spec (py_int (Signal.size signal
                                  / effective_price (Signal.side signal) market_price)) 0);
      [lia|]. eauto.
Qed.

(** An opened position holds at least one contract at a positive price:
    its cost is positive. *)
Lemma opened_cost_positive self signal market_price uuid4 now position self' log :
  execute_signal self signal market_price uuid4 now = (Some position, self', log) ->
  0 < PaperPosition.entry_cost position.
Proof.
  intros Hexec.
  apply execute_signal_inv in Hexec.
  destruct Hexec as (portfolio & _ & _ & Hq & Hprice & Hpos & _).
  rewrite Hpos in Hq |- *. simpl in *.
  apply Rmult_lt_0_compat; [|lra]. apply IZR_lt. exact Hq.
Qed.
End RiskGate.

(* ===================================================================== *)
(** * Binary64: what rounding does to the cost of a position *)
(* ===================================================================== *)

Section Binary64Cost.
Import PrimFloat.
Import Binary64 Binary64.PaperTrader.
#[local] Set Warnings "-inexact-float".
#[local] Open Scope float_scope.

(** X2.  The cost of an opened position can exceed the size of its signal:
    $0.7 at a yes-price of 0.01 buys 70 contracts, and the rounded
    product of 70 and 0.01 is 0.7000000000000001. *)
Theorem entry_cost_can_exceed_size :
  forall cpython,
    exists position self' log,
      execute_signal cpython one_strategy (buy 0.7) 0.01 "p1" 0%R
      = Some (Some position, self', log)
      /\ PaperPosition.quantity position = 70%Z
      /\ PaperPosition.entry_cost position = 0.7000000000000001
      /\ (Signal.size (buy 0.7) <? PaperPosition.entry_cost position) = true.
Proof.
  intros cpython. do 3 eexists.
  split; [destruct cpython; vm_compute; reflexivity|].
  repeat split; vm_compute; reflexivity.
Qed.

(** X26.  The risk check compares the size of the signal with the
    available capital, but the position is charged its cost: a portfolio
    funded with $0.7 that accepts the signal above is left with an
    available capital of -1.1102230246251565e-16. *)
Theorem overdrawn_by_rounding :
  forall cpython,
    exists position self' log portfolio',
      execute_signal cpython (funded 0.7) (buy 0.7) 0.01 "p1" 0%R
      = Some (Some position, self', log)
      /\ Dict.get (portfolios self') "Momentum" = Some portfolio'
      /\ StrategyPortfolio.available_capital cpython portfolio'
         = -1.1102230246251565e-16
      /\ (StrategyPortfolio.available_capital cpython portfolio' <? 0) = true.
Proof.
  intros cpython. do 4 eexists.
  split; [destruct cpython; vm_compute; reflexivity|].
  split; [reflexivity|].
  split; destruct cpython; vm_compute; reflexivity.
Qed.
End Binary64Cost.

(* ===================================================================== *)
(** * The ledger: what a close does to the books *)
(* ===================================================================== *)

Lemma py_sum_perm xs ys : Permutation xs ys -> py_sum xs = py_sum ys.
Proof.
  induction 1 as [|x xs ys _ IH|x y xs|xs ys zs _ IH1 _ IH2].
  - reflexivity.
  - now rewrite !py_sum_cons, IH.
  - rewrite !py_sum_cons. lra.
  - now rewrite IH1.
Qed.

Lemma del_absent {V : Type} (d : Dict.t V) k :
  ~ In k (Dict.keys d) -> Dict.del d k = d.
Proof.
  unfold Dict.keys. induction d as [|[k0 v0] d IH]; simpl; [reflexivity|].
  intros Hn. destruct (String.eqb_spec k k0) as [->|Hne]; [tauto|].
  rewrite IH; tauto.
Qed.

(** Deleting a key takes exactly its entry out of the dict. *)
Lemma del_split {V : Type} (d : Dict.t V) k v :
  NoDup (Dict.keys d) -> In (k, v) d ->
  exists pre post, d = pre ++ (k, v) :: post /\ Dict.del d k = pre ++ post.
Proof.
  unfold Dict.keys. induction d as [|[k0 v0] d IH]; simpl; [tauto|].
  intros Hnd Hin. inversion Hnd as [|? ? Hk0 Hnd']; subst.
  destruct Hin as [[= -> ->]|Hin].
  - rewrite String.eqb_refl. exists [], d. split; [reflexivity|].
    simpl. now apply del_absent.
  - destruct (String.eqb_spec k k0) as [->|Hne].
    + exfalso. apply Hk0. apply (in_map fst) in Hin. exact Hin.
    + destruct (IH Hnd' Hin) as (pre & post & -> & ->).
      now exists ((k0, v0) :: pre), post.
Qed.

Section CloseBooks.
Import PaperTrader.
Variables (exit_price : float) (reason : string) (now : datetime).

(** With unique ids, closing the id of a held position rewrites exactly
    the portfolio that holds it. *)
Lemma close_first_split ps k position :
  NoDup (ids_of ps) -> held ps k position ->
  exists pre name portfolio post,
    ps = pre ++ (name, portfolio) :: post
    /\ In (k, position) (StrategyPortfolio.positions portfolio)
    /\ close_first ps k exit_price reason now
       = Some (mark_closed position exit_price reason now,
               pre ++ (name, snd (close_in_portfolio portfolio k position
                                    exit_price reason now)) :: post).
Proof.
  induction ps as [|[name pf] rest IH]; intros Hnd (n & p & Hin & Hpos);
    [destruct Hin|].
  simpl in Hnd. simpl close_first.
  destruct (Dict.get (StrategyPortfolio.positions pf) k) as [x|] eqn:Hg.
  - assert (Hhere : In (k, position) (StrategyPortfolio.positions pf)).
    { destruct Hin as [[= <- <-]|Hin]; [exact Hpos|]. exfalso.
      apply get_In, (in_map fst) in Hg. simpl in Hg.
      assert (Hk : In k (ids_of rest)) by (apply In_ids_held; exists position, n, p; auto).
      revert Hnd Hg Hk. clear. unfold Dict.keys.
      generalize (map fst (StrategyPortfolio.positions pf)) as l.
      induction l as [|y l IHl]; simpl; [tauto|].
      intros Hnd [->|Hy] Hk; inversion Hnd as [|? ? Hy' Hnd']; subst.
      - apply Hy', in_or_app. now right.
      - auto. }
    assert (x = position) as ->.
    { apply NoDup_app_remove_r in Hnd.
      rewrite (get_NoDup _ _ _ Hnd Hhere) in Hg. congruence. }
    exists [], name, pf, rest. auto.
  - assert (Hrest : held rest k position).
    { destruct Hin as [[= <- <-]|Hin]; [|now exists n, p].
      apply get_None_keys in Hg. exfalso. apply Hg.
      apply (in_map fst) in Hpos. exact Hpos. }
    destruct (IH (NoDup_app_remove_l _ _ Hnd) Hrest)
      as (pre & name' & pf' & post & -> & Hin' & ->).
    now exists ((name, pf) :: pre), name', pf', post.
Qed.
End CloseBooks.

Section CloseAccounting.
Import PaperTrader.

Lemma pnl_mark_closed position exit_price reason now :
  PaperPosition.pnl (mark_closed position exit_price reason now)
  = IZR (PaperPosition.quantity position)
    * effective_price (PaperPosition.side position) exit_price
    - PaperPosition.entry_cost position.
Proof. reflexivity. Qed.

Lemma open_positions_all portfolio :
  (forall k p, In (k, p) (StrategyPortfolio.positions portfolio) ->
               PaperPosition.status p = OPEN) ->
  StrategyPortfolio.open_positions portfolio
  = Dict.values (StrategyPortfolio.positions portfolio).
Proof.
  intros Hopen. apply filter_all. intros p Hp. unfold Dict.values in Hp.
  apply in_map_iff in Hp. destruct Hp as ([k p'] & <- & Hp). simpl.
  now rewrite (Hopen k p' Hp).
Qed.

(** X3.  Closing a held position: the position returned is the held one marked
    closed; its P&L, exit value minus entry cost, is added to the holding
    portfolio's capital and to the daily counter; the position moves from
    the open map to the end of the closed list; available capital grows by
    the exit value; no other portfolio changes. *)
Theorem close_position_accounting :
  forall self k position exit_price reason now,
    NoDup (open_ids self) ->
    well_filed (portfolios self) ->
    held (portfolios self) k position ->
    exists pre name portfolio post portfolio' closed,
      portfolios self = pre ++ (name, portfolio) :: post
      /\ In (k, position) (StrategyPortfolio.positions portfolio)
      /\ close_position self k exit_price reason now
         = (Some closed,
            mk (risk_config self) (pre ++ (name, portfolio') :: post)
               (_daily_pnl self + PaperPosition.pnl closed) (_daily_start_date self),
            ["Paper trade closed"])
      /\ closed = mark_closed position exit_price reason now
      /\ PaperPosition.pnl closed
         = IZR (PaperPosition.quantity position)
           * effective_price (PaperPosition.side position) exit_price
           - PaperPosition.entry_cost position
      /\ StrategyPortfolio.current_capital portfolio'
         = StrategyPortfolio.current_capital portfolio + PaperPosition.pnl closed
      /\ StrategyPortfolio.initial_capital portfolio'
         = StrategyPortfolio.initial_capital portfolio
      /\ StrategyPortfolio.closed_positions portfolio'
         = StrategyPortfolio.closed_positions portfolio ++ [closed]
      /\ StrategyPortfolio.positions portfolio'
         = Dict.del (StrategyPortfolio.positions portfolio) k
      /\ StrategyPortfolio.available_capital portfolio'
         = StrategyPortfolio.available_capital portfolio
           + IZR (PaperPosition.quantity position)
             * effective_price (PaperPosition.side position) exit_price.
Proof.
  intros self k position exit_price reason now Hnd Hwf Hheld.
  destruct (close_first_split exit_price reason now _ _ _ Hnd Hheld)
    as (pre & name & pf & post & Hps & Hin & Hclose).
  exists pre, name, pf, post,
    (snd (close_in_portfolio pf k position exit_price reason now)),
    (mark_closed position exit_price reason now).
  split; [exact Hps|]. split; [exact Hin|].
  split; [unfold close_position; now rewrite Hclose|].
  split; [reflexivity|]. split; [apply pnl_mark_closed|].
  do 4 (split; [reflexivity|]).
  assert (Hpf : In (name, pf) (portfolios self))
    by (rewrite Hps; apply in_or_app; right; now left).
  assert (Hopen : forall k0 p0, In (k0, p0) (StrategyPortfolio.positions pf) ->
                                PaperPosition.status p0 = OPEN).
  { intros k0 p0 Hp0. apply (Hwf k0 p0). now exists name, pf. }
  assert (Hkeys : NoDup (Dict.keys (StrategyPortfolio.positions pf)))
    by (eapply NoDup_ids_keys; eauto).
  destruct (del_split _ _ _ Hkeys Hin) as (dpre & dpost & Hd & Hdel).
  unfold StrategyPortfolio.available_capital, StrategyPortfolio.total_exposure.
  rewrite (open_positions_all pf Hopen).
  rewrite open_positions_all.
  - simpl. rewrite Hdel, Hd. unfold Dict.values.
    rewrite !map_app, !py_sum_app. simpl. rewrite py_sum_cons, pnl_mark_closed.
    lra.
  - simpl. intros k0 p0 Hp0. apply In_del in Hp0. apply (Hopen k0 p0). tauto.
Qed.

Lemma close_position_accounting_witness :
  exists self' closed,
    close_position holding "p1" (3 / 10) "signal" 1
    = (Some closed, self', ["Paper trade closed"])
    /\ PaperPosition.pnl closed = 25 * (3 / 10) - 5.
Proof.
  destruct (close_position_accounting holding "p1" sample_position (3 / 10) "signal" 1
              NoDup_open_ids_holding well_filed_holding)
    as (pre & name & pf & post & pf' & closed & _ & _ & Hclose & _ & Hpnl & _).
  - exists "Momentum". eexists. split; [now left | now left].
  - eexists. exists closed. split; [exact Hclose | exact Hpnl].
Defined.
End CloseAccounting.

(* ===================================================================== *)
(** * The ledger: the number of open positions stays within the limit *)
(* ===================================================================== *)

Section Exposure.
Import PaperTrader.

Lemma all_open_app ps qs : all_open (ps ++ qs) = all_open ps ++ all_open qs.
Proof. unfold all_open. apply flat_map_app. Qed.

Lemma fold_left_Zadd l a : fold_left Z.add l a = (a + fold_left Z.add l 0)%Z.
Proof.
  revert a. induction l as [|x l IH]; intros a; simpl; [lia|].
  rewrite (IH (a + x)%Z), (IH x). lia.
Qed.

Lemma well_filed_cons name portfolio rest :
  well_filed ((name, portfolio) :: rest) ->
  (forall k p, In (k, p) (StrategyPortfolio.positions portfolio) ->
               PaperPosition.status p = OPEN)
  /\ well_filed rest.
Proof.
  intros Hwf. split.
  - intros k p Hp. apply (Hwf k p). exists name, portfolio. split; [now left | exact Hp].
  - intros k p (n & pf & Hin & Hp). apply Hwf. exists n, pf. split; [now right | exact Hp].
Qed.

(** On well-filed books the exposure that the risk check adds up is the
    summed entry cost of all open positions, and its position count is
    their number. *)
Lemma exposure_all_open_cost self :
  well_filed (portfolios self) -> exposure_all self = open_cost (portfolios self).
Proof.
  unfold exposure_all, open_cost. induction (portfolios self) as [|[name pf] rest IH].
  - reflexivity.
  - intros Hwf. apply well_filed_cons in Hwf. destruct Hwf as [Hopen Hwf].
    simpl. rewrite py_sum_cons, map_app, py_sum_app, IH by exact Hwf.
    unfold StrategyPortfolio.total_exposure. now rewrite open_positions_all.
Qed.

Lemma open_count_length self :
  well_filed (portfolios self) ->
  open_count self = Z.of_nat (List.length (all_open (portfolios self))).
Proof.
  unfold open_count. induction (portfolios self) as [|[name pf] rest IH].
  - reflexivity.
  - intros Hwf. apply well_filed_cons in Hwf. destruct Hwf as [Hopen Hwf].
    simpl. rewrite fold_left_Zadd, IH by exact Hwf.
    rewrite open_positions_all by exact Hopen. rewrite length_app. lia.
Qed.

Lemma In_all_open_held ps p : In p (all_open ps) -> exists k, held ps k p.
Proof.
  unfold all_open. rewrite in_flat_map. intros ([name pf] & Hin & Hp).
  unfold Dict.values in Hp. apply in_map_iff in Hp. destruct Hp as ([k p'] & <- & Hp).
  exists k, name, pf. auto.
Qed.

(** What leaves the open maps lowers the open cost and the count. *)
Lemma open_cost_shrinks ps ps' removed :
  Permutation (all_open ps) (removed ++ all_open ps') ->
  (forall p, In p removed -> 0 < PaperPosition.entry_cost p) ->
  open_cost ps' <= open_cost ps
  /\ (List.length (all_open ps') <= List.length (all_open ps))%nat.
Proof.
  intros Hperm Hpos. unfold open_cost. split.
  - rewrite (py_sum_perm _ _ (Permutation_map PaperPosition.entry_cost Hperm)).
    rewrite map_app, py_sum_app.
    assert (0 <= py_sum (map PaperPosition.entry_cost removed)); [|lra].
    apply py_sum_nonneg. intros x Hx. apply in_map_iff in Hx.
    destruct Hx as (p & <- & Hp). left. now apply Hpos.
  - rewrite (Permutation_length Hperm), length_app. lia.
Qed.

Lemma Permutation_pull {A : Type} (a : A) l1 l2 l3 l4 :
  Permutation (l1 ++ (l2 ++ a :: l3) ++ l4) (a :: l1 ++ (l2 ++ l3) ++ l4).
Proof.
  rewrite <- !app_assoc. simpl. rewrite !(app_assoc l1 l2).
  apply Permutation_sym, Permutation_middle.
Qed.

Lemma all_open_insert ps name portfolio uuid4 position :
  Dict.get ps name = Some portfolio ->
  ~ In uuid4 (Dict.keys (StrategyPortfolio.positions portfolio)) ->
  Permutation
    (all_open (Dict.set ps name
                 (StrategyPortfolio.with_positions portfolio
                    (Dict.set (StrategyPortfolio.positions portfolio) uuid4 position))))
    (position :: all_open ps).
Proof.
  intros Hget Hfresh.
  destruct (set_present_split ps name portfolio
              (StrategyPortfolio.with_positions portfolio
                 (Dict.set (StrategyPortfolio.positions portfolio) uuid4 position)) Hget)
    as (pre & post & -> & ->).
  rewrite !all_open_app. simpl.
  rewrite set_absent_append by now apply get_None_keys.
  unfold Dict.values. rewrite map_app. simpl.
  etransitivity; [apply Permutation_pull|]. now rewrite app_nil_r.
Qed.

Lemma all_open_close ps pre name portfolio post k position portfolio' :
  ps = pre ++ (name, portfolio) :: post ->
  NoDup (Dict.keys (StrategyPortfolio.positions portfolio)) ->
  In (k, position) (StrategyPortfolio.positions portfolio) ->
  StrategyPortfolio.positions portfolio'
  = Dict.del (StrategyPortfolio.positions portfolio) k ->
  Permutation (all_open ps)
              ([position] ++ all_open (pre ++ (name, portfolio') :: post)).
Proof.
  intros -> Hkeys Hin Hdel.
  destruct (del_split _ _ _ Hkeys Hin) as (dpre & dpost & Hd & Hdel').
  rewrite !all_open_app. simpl. rewrite Hdel, Hdel', Hd.
  unfold Dict.values. rewrite !map_app. simpl. apply Permutation_pull.
Qed.

Lemma all_open_initialize ps name portfolio :
  StrategyPortfolio.positions portfolio = [] ->
  exists removed,
    Permutation (all_open ps) (removed ++ all_open (Dict.set ps name portfolio))
    /\ forall p, In p removed -> In p (all_open ps).
Proof.
  intros Hempty. destruct (Dict.get ps name) as [old|] eqn:Hget.
  - destruct (set_present_split ps name old portfolio Hget) as (pre & post & -> & ->).
    exists (Dict.values (StrategyPortfolio.positions old)).
    rewrite !all_open_app. simpl. rewrite Hempty. simpl. split.
    + apply Permutation_app_swap_app.
    + intros p Hp. apply in_or_app. right. apply in_or_app. now left.
  - exists []. rewrite (set_absent_append _ _ _ Hget), all_open_app. simpl.
    rewrite Hempty. simpl. rewrite !app_nil_r. split; [reflexivity | intros p []].
Qed.
End Exposure.

Section BooksInvariant.
Import PaperTrader.

Lemma shrinks_refl self : ledger_ok self -> shrinks self self.
Proof. intros H. split; [exact H|]. split; [reflexivity|]. split; [lra|lia]. Qed.

Lemma shrinks_trans a b c : shrinks a b -> shrinks b c -> shrinks a c.
Proof.
  intros (_ & Hc1 & Ho1 & Hl1) (Hok & Hc2 & Ho2 & Hl2).
  split; [exact Hok|]. split; [congruence|]. split; [lra|lia].
Qed.

Lemma close_position_shrinks self position_id exit_price reason now :
  ledger_ok self ->
  shrinks self (snd (fst (close_position self position_id exit_price reason now))).
Proof.
  intros Hok. pose proof Hok as (Hnd & Hwf & Hpos).
  destruct (in_dec string_dec position_id (open_ids self)) as [Hin|Hout].
  - apply In_ids_held in Hin. destruct Hin as (position & Hheld).
    destruct (close_first_split exit_price reason now _ _ _ Hnd Hheld)
      as (pre & name & pf & post & Hps & Hin & Hclose).
    pose proof (close_position_unique self position_id exit_price reason now Hnd) as Hnd'.
    pose proof (close_position_held_sub self position_id exit_price reason now) as Hsub.
    unfold close_position in *. rewrite Hclose in *. simpl in *.
    assert (Hpf : In (name, pf) (portfolios self))
      by (rewrite Hps; apply in_or_app; right; now left).
    destruct (open_cost_shrinks (portfolios self)
                (pre ++ (name, snd (close_in_portfolio pf position_id position
                                      exit_price reason now)) :: post) [position])
      as [Hcost Hlen].
    + exact (all_open_close (portfolios self) pre name pf post position_id position
               (snd (close_in_portfolio pf position_id position exit_price reason now))
               Hps (NoDup_ids_keys _ _ _ Hnd Hpf) Hin eq_refl).
    + intros p [<-|[]]. eapply Hpos; eauto.
    + split; [|split; [reflexivity|split; assumption]].
      split; [exact Hnd'|]. split.
      * eapply well_filed_sub; eauto.
      * intros k p Hp. apply (Hpos k p). now apply Hsub.
  - rewrite close_position_not_found by exact Hout. simpl. now apply shrinks_refl.
Qed.

Lemma check_exits_loop_shrinks strategy market_data now snapshot :
  forall self closed,
    ledger_ok self ->
    shrinks self
      (snd (fst (check_exits_loop self strategy market_data snapshot now closed))).
Proof.
  induction snapshot as [|position rest IH]; intros self closed Hok; simpl;
    [now apply shrinks_refl|].
  destruct (negb _); [now apply IH|].
  destruct (Strategy.should_exit _ _ _); [|now apply IH].
  pose proof (close_position_shrinks self (PaperPosition.id position)
                (match MarketData.yes_price market_data with
                 | Some p => p | None => 5 / 10 end) "strategy_exit" now Hok) as Hc.
  destruct (close_position _ _ _ _ _) as [[result self1] log1]. simpl in Hc.
  specialize (IH self1
                (match result with Some r => closed ++ [r] | None => closed end)
                (proj1 Hc)).
  destruct (check_exits_loop _ _ _ _ _ _) as [[out self2] log2]. simpl in *.
  eapply shrinks_trans; eauto.
Qed.

Lemma initialize_portfolio_shrinks self name capital :
  ledger_ok self -> shrinks self (fst (initialize_portfolio self name capital)).
Proof.
  intros (Hnd & Hwf & Hpos). simpl.
  assert (Hsub : held_sub
                   (Dict.set (portfolios self) name
                      (StrategyPortfolio.mk name capital capital [] []))
                   (portfolios self)).
  { intros k p (n & pf & Hin & Hp). apply In_set in Hin.
    destruct Hin as [[-> ->]|Hin]; [destruct Hp | now exists n, pf]. }
  destruct (all_open_initialize (portfolios self) name
              (StrategyPortfolio.mk name capital capital [] []) eq_refl)
    as (removed & Hperm & Hrem).
  destruct (open_cost_shrinks _ _ _ Hperm) as [Hcost Hlen].
  { intros p Hp. apply Hrem, In_all_open_held in Hp. destruct Hp as (k & Hk).
    eapply Hpos; eauto. }
  split; [|split; [reflexivity|split; assumption]].
  split; [|split].
  - unfold open_ids. simpl. now apply unique_after_initialize.
  - eapply well_filed_sub; eauto.
  - intros k p Hp. apply (Hpos k p). now apply Hsub.
Qed.

(** The books of every state reached with fresh ids, and the number of
    open positions under a non-negative limit. *)
Lemma reachable_fresh_books self :
  reachable_fresh self ->
  ledger_ok self
  /\ ((0 <= RiskConfig.max_concurrent_positions (risk_config self))%Z ->
      (Z.of_nat (List.length (all_open (portfolios self)))
       <= RiskConfig.max_concurrent_positions (risk_config self))%Z).
Proof.
  assert (Hstep : forall self self',
             shrinks self self' ->
             ((0 <= RiskConfig.max_concurrent_positions (risk_config self))%Z ->
              (Z.of_nat (List.length (all_open (portfolios self)))
               <= RiskConfig.max_concurrent_positions (risk_config self))%Z) ->
             ledger_ok self'
             /\ ((0 <= RiskConfig.max_concurrent_positions (risk_config self'))%Z ->
                 (Z.of_nat (List.length (all_open (portfolios self')))
                  <= RiskConfig.max_concurrent_positions (risk_config self'))%Z)).
  { intros a b (Hok & Hcfg & _ & Hlen) Hn.
    rewrite Hcfg. split; [exact Hok|]. intros H0. specialize (Hn H0). lia. }
  induction 1 as [risk | self name capital _ IH
                 | self signal market_price uuid4 now _ IH Hfresh
                 | self position_id exit_price reason now _ IH
                 | self strategy market_data now _ IH
                 | self now' _ IH].
  - split.
    + split; [constructor|]. split; intros k p (n & pf & [] & _).
    + intros H0. simpl. exact H0.
  - destruct IH as (Hok & Hrest).
    exact (Hstep _ _ (initialize_portfolio_shrinks self name capital Hok) Hrest).
  - destruct IH as (Hok & Hn). pose proof Hok as (Hnd & Hwf & Hpos).
    destruct (execute_signal self signal market_price uuid4 now)
      as [[[position|] self'] log] eqn:Hexec; simpl.
    + pose proof (opened_cost_positive _ _ _ _ _ _ _ _ Hexec) as Hgt.
      apply execute_signal_inv in Hexec.
      destruct Hexec as (portfolio & Hget & Hrisk & _ & _ & Hid & ->).
      apply check_risk_limits_iff in Hrisk.
      destruct Hrisk as (_ & _ & _ & Hcount & _).
      rewrite (open_count_length self Hwf) in Hcount.
      assert (Hkey : ~ In uuid4 (Dict.keys (StrategyPortfolio.positions portfolio))).
      { intros Hk. apply Hfresh, In_ids_held.
        unfold Dict.keys in Hk. apply in_map_iff in Hk.
        destruct Hk as ([k p] & <- & Hp).
        exists p, (Signal.strategy_name signal), portfolio.
        split; [now apply get_In | exact Hp]. }
      pose proof (all_open_insert (portfolios self) _ _ uuid4 position Hget Hkey)
        as Hperm.
      assert (Hheld' : forall k p,
                 held (Dict.set (portfolios self) (Signal.strategy_name signal)
                         (StrategyPortfolio.with_positions portfolio
                            (Dict.set (StrategyPortfolio.positions portfolio)
                               uuid4 position))) k p ->
                 (k = uuid4 /\ p = position) \/ held (portfolios self) k p).
      { intros k p (n & pf & Hin & Hp). apply In_set in Hin.
        destruct Hin as [[-> ->]|Hin].
        - simpl in Hp. apply In_set in Hp. destruct Hp as [[-> ->]|Hp]; [now left|].
          right. exists (Signal.strategy_name signal), portfolio.
          split; [now apply get_In | exact Hp].
        - right. now exists n, pf. }
      split; [split; [|split]|]; simpl.
      * unfold open_ids. simpl. now apply unique_after_insert.
      * intros k p Hp. destruct (Hheld' k p Hp) as [[-> ->]|Hold]; [|now apply Hwf].
        rewrite Hid. simpl. auto.
      * intros k p Hp. destruct (Hheld' k p Hp) as [[-> ->]|Hold]; [exact Hgt|].
        eapply Hpos; eauto.
      * intros _. rewrite (Permutation_length Hperm). simpl List.length. lia.
    + apply execute_signal_rejected in Hexec. subst self'. now split.
  - destruct IH as (Hok & Hrest).
    exact (Hstep _ _ (close_position_shrinks self position_id exit_price reason now Hok)
             Hrest).
  - destruct IH as (Hok & Hrest). unfold check_exits.
    destruct (Dict.get (portfolios self) (Strategy.name strategy)); simpl;
      [|now split].
    exact (Hstep _ _ (check_exits_loop_shrinks strategy market_data now _ self [] Hok)
             Hrest).
  - exact IH.
Qed.

(** X4.  In every state that the ledger reaches with fresh ids, the number
    of open positions that the risk check counts, over all portfolios, is
    at most [max_concurrent_positions], provided that limit is not
    negative. *)
Theorem open_positions_within_limit :
  forall self,
    reachable_fresh self ->
    (0 <= RiskConfig.max_concurrent_positions (risk_config self))%Z ->
    (open_count self <= RiskConfig.max_concurrent_positions (risk_config self))%Z.
Proof.
  intros self Hreach Hmax.
  destruct (reachable_fresh_books self Hreach) as ((_ & Hwf & _) & Hn).
  rewrite (open_count_length self Hwf). auto.
Qed.

Lemma reachable_fresh_holding : reachable_fresh holding.
Proof.
  change holding
    with (snd (fst (Some sample_position, holding, ["Paper trade opened"]))).
  rewrite <- execute_example. apply fresh_execute.
  - unfold one_strategy. apply fresh_initialize, fresh_init.
  - simpl. tauto.
Qed.

Lemma open_positions_within_limit_witness : (open_count holding <= 10)%Z.
Proof.
  apply (open_positions_within_limit holding reachable_fresh_holding).
  simpl. lia.
Defined.
End BooksInvariant.

(* ===================================================================== *)
(** * The ledger: realized P&L and the cash baseline *)
(* ===================================================================== *)

Section Balance.
Import PaperTrader.

Lemma close_first_In ps k exit_price reason now :
  forall position' ps',
    close_first ps k exit_price reason now = Some (position', ps') ->
    forall n pf',
      In (n, pf') ps' ->
      In (n, pf') ps
      \/ exists pf position,
           In (n, pf) ps
           /\ Dict.get (StrategyPortfolio.positions pf) k = Some position
           /\ pf' = snd (close_in_portfolio pf k position exit_price reason now).
Proof.
  induction ps as [|[name pf] rest IH]; intros position' ps' Hclose n pf' Hin;
    simpl in Hclose; [discriminate|].
  destruct (Dict.get (StrategyPortfolio.positions pf) k) as [x|] eqn:Hget.
  - injection Hclose as <- <-. destruct Hin as [[= <- <-]|Hin].
    + right. exists pf, x. split; [now left|]. split; [exact Hget | reflexivity].
    + left. now right.
  - destruct (close_first rest k exit_price reason now) as [[p'' rest']|] eqn:Hrest;
      [|discriminate].
    injection Hclose as <- <-. destruct Hin as [[= <- <-]|Hin]; [left; now left|].
    destruct (IH _ _ eq_refl n pf' Hin) as [Hold|(pf0 & x & Hold & Hx & ->)].
    + left. now right.
    + right. exists pf0, x. split; [now right|]. split; [exact Hx | reflexivity].
Qed.

Lemma balanced_close portfolio k position exit_price reason now :
  balanced portfolio ->
  balanced (snd (close_in_portfolio portfolio k position exit_price reason now)).
Proof.
  intros [Hcap Hall]. split; simpl.
  - unfold StrategyPortfolio.total_pnl in *. simpl.
    rewrite map_app, py_sum_app. simpl. unfold py_sum at 2. simpl. lra.
  - apply Forall_app. split; [exact Hall|]. constructor; [reflexivity|constructor].
Qed.

Lemma close_position_balanced self position_id exit_price reason now :
  all_balanced (portfolios self) ->
  all_balanced
    (portfolios (snd (fst (close_position self position_id exit_price reason now)))).
Proof.
  intros Hbal. unfold close_position.
  destruct (close_first _ _ _ _ _) as [[position' ps']|] eqn:Hclose; simpl;
    [|exact Hbal].
  intros n pf' Hin.
  destruct (close_first_In _ _ _ _ _ _ _ Hclose n pf' Hin)
    as [Hold|(pf & x & Hold & _ & ->)].
  - eapply Hbal; eauto.
  - apply balanced_close. eapply Hbal; eauto.
Qed.

Lemma check_exits_loop_balanced strategy market_data now snapshot :
  forall self closed,
    all_balanced (portfolios self) ->
    all_balanced
      (portfolios
         (snd (fst (check_exits_loop self strategy market_data snapshot now closed)))).
Proof.
  induction snapshot as [|position rest IH]; intros self closed Hbal; simpl;
    [exact Hbal|].
  destruct (negb _); [now apply IH|].
  destruct (Strategy.should_exit _ _ _); [|now apply IH].
  pose proof (close_position_balanced self (PaperPosition.id position)
                (match MarketData.yes_price market_data with
                 | Some p => p | None => 5 / 10 end) "strategy_exit" now Hbal) as Hc.
  destruct (close_position _ _ _ _ _) as [[result self1] log1]. simpl in Hc.
  specialize (IH self1
                (match result with Some r => closed ++ [r] | None => closed end) Hc).
  destruct (check_exits_loop _ _ _ _ _ _) as [[out self2] log2]. exact IH.
Qed.

Lemma reachable_balanced self : reachable self -> all_balanced (portfolios self).
Proof.
  induction 1 as [risk | self name capital _ IH
                 | self signal market_price uuid4 now _ IH
                 | self position_id exit_price reason now _ IH
                 | self strategy market_data now _ IH
                 | self now' _ IH].
  - intros n pf [].
  - intros n pf Hin. simpl in Hin. apply In_set in Hin.
    destruct Hin as [[-> ->]|Hin]; [|eapply IH; eauto].
    split; simpl; [|constructor].
    unfold StrategyPortfolio.total_pnl, py_sum. simpl. lra.
  - destruct (execute_signal self signal market_price uuid4 now)
      as [[[position|] self'] log] eqn:Hexec; simpl.
    + apply execute_signal_inv in Hexec.
      destruct Hexec as (portfolio & Hget & _ & _ & _ & _ & ->). simpl.
      intros n pf Hin. apply In_set in Hin.
      destruct Hin as [[-> ->]|Hin]; [|eapply IH; eauto].
      apply get_In in Hget. exact (IH _ _ Hget).
    + apply execute_signal_rejected in Hexec. now subst self'.
  - now apply close_position_balanced.
  - unfold check_exits.
    destruct (Dict.get (portfolios self) (Strategy.name strategy)); simpl;
      [|exact IH].
    now apply check_exits_loop_balanced.
  - exact IH.
Qed.
End Balance.

(* ===================================================================== *)
(** * The ledger: what check_exits closes, exactly *)
(* ===================================================================== *)

Section CheckExitsExact.
Import PaperTrader.

Lemma NoDup_app_disjoint {A : Type} (l1 l2 : list A) a :
  NoDup (l1 ++ l2) -> In a l1 -> In a l2 -> False.
Proof.
  induction l1 as [|y l IH]; simpl; [tauto|].
  intros Hnd [->|Hy] Ha; inversion Hnd as [|? ? Hy' Hnd']; subst.
  - apply Hy', in_or_app. now right.
  - auto.
Qed.

(** With unique ids, a key is held with one position only. *)
Lemma held_functional ps k p q :
  NoDup (ids_of ps) -> held ps k p -> held ps k q -> p = q.
Proof.
  induction ps as [|[name pf] rest IH];
    intros Hnd (n1 & f1 & Hin1 & Hp) (n2 & f2 & Hin2 & Hq); [destruct Hin1|].
  simpl in Hnd.
  assert (Hcross : forall v w f n,
             In (k, v) (StrategyPortfolio.positions pf) ->
             In (n, f) rest -> In (k, w) (StrategyPortfolio.positions f) -> False).
  { intros v w f n Hv Hf Hw. apply (NoDup_app_disjoint _ _ k Hnd).
    - apply (in_map fst) in Hv. exact Hv.
    - apply In_ids_held. now exists w, n, f. }
  destruct Hin1 as [[= <- <-]|Hin1], Hin2 as [[= <- <-]|Hin2].
  - apply NoDup_app_remove_r in Hnd.
    pose proof (get_NoDup _ _ _ Hnd Hp) as E1.
    pose proof (get_NoDup _ _ _ Hnd Hq) as E2. congruence.
  - exfalso. eapply Hcross; eauto.
  - exfalso. eapply Hcross; eauto.
  - apply IH; [now apply NoDup_app_remove_l in Hnd | now exists n1, f1 | now exists n2, f2].
Qed.

Variables (strategy : Strategy.t) (market_data : MarketData.t) (now : datetime).

Lemma check_exits_loop_exact snapshot :
  forall self closed,
    NoDup (open_ids self) ->
    NoDup (map PaperPosition.id snapshot) ->
    (forall p, In p snapshot -> held (portfolios self) (PaperPosition.id p) p) ->
    let closing := filter (wants_exit_b strategy market_data) snapshot in
    let newly :=
      map (fun p => mark_closed p (exit_yes_price market_data) "strategy_exit" now)
          closing in
    let r := check_exits_loop self strategy market_data snapshot now closed in
    fst (fst r) = closed ++ newly
    /\ _daily_pnl (snd (fst r))
       = _daily_pnl self + py_sum (map PaperPosition.pnl newly)
    /\ risk_config (snd (fst r)) = risk_config self
    /\ (forall k p,
          held (portfolios self) k p ->
          (forall a, In a closing -> PaperPosition.id a <> k) ->
          held (portfolios (snd (fst r))) k p)
    /\ (forall a, In a closing ->
          ~ In (PaperPosition.id a) (open_ids (snd (fst r)))).
Proof.
  induction snapshot as [|a rest IH]; intros self closed Hnd Hids Hheld.
  - simpl. rewrite app_nil_r. unfold py_sum. simpl.
    split; [reflexivity|]. split; [lra|]. split; [reflexivity|].
    split; [auto | intros a []].
  - inversion Hids as [|? ? Ha Hids']; subst.
    assert (Hrest : forall p, In p rest -> held (portfolios self) (PaperPosition.id p) p)
      by (intros p Hp; apply Hheld; now right).
    cbv zeta. simpl check_exits_loop. simpl filter. fold (pos_dict_of a).
    destruct (match MarketData.market_id market_data with
              | Some m => String.eqb (PaperPosition.ticker a) m
              | None => false
              end) eqn:Hticker; simpl negb; cbv iota.
    2:{ assert (Hw : wants_exit_b strategy market_data a = false)
          by (unfold wants_exit_b; now rewrite Hticker).
        rewrite Hw. exact (IH self closed Hnd Hids' Hrest). }
    destruct (Strategy.should_exit strategy (pos_dict_of a) market_data) eqn:Hexit.
    2:{ assert (Hw : wants_exit_b strategy market_data a = false)
          by (unfold wants_exit_b; now rewrite Hticker, Hexit).
        rewrite Hw. exact (IH self closed Hnd Hids' Hrest). }
    assert (Hw : wants_exit_b strategy market_data a = true)
      by (unfold wants_exit_b; now rewrite Hticker, Hexit).
    rewrite Hw. fold (exit_yes_price market_data).
    destruct (close_first_held (portfolios self) (PaperPosition.id a) a
                (exit_yes_price market_data) "strategy_exit" now Hnd
                (Hheld a (or_introl eq_refl)))
      as (ps1 & Hclose & Hkeep & _).
    assert (Hids1 : ids_of ps1
                    = List.remove string_dec (PaperPosition.id a) (open_ids self))
      by (eapply close_first_ids; eauto).
    unfold close_position. rewrite Hclose.
    set (closed_a := mark_closed a (exit_yes_price market_data) "strategy_exit" now).
    set (self1 := mk (risk_config self) ps1
                    (_daily_pnl self + PaperPosition.pnl closed_a)
                    (_daily_start_date self)).
    assert (Hnd1 : NoDup (open_ids self1)).
    { unfold open_ids. simpl. rewrite Hids1. now apply NoDup_remove_string. }
    assert (Hheld1 : forall p, In p rest ->
                       held (portfolios self1) (PaperPosition.id p) p).
    { intros p Hp. simpl. apply Hkeep; [|now apply Hrest].
      intros E. apply Ha. rewrite <- E. now apply in_map. }
    pose proof (check_exits_loop_held_sub strategy market_data now rest self1
                  (closed ++ [closed_a])) as Hsub.
    destruct (IH self1 (closed ++ [closed_a]) Hnd1 Hids' Hheld1)
      as (Hout & Hpnl & Hrisk & Hstay & Hgone).
    destruct (check_exits_loop self1 strategy market_data rest now
                (closed ++ [closed_a])) as [[out2 self2] log2].
    unfold self1 in Hpnl. cbn [fst snd _daily_pnl] in Hpnl.
    simpl in Hout, Hrisk, Hstay, Hgone, Hsub.
    cbn [fst snd map In].
    split; [now rewrite Hout, <- app_assoc|].
    split; [rewrite Hpnl, py_sum_cons; fold closed_a; lra|].
    split; [exact Hrisk|]. split.
    + intros k p Hp Hne. apply Hstay.
      * apply Hkeep; [|exact Hp]. intros E. apply (Hne a); auto.
      * intros b Hb. apply Hne. now right.
    + intros b [<-|Hb]; [|now apply Hgone].
      intros Hin. apply In_ids_held in Hin. destruct Hin as (q & Hq).
      apply Hsub in Hq.
      assert (Hin1 : In (PaperPosition.id a) (ids_of ps1))
        by (apply In_ids_held; now exists q).
      rewrite Hids1 in Hin1. now apply remove_In in Hin1.
Qed.

Lemma open_positions_filed self name portfolio :
  NoDup (open_ids self) -> well_filed (portfolios self) ->
  In (name, portfolio) (portfolios self) ->
  NoDup (map PaperPosition.id (StrategyPortfolio.open_positions portfolio))
  /\ forall p, In p (StrategyPortfolio.open_positions portfolio) ->
       held (portfolios self) (PaperPosition.id p) p.
Proof.
  intros Hnd Hwf Hget.
  assert (Hfiled : forall k p, In (k, p) (StrategyPortfolio.positions portfolio) ->
                               PaperPosition.id p = k /\ PaperPosition.status p = OPEN).
  { intros k p Hp. apply Hwf. now exists name, portfolio. }
  split.
  - pose proof (NoDup_ids_keys _ _ _ Hnd Hget) as Hkeys.
    unfold StrategyPortfolio.open_positions, Dict.values, Dict.keys in *.
    revert Hkeys Hfiled. clear.
    induction (StrategyPortfolio.positions portfolio) as [|[k p] d IHd]; simpl;
      [constructor|].
    intros Hkeys Hfiled. inversion Hkeys as [|? ? Hk Hkeys']; subst.
    assert (Hd : forall k0 p0, In (k0, p0) d ->
                   PaperPosition.id p0 = k0 /\ PaperPosition.status p0 = OPEN)
      by (intros; apply Hfiled; now right).
    destruct (PositionStatus_eqb (PaperPosition.status p) OPEN); [|auto].
    simpl. constructor; [|auto].
    intros Hin. apply in_map_iff in Hin. destruct Hin as (q & Hq & Hin).
    apply filter_In in Hin. destruct Hin as [Hin _].
    apply in_map_iff in Hin. destruct Hin as ([k' q'] & <- & Hin). simpl in Hq.
    apply Hk. rewrite <- (proj1 (Hfiled k p (or_introl eq_refl))), <- Hq.
    rewrite (proj1 (Hd k' q' Hin)). apply (in_map fst) in Hin. exact Hin.
  - intros p Hp. apply filter_In in Hp. destruct Hp as [Hp _].
    unfold Dict.values in Hp. apply in_map_iff in Hp.
    destruct Hp as ([k p'] & <- & Hp). simpl.
    rewrite (proj1 (Hfiled k p' Hp)). now exists name, portfolio.
Qed.

(** X6.  With unique ids and well-filed open maps, [check_exits] closes
    exactly the open positions of the strategy's portfolio that are on
    the snapshot's market and that [should_exit] accepts: it returns them
    in the order of the open map, each closed at the snapshot's yes-price
    (0.5 without one); the daily P&L grows by the sum of their P&L; every
    other held position of every portfolio stays held, and nothing else
    is held afterwards. *)
Theorem check_exits_closes_exactly :
  forall self portfolio,
    NoDup (open_ids self) ->
    well_filed (portfolios self) ->
    get_portfolio self (Strategy.name strategy) = Some portfolio ->
    let closing :=
      filter (wants_exit_b strategy market_data)
             (StrategyPortfolio.open_positions portfolio) in
    let r := check_exits self strategy market_data now in
    fst (fst r)
    = map (fun p => mark_closed p (exit_yes_price market_data) "strategy_exit" now)
          closing
    /\ _daily_pnl (snd (fst r))
       = _daily_pnl self + py_sum (map PaperPosition.pnl (fst (fst r)))
    /\ risk_config (snd (fst r)) = risk_config self
    /\ forall k p,
         held (portfolios (snd (fst r))) k p
         <-> held (portfolios self) k p /\ ~ In p closing.
Proof.
  intros self portfolio Hnd Hwf Hget closing r.
  unfold get_portfolio in Hget. subst r. unfold check_exits. rewrite Hget.
  apply get_In in Hget.
  destruct (open_positions_filed self _ _ Hnd Hwf Hget) as [Hsnap Hheld].
  destruct (check_exits_loop_exact _ self [] Hnd Hsnap Hheld)
    as (Hout & Hpnl & Hrisk & Hstay & Hgone).
  pose proof (check_exits_loop_held_sub strategy market_data now
                (StrategyPortfolio.open_positions portfolio) self []) as Hsub.
  fold closing in Hout, Hpnl, Hstay, Hgone.
  simpl in Hout. rewrite Hout.
  split; [reflexivity|]. split; [exact Hpnl|]. split; [exact Hrisk|].
  intros k p. split.
  - intros Hp. split; [now apply Hsub|]. intros Hc.
    apply (Hgone p Hc). apply In_ids_held. exists p.
    assert (Hwf' : well_filed
                     (portfolios
                        (snd (fst (check_exits_loop self strategy market_data
                                     (StrategyPortfolio.open_positions portfolio)
                                     now [])))))
      by (eapply well_filed_sub; eauto).
    now rewrite (proj1 (Hwf' k p Hp)).
  - intros [Hp Hc]. apply Hstay; [exact Hp|].
    intros a Ha E. apply Hc.
    assert (Ha' : held (portfolios self) k a).
    { rewrite <- E. apply Hheld. unfold closing in Ha. apply filter_In in Ha. tauto. }
    now rewrite (held_functional _ _ _ _ Hnd Hp Ha').
Qed.


End CheckExitsExact.

Lemma check_exits_closes_exactly_witness :
  fst (fst (PaperTrader.check_exits holding always_exit priced_snapshot 7))
  = [PaperTrader.mark_closed sample_position (6 / 10) "strategy_exit" 7].
Proof.
  destruct (check_exits_closes_exactly always_exit priced_snapshot 7 holding _
              NoDup_open_ids_holding well_filed_holding eq_refl) as (Hout & _).
  exact Hout.
Defined.

Section CheckExitsIdle.
Import PaperTrader.
Variables (strategy : Strategy.t) (market_data : MarketData.t) (now : datetime).

Lemma check_exits_loop_idle snapshot :
  forall self closed,
    (forall p, In p snapshot -> wants_exit_b strategy market_data p = false) ->
    check_exits_loop self strategy market_data snapshot now closed = (closed, self, []).
Proof.
  induction snapshot as [|a rest IH]; intros self closed Hidle; [reflexivity|].
  pose proof (Hidle a (or_introl eq_refl)) as Ha. unfold wants_exit_b in Ha.
  simpl. fold (pos_dict_of a).
  destruct (match MarketData.market_id market_data with
            | Some m => String.eqb (PaperPosition.ticker a) m
            | None => false
            end); simpl in Ha |- *.
  - rewrite Ha. apply IH. intros p Hp. apply Hidle. now right.
  - apply IH. intros p Hp. apply Hidle. now right.
Qed.

(** X7.  [check_exits] returns no position, leaves the trader as it is and
    logs nothing when no open position of the strategy's portfolio is both
    on the snapshot's market and accepted by [should_exit]; this covers a
    strategy without portfolio and a snapshot without "market_id". *)
Theorem check_exits_idle :
  forall self,
    (forall portfolio position,
        get_portfolio self (Strategy.name strategy) = Some portfolio ->
        In position (StrategyPortfolio.open_positions portfolio) ->
        wants_exit_b strategy market_data position = false) ->
    check_exits self strategy market_data now = ([], self, []).
Proof.
  intros self Hidle. unfold check_exits, get_portfolio in *.
  destruct (Dict.get (portfolios self) (Strategy.name strategy)) as [portfolio|];
    [|reflexivity].
  apply check_exits_loop_idle. intros p Hp. now apply (Hidle portfolio).
Qed.
End CheckExitsIdle.

Lemma check_exits_idle_witness :
  PaperTrader.check_exits holding always_exit other_snapshot 7 = ([], holding, []).
Proof.
  apply (check_exits_idle always_exit other_snapshot 7 holding).
  intros portfolio position [= <-] [<-|[]]. reflexivity.
Defined.

(* ===================================================================== *)
(** * The ledger: what an accepted signal does to its portfolio *)
(* ===================================================================== *)

Section ExecuteDebit.
Import PaperTrader.

Lemma get_set_same {V : Type} (d : Dict.t V) k v : Dict.get (Dict.set d k v) k = Some v.
Proof.
  induction d as [|[k0 v0] d IH]; simpl.
  - now rewrite String.eqb_refl.
  - destruct (String.eqb_spec k k0) as [<-|Hne]; simpl.
    + now rewrite String.eqb_refl.
    + destruct (String.eqb_spec k k0); [contradiction | exact IH].
Qed.

(** An accepted signal under a key that the portfolio does not hold yet
    puts the new position at the end of the open positions of the signal's
    portfolio. *)
Lemma execute_signal_appends self signal market_price uuid4 now position self' log
    portfolio :
  get_portfolio self (Signal.strategy_name signal) = Some portfolio ->
  ~ In uuid4 (Dict.keys (StrategyPortfolio.positions portfolio)) ->
  execute_signal self signal market_price uuid4 now = (Some position, self', log) ->
  get_portfolio self' (Signal.strategy_name signal)
  = Some (StrategyPortfolio.with_positions portfolio
            (Dict.set (StrategyPortfolio.positions portfolio) uuid4 position))
  /\ StrategyPortfolio.open_positions
       (StrategyPortfolio.with_positions portfolio
          (Dict.set (StrategyPortfolio.positions portfolio) uuid4 position))
     = StrategyPortfolio.open_positions portfolio ++ [position].
Proof.
  intros Hget Hfresh Hexec.
  apply execute_signal_inv in Hexec.
  destruct Hexec as (portfolio0 & Hget0 & _ & _ & _ & Hid & ->).
  unfold get_portfolio in *. rewrite Hget in Hget0. injection Hget0 as <-.
  split; [apply get_set_same|].
  unfold StrategyPortfolio.open_positions. simpl.
  rewrite set_absent_append by now apply get_None_keys.
  unfold Dict.values. rewrite map_app, filter_app. simpl.
  rewrite Hid at 1. reflexivity.
Qed.

(** X8.  An accepted signal with an id that the portfolio does not hold yet
    appends the new position to the open positions of the signal's
    portfolio; total exposure grows and available capital falls by the
    entry cost, and the cash baseline and the closed list are kept. *)
Theorem execute_signal_debits :
  forall self signal market_price uuid4 now position self' log portfolio,
    get_portfolio self (Signal.strategy_name signal) = Some portfolio ->
    ~ In uuid4 (Dict.keys (StrategyPortfolio.positions portfolio)) ->
    execute_signal self signal market_price uuid4 now = (Some position, self', log) ->
    exists portfolio',
      get_portfolio self' (Signal.strategy_name signal) = Some portfolio'
      /\ StrategyPortfolio.open_positions portfolio'
         = StrategyPortfolio.open_positions portfolio ++ [position]
      /\ StrategyPortfolio.total_exposure portfolio'
         = StrategyPortfolio.total_exposure portfolio
           + PaperPosition.entry_cost position
      /\ StrategyPortfolio.available_capital portfolio'
         = StrategyPortfolio.available_capital portfolio
           - PaperPosition.entry_cost position
      /\ StrategyPortfolio.current_capital portfolio'
         = StrategyPortfolio.current_capital portfolio
      /\ StrategyPortfolio.closed_positions portfolio'
         = StrategyPortfolio.closed_positions portfolio.
Proof.
  intros self signal market_price uuid4 now position self' log portfolio
    Hget Hfresh Hexec.
  destruct (execute_signal_appends _ _ _ _ _ _ _ _ _ Hget Hfresh Hexec)
    as [Hget' Hopen].
  apply execute_signal_inv in Hexec.
  destruct Hexec as (portfolio0 & Hget0 & _).
  unfold get_portfolio in Hget. rewrite Hget in Hget0. injection Hget0 as <-.
  eexists. split; [exact Hget'|].
  assert (Hexp : StrategyPortfolio.total_exposure
                   (StrategyPortfolio.with_positions portfolio
                      (Dict.set (StrategyPortfolio.positions portfolio) uuid4 position))
                 = StrategyPortfolio.total_exposure portfolio
                   + PaperPosition.entry_cost position).
  { unfold StrategyPortfolio.total_exposure. rewrite Hopen, map_app, py_sum_app.
    simpl. rewrite py_sum_cons. unfold py_sum. simpl. lra. }
  split; [exact Hopen|]. split; [exact Hexp|].
  unfold StrategyPortfolio.available_capital in *. rewrite Hexp. simpl.
  repeat split; lra.
Qed.

Lemma execute_signal_debits_witness :
  exists portfolio',
    get_portfolio holding "Momentum" = Some portfolio'
    /\ StrategyPortfolio.available_capital portfolio' = (50 - py_sum []) - 5.
Proof.
  destruct (execute_signal_debits (one_strategy 50) (buy "yes" 5) (1 / 5) "p1" 0
              sample_position holding ["Paper trade opened"]
              (StrategyPortfolio.mk "Momentum" 50 50 [] []) eq_refl)
    as (portfolio' & Hget & _ & _ & Havail & _).
  - simpl. tauto.
  - exact execute_example.
  - exists portfolio'. split; [exact Hget | exact Havail].
Defined.
End ExecuteDebit.

(* ===================================================================== *)
(** * The metrics engine: when calculate_metrics raises *)
(* ===================================================================== *)

Section MetricsRaise.
Import PerformanceTracker.

Lemma calculate_metrics_without_trades self portfolio now :
  StrategyPortfolio.closed_positions portfolio = [] ->
  calculate_metrics self portfolio now
  = Some (StrategyMetrics.fresh (StrategyPortfolio.strategy_name portfolio)
            (StrategyPortfolio.current_capital portfolio) now, self).
Proof. intros Htrades. unfold calculate_metrics. now rewrite Htrades. Qed.

Lemma calculate_metrics_zero_capital self portfolio now :
  StrategyPortfolio.closed_positions portfolio <> [] ->
  StrategyPortfolio.initial_capital portfolio = 0 ->
  calculate_metrics self portfolio now = None.
Proof.
  intros Htrades Hz. unfold calculate_metrics, py_div.
  destruct (StrategyPortfolio.closed_positions portfolio); [congruence|].
  rewrite Hz. now rewrite (proj2 (Reqb_true_iff 0 0) eq_refl).
Qed.

Lemma calculate_metrics_empty_history self portfolio now :
  StrategyPortfolio.closed_positions portfolio <> [] ->
  Dict.get (_capital_history self) (StrategyPortfolio.strategy_name portfolio)
  = Some [] ->
  calculate_metrics self portfolio now = None.
Proof.
  intros Htrades Hhist.
  destruct (Req_dec (StrategyPortfolio.initial_capital portfolio) 0) as [Hz|Hnz];
    [now apply calculate_metrics_zero_capital|].
  unfold calculate_metrics, py_div.
  destruct (StrategyPortfolio.closed_positions portfolio) as [|t ts]; [congruence|].
  rewrite Hhist, (proj2 (Reqb_false_iff _ _) Hnz).
  destruct (sharpe_total (t :: ts) _ Hnz) as (sh & ->).
  destruct (sortino_total (t :: ts) _ Hnz) as (so & ->). reflexivity.
Qed.

(** X9.  [calculate_metrics] raises exactly when the portfolio has a closed
    trade and either its [initial_capital] is zero (the division of the
    total return) or the strategy's recorded capital history is the empty
    list (the [max] of the peak capital). *)
Theorem calculate_metrics_raises_iff :
  forall self portfolio now,
    calculate_metrics self portfolio now = None
    <-> StrategyPortfolio.closed_positions portfolio <> []
        /\ (StrategyPortfolio.initial_capital portfolio = 0
            \/ Dict.get (_capital_history self)
                 (StrategyPortfolio.strategy_name portfolio) = Some []).
Proof.
  intros self portfolio now. split.
  - intros Hnone.
    destruct (StrategyPortfolio.closed_positions portfolio) as [|t ts] eqn:Htrades.
    { rewrite (calculate_metrics_without_trades _ _ _ Htrades) in Hnone.
      discriminate. }
    split; [discriminate|].
    destruct (Req_dec (StrategyPortfolio.initial_capital portfolio) 0) as [Hz|Hnz];
      [now left | right].
    destruct (Dict.get (_capital_history self)
                (StrategyPortfolio.strategy_name portfolio)) as [[|h hs]|] eqn:Hhist;
      [reflexivity | exfalso | exfalso];
      (destruct (calculate_metrics_nonempty self portfolio now)
         as (m & self' & Hsome & _);
       [ rewrite Htrades; discriminate
       | exact Hnz
       | unfold history_ok; rewrite Hhist; discriminate
       | rewrite Hsome in Hnone; discriminate ]).
  - intros [Htrades [Hz|Hhist]].
    + now apply calculate_metrics_zero_capital.
    + now apply calculate_metrics_empty_history.
Qed.

Lemma get_set_other {V : Type} (d : Dict.t V) k k' v :
  k' <> k -> Dict.get (Dict.set d k v) k' = Dict.get d k'.
Proof.
  intros Hne. induction d as [|[k0 v0] d IH]; simpl.
  - destruct (String.eqb_spec k' k); [contradiction | reflexivity].
  - destruct (String.eqb_spec k k0) as [<-|Hk]; simpl.
    + destruct (String.eqb_spec k' k); [contradiction | reflexivity].
    + destruct (String.eqb_spec k' k0); [reflexivity | exact IH].
Qed.

Lemma calculate_metrics_history self portfolio now m self' :
  calculate_metrics self portfolio now = Some (m, self') ->
  _capital_history self' = _capital_history self.
Proof.
  unfold calculate_metrics.
  destruct (StrategyPortfolio.closed_positions portfolio); [now intros [= _ <-]|].
  destruct (py_div _ _); [|discriminate].
  destruct (_calculate_sharpe _ _ _); [|discriminate].
  destruct (_calculate_sortino _ _ _); [|discriminate].
  destruct (py_max_list _); [|discriminate].
  now intros [= _ <-].
Qed.

(** No tracker that snapshots and metric calculations produce holds an
    empty capital history. *)
Lemma tracker_reachable_history self :
  tracker_reachable self -> forall name, history_ok self name.
Proof.
  unfold history_ok.
  induction 1 as [config | self strategy_name capital _ IH
                 | self portfolio now m self' _ IH Hcalc]; intros name.
  - discriminate.
  - simpl. destruct (string_dec name strategy_name) as [->|Hne].
    + rewrite get_set_same. intros [= E]. now destruct (app_eq_nil _ _ E).
    + rewrite get_set_other by exact Hne. apply IH.
  - rewrite (calculate_metrics_history _ _ _ _ _ Hcalc). apply IH.
Qed.

(** X10.  On a tracker that snapshots and metric calculations produce,
    [calculate_metrics] returns for every portfolio without closed trades
    and for every portfolio whose [initial_capital] is not zero, and it
    raises for the others. *)
Theorem calculate_metrics_returns_iff :
  forall self portfolio now,
    tracker_reachable self ->
    (exists metrics self', calculate_metrics self portfolio now = Some (metrics, self'))
    <-> StrategyPortfolio.closed_positions portfolio = []
        \/ StrategyPortfolio.initial_capital portfolio <> 0.
Proof.
  intros self portfolio now Hreach.
  pose proof (tracker_reachable_history self Hreach
                (StrategyPortfolio.strategy_name portfolio)) as Hhist.
  split.
  - intros (m & self' & Hcalc).
    destruct (StrategyPortfolio.closed_positions portfolio) as [|t ts] eqn:Htrades;
      [now left|].
    right. intros Hz.
    rewrite calculate_metrics_zero_capital in Hcalc;
      [discriminate | rewrite Htrades; discriminate | exact Hz].
  - intros [Hempty|Hnz].
    + rewrite (calculate_metrics_without_trades _ _ _ Hempty). eauto.
    + destruct (StrategyPortfolio.closed_positions portfolio) as [|t ts] eqn:Htrades.
      * rewrite (calculate_metrics_without_trades _ _ _ Htrades). eauto.
      * destruct (calculate_metrics_nonempty self portfolio now)
          as (m & self' & Hsome & _);
          [rewrite Htrades; discriminate | exact Hnz | exact Hhist | eauto].
Qed.

Lemma calculate_metrics_returns_iff_witness :
  (exists metrics self',
      calculate_metrics
        (record_capital_snapshot (__init__ PerformanceConfig.default) "Momentum" 100)
        (with_history four_wins) 0 = Some (metrics, self'))
  <-> StrategyPortfolio.closed_positions (with_history four_wins) = []
      \/ StrategyPortfolio.initial_capital (with_history four_wins) <> 0.
Proof.
  apply (calculate_metrics_returns_iff
           (record_capital_snapshot (__init__ PerformanceConfig.default) "Momentum" 100)
           (with_history four_wins) 0).
  apply tracker_snapshot, tracker_init.
Defined.
End MetricsRaise.

(* ===================================================================== *)
(** * sorted(..., key=...): order, content and stability *)
(* ===================================================================== *)

Section Sorting.
Context {A : Type} (key : A -> R).

Lemma insert_by_key_perm x l : Permutation (insert_by_key key x l) (x :: l).
Proof.
  induction l as [|y l IH]; simpl; [reflexivity|].
  destruct (key y <? key x); [|reflexivity].
  rewrite IH. apply perm_swap.
Qed.

Lemma sorted_by_key_perm xs : Permutation (sorted_by_key key xs) xs.
Proof.
  induction xs as [|x xs IH]; simpl; [reflexivity|].
  rewrite insert_by_key_perm. now constructor.
Qed.

Lemma insert_by_key_sorted x l :
  StronglySorted (fun a b => key a <= key b) l ->
  StronglySorted (fun a b => key a <= key b) (insert_by_key key x l).
Proof.
  induction 1 as [|y l Hs IH Hall]; simpl; [repeat constructor|].
  float_case (key y <? key x).
  - constructor; [exact IH|].
    apply (Permutation_Forall (Permutation_sym (insert_by_key_perm x l))).
    constructor; [lra | exact Hall].
  - constructor; [now constructor|].
    constructor; [exact Hc|].
    eapply Forall_impl; [|exact Hall]. simpl. intros a Ha. lra.
Qed.

Lemma sorted_by_key_sorted xs :
  StronglySorted (fun a b => key a <= key b) (sorted_by_key key xs).
Proof.
  induction xs as [|x xs IH]; simpl; [constructor|].
  now apply insert_by_key_sorted.
Qed.

(** Stability: the elements of one key keep their order. *)
Lemma insert_by_key_stable k x l :
  filter (fun a => key a =? k) (insert_by_key key x l)
  = filter (fun a => key a =? k) (x :: l).
Proof.
  induction l as [|y l IH]; [reflexivity|].
  simpl insert_by_key. float_case (key y <? key x); [|reflexivity].
  simpl filter in *. rewrite IH.
  float_case (key y =? k); [|reflexivity].
  float_case (key x =? k); [lra | reflexivity].
Qed.

Lemma sorted_by_key_stable k xs :
  filter (fun a => key a =? k) (sorted_by_key key xs)
  = filter (fun a => key a =? k) xs.
Proof.
  induction xs as [|x xs IH]; [reflexivity|].
  simpl sorted_by_key. rewrite insert_by_key_stable. simpl. now rewrite IH.
Qed.
End Sorting.

Lemma StronglySorted_weaken {A : Type} (P Q : A -> A -> Prop) l :
  (forall a b, P a b -> Q a b) -> StronglySorted P l -> StronglySorted Q l.
Proof.
  intros Hpq. induction 1 as [|a l _ IH Hall]; constructor; [exact IH|].
  eapply Forall_impl; [|exact Hall]. apply Hpq.
Qed.

(* ===================================================================== *)
(** * The metrics engine: the maximum drawdown *)
(* ===================================================================== *)

Section Drawdown.
Import PerformanceTracker.

Lemma max_drawdown_history self name portfolio :
  _calculate_max_drawdown self name portfolio
  = match drawdown_history self name portfolio with
    | [] | [_] => 0
    | h0 :: _ =>
        snd (fold_left drawdown_step (drawdown_history self name portfolio) (h0, 0))
        * 100
    end.
Proof.
  unfold _calculate_max_drawdown, drawdown_history.
  destruct (Dict.get (_capital_history self) name) as [[|h hs]|]; reflexivity.
Qed.

Lemma drawdown_walk_le_one history :
  forall acc,
    Forall (fun c => 0 <= c) history -> snd acc <= 1 ->
    snd (fold_left drawdown_step history acc) <= 1.
Proof.
  induction history as [|capital rest IH]; intros [peak max_dd] Hall Hacc; simpl;
    [exact Hacc|].
  inversion Hall as [|? ? Hc Hrest]; subst. apply IH; [exact Hrest|]. simpl in *.
  rewrite py_max_Rmax. apply Rmax_lub; [exact Hacc|].
  set (peak' := if capital >? peak then capital else peak).
  float_case (peak' >? 0); [|lra].
  apply (Rmult_le_reg_r peak'); [lra|].
  unfold Rdiv. rewrite Rmult_assoc, Rinv_l by lra. lra.
Qed.

(** X11.  The maximum drawdown is a percentage between 0 and 100 whenever no
    capital of the walked series is negative. *)
Theorem max_drawdown_percentage :
  forall self name portfolio,
    Forall (fun c => 0 <= c) (drawdown_history self name portfolio) ->
    0 <= _calculate_max_drawdown self name portfolio <= 100.
Proof.
  intros self name portfolio Hall. split; [apply max_drawdown_nonneg|].
  rewrite max_drawdown_history.
  destruct (drawdown_history self name portfolio) as [|h0 [|h1 hs]]; try lra.
  assert (snd (fold_left drawdown_step (h0 :: h1 :: hs) (h0, 0)) <= 1)
    by (apply drawdown_walk_le_one; [exact Hall | simpl; lra]).
  lra.
Qed.

Lemma max_drawdown_percentage_witness :
  0 <= _calculate_max_drawdown example_tracker "Momentum" (funded "Momentum" four_wins)
    <= 100.
Proof.
  apply (max_drawdown_percentage example_tracker "Momentum" (funded "Momentum" four_wins)).
  unfold drawdown_history. simpl. repeat constructor; lra.
Defined.

(** The walk from a positive peak ends without drawdown exactly when it
    starts without one and the series never falls below the peak. *)
Lemma drawdown_walk_zero_iff history :
  forall peak max_dd,
    0 < peak -> 0 <= max_dd ->
    (snd (fold_left drawdown_step history (peak, max_dd)) = 0
     <-> max_dd = 0 /\ Sorted Rle (peak :: history)).
Proof.
  induction history as [|capital rest IH]; intros peak max_dd Hpeak Hdd; simpl.
  - split; [intros ->; split; [reflexivity | repeat constructor] | tauto].
  - set (peak' := if capital >? peak then capital else peak).
    set (d := if peak' >? 0 then (peak' - capital) / peak' else 0).
    assert (Hpeak' : 0 < peak' /\ capital <= peak' /\ peak <= peak'
                     /\ (peak <= capital -> peak' = capital))
      by (unfold peak'; float_case (capital >? peak); repeat split; lra).
    destruct Hpeak' as (Hpos & Hcap & Hge & Heq).
    assert (Hd : 0 <= d /\ (d = 0 <-> peak <= capital)).
    { unfold d. rewrite (proj2 (Rgtb_true_iff peak' 0)) by lra.
      assert (Hinv : 0 < / peak') by now apply Rinv_0_lt_compat.
      split; [unfold Rdiv; nra|]. split.
      - intros Hz. apply (f_equal (fun x => x * peak')) in Hz.
        unfold Rdiv in Hz. rewrite Rmult_assoc, Rinv_l in Hz by lra. lra.
      - intros Hle. rewrite (Heq Hle). unfold Rdiv. lra. }
    destruct Hd as (Hd0 & Hdz).
    rewrite (IH peak' (py_max max_dd d) Hpos)
      by (pose proof (py_max_ge_l max_dd d); lra).
    rewrite py_max_Rmax. split.
    + intros [Hmax Hsorted].
      assert (Hm : max_dd = 0 /\ d = 0).
      { pose proof (Rmax_l max_dd d). pose proof (Rmax_r max_dd d). split; lra. }
      destruct Hm as [Hm Hz]. split; [exact Hm|].
      rewrite (Heq (proj1 Hdz Hz)) in Hsorted.
      constructor; [exact Hsorted | constructor; now apply Hdz].
    + intros [Hm Hsorted]. inversion Hsorted as [|? ? Hs Hhd]; subst.
      inversion Hhd as [|? ? Hle]; subst.
      rewrite (Heq Hle). split; [|exact Hs].
      rewrite (proj2 Hdz Hle). now rewrite Rmax_left by lra.
Qed.

(** The percentage that the walk over a series with a positive first
    capital ends with is zero exactly when the series never decreases. *)
Lemma drawdown_of_series_zero_iff h0 rest :
  0 < h0 ->
  (match h0 :: rest with
   | [] | [_] => 0
   | first :: _ => snd (fold_left drawdown_step (h0 :: rest) (first, 0)) * 100
   end = 0
   <-> Sorted Rle (h0 :: rest)).
Proof.
  intros Hpos.
  destruct rest as [|h1 hs]; [split; [repeat constructor | reflexivity]|].
  pose proof (drawdown_walk_zero_iff (h0 :: h1 :: hs) h0 0 Hpos (Rle_refl 0)) as Hwalk.
  split.
  - intros Hz.
    assert (Hs : Sorted Rle (h0 :: h0 :: h1 :: hs)) by (apply Hwalk; lra).
    now inversion Hs.
  - intros Hs.
    assert (Hz : snd (fold_left drawdown_step (h0 :: h1 :: hs) (h0, 0)) = 0).
    { apply Hwalk. split; [reflexivity|]. constructor; [exact Hs|].
      constructor. lra. }
    rewrite Hz. lra.
Qed.

(** X12.  From a positive first capital, the maximum drawdown is zero exactly
    when the walked capital series never decreases. *)
Theorem max_drawdown_zero_iff :
  forall self name portfolio h0 rest,
    drawdown_history self name portfolio = h0 :: rest ->
    0 < h0 ->
    (_calculate_max_drawdown self name portfolio = 0 <-> Sorted Rle (h0 :: rest)).
Proof.
  intros self name portfolio h0 rest Hh Hpos.
  rewrite max_drawdown_history, Hh.
  exact (drawdown_of_series_zero_iff h0 rest Hpos).
Qed.

Lemma max_drawdown_zero_iff_witness :
  _calculate_max_drawdown example_tracker "Momentum" (funded "Momentum" four_wins) = 0
  <-> Sorted Rle [10; 8].
Proof.
  apply (max_drawdown_zero_iff example_tracker "Momentum" (funded "Momentum" four_wins)).
  - reflexivity.
  - lra.
Defined.

Lemma capital_series_head capital trades :
  exists rest, capital_series capital trades = capital :: rest.
Proof. destruct trades; simpl; eauto. Qed.

Lemma capital_series_sorted trades :
  forall capital,
    Forall (fun t => 0 <= PaperPosition.pnl t) trades ->
    Sorted Rle (capital_series capital trades).
Proof.
  induction trades as [|t ts IH]; intros capital Hall; simpl; [repeat constructor|].
  inversion Hall as [|? ? Ht Hts]; subst.
  constructor; [now apply IH|].
  destruct (capital_series_head (capital + PaperPosition.pnl t) ts) as (rest & ->).
  constructor. lra.
Qed.

(** X13.  Without a recorded capital history, a portfolio with a positive
    baseline whose closed trades all ended without a loss has no
    drawdown. *)
Theorem max_drawdown_without_loss :
  forall self portfolio,
    Dict.get (_capital_history self) (StrategyPortfolio.strategy_name portfolio) = None ->
    0 < StrategyPortfolio.initial_capital portfolio ->
    Forall (fun t => 0 <= PaperPosition.pnl t)
           (StrategyPortfolio.closed_positions portfolio) ->
    _calculate_max_drawdown self (StrategyPortfolio.strategy_name portfolio) portfolio = 0.
Proof.
  intros self portfolio Hnone Hpos Hall.
  set (sorted := sorted_by_key
                   (fun t => match PaperPosition.exit_time t with
                             | Some e => e
                             | None => PaperPosition.entry_time t
                             end)
                   (StrategyPortfolio.closed_positions portfolio)).
  assert (Hh : drawdown_history self (StrategyPortfolio.strategy_name portfolio) portfolio
               = capital_series (StrategyPortfolio.initial_capital portfolio) sorted)
    by (unfold drawdown_history; now rewrite Hnone).
  destruct (capital_series_head (StrategyPortfolio.initial_capital portfolio) sorted)
    as (rest & Hrest).
  rewrite max_drawdown_history, Hh, Hrest.
  apply (proj2 (drawdown_of_series_zero_iff _ rest Hpos)).
  rewrite <- Hrest. apply capital_series_sorted.
  apply (Permutation_Forall (Permutation_sym (sorted_by_key_perm _ _))). exact Hall.
Qed.

Lemma max_drawdown_without_loss_witness :
  _calculate_max_drawdown empty_tracker "Momentum" (with_history four_wins) = 0.
Proof.
  apply (max_drawdown_without_loss empty_tracker (with_history four_wins)).
  - reflexivity.
  - simpl. lra.
  - unfold with_history, four_wins. simpl.
    repeat (apply Forall_cons;
            [unfold PaperPosition.pnl, closed_trade; simpl; lra|]).
    apply Forall_nil.
Defined.
End Drawdown.

(* ===================================================================== *)
(** * The metrics engine: how the figures of one record fit together *)
(* ===================================================================== *)

Section MetricsIdentities.
Import PerformanceTracker.

Lemma wins_losses_partition (trades : list PaperPosition.t) :
  py_sum (map PaperPosition.pnl (filter (fun t => PaperPosition.pnl t >? 0) trades))
  + py_sum (map PaperPosition.pnl (filter (fun t => PaperPosition.pnl t <=? 0) trades))
  = py_sum (map PaperPosition.pnl trades)
  /\ Nat.add (List.length (filter (fun t => PaperPosition.pnl t >? 0) trades))
             (List.length (filter (fun t => PaperPosition.pnl t <=? 0) trades))
     = List.length trades.
Proof.
  induction trades as [|t ts [IHs IHl]]; simpl.
  - unfold py_sum. simpl. split; [lra | reflexivity].
  - float_case (PaperPosition.pnl t >? 0).
    + rewrite (proj2 (Rleb_false_iff _ _)) by lra. simpl.
      rewrite !py_sum_cons. split; [lra | lia].
    + rewrite (proj2 (Rleb_true_iff _ _)) by lra. simpl.
      rewrite !py_sum_cons. split; [lra | lia].
Qed.

Lemma average_times_count {A : Type} (f : A -> R) (l : list A) :
  match l with [] => 0 | _ :: _ => py_sum (map f l) / len l end
  * IZR (Z.of_nat (List.length l))
  = py_sum (map f l).
Proof.
  destruct l as [|x xs]; [unfold py_sum; simpl; lra|].
  rewrite <- INR_IZR_INZ. unfold len.
  assert (INR (List.length (x :: xs)) <> 0) by (apply not_0_INR; discriminate).
  field. assumption.
Qed.

Lemma average_sign {A : Type} (f : A -> R) (l : list A) :
  ((forall x, In x l -> 0 <= f x) ->
   0 <= match l with [] => 0 | _ :: _ => py_sum (map f l) / len l end)
  /\ ((forall x, In x l -> f x <= 0) ->
      match l with [] => 0 | _ :: _ => py_sum (map f l) / len l end <= 0).
Proof.
  assert (Hmap : forall (P : R -> Prop),
             (forall x, In x l -> P (f x)) -> forall y, In y (map f l) -> P y).
  { intros P HP y Hy. apply in_map_iff in Hy. destruct Hy as (x & <- & Hx). auto. }
  destruct l as [|x xs]; [split; intros; lra|].
  assert (Hn : 0 < len (x :: xs)) by (unfold len; apply lt_0_INR; simpl; lia).
  assert (Hinv : 0 < / len (x :: xs)) by now apply Rinv_0_lt_compat.
  split; intros Hall; unfold Rdiv.
  - pose proof (py_sum_nonneg _ (Hmap (fun y => 0 <= y) Hall)). nra.
  - pose proof (proj1 (py_sum_nonpos _ (Hmap (fun y => y <= 0) Hall))). nra.
Qed.

(** X14.  The figures of a metrics record fit together: winners and losers add
    up to the closed trades; trade count, total return, winners and win
    rate are the ones that the portfolio reports itself; the total return
    splits into average win times winners plus average loss times
    losers; expectancy times the trade count is the total return;
    the average win is not negative and the average loss not positive.
    The record is cached under the strategy's name when the portfolio has
    a closed trade, and the tracker is left as it is otherwise. *)
Theorem metrics_identities :
  forall self portfolio now m self',
    calculate_metrics self portfolio now = Some (m, self') ->
    (StrategyMetrics.winning_trades m + StrategyMetrics.losing_trades m
     = StrategyMetrics.total_trades m)%Z
    /\ StrategyMetrics.total_trades m = StrategyPortfolio.total_trades portfolio
    /\ StrategyMetrics.total_return m = StrategyPortfolio.total_pnl portfolio
    /\ StrategyMetrics.winning_trades m = StrategyPortfolio.winning_trades portfolio
    /\ StrategyMetrics.win_rate m = StrategyPortfolio.win_rate portfolio
    /\ StrategyMetrics.average_win m * IZR (StrategyMetrics.winning_trades m)
       + StrategyMetrics.average_loss m * IZR (StrategyMetrics.losing_trades m)
       = StrategyMetrics.total_return m
    /\ StrategyMetrics.expectancy m * IZR (StrategyMetrics.total_trades m)
       = StrategyMetrics.total_return m
    /\ 0 <= StrategyMetrics.average_win m
    /\ StrategyMetrics.average_loss m <= 0
    /\ StrategyMetrics.current_capital m = StrategyPortfolio.current_capital portfolio
    /\ (StrategyPortfolio.closed_positions portfolio <> [] ->
        get_metrics self' (StrategyPortfolio.strategy_name portfolio) = Some m)
    /\ (StrategyPortfolio.closed_positions portfolio = [] -> self' = self).
Proof.
  intros self portfolio now m self'. unfold calculate_metrics.
  unfold StrategyPortfolio.win_rate, StrategyPortfolio.winning_trades,
    StrategyPortfolio.total_trades, StrategyPortfolio.total_pnl.
  destruct (StrategyPortfolio.closed_positions portfolio) as [|t ts] eqn:Htrades.
  { intros [= <- <-]. simpl. unfold py_sum. simpl.
    repeat split; try lra; try reflexivity. congruence. }
  assert (Hsome : (Z.of_nat (List.length (t :: ts)) =? 0)%Z = false) by reflexivity.
  rewrite Hsome.
  destruct (py_div _ _); [|discriminate].
  destruct (_calculate_sharpe _ _ _); [|discriminate].
  destruct (_calculate_sortino _ _ _); [|discriminate].
  destruct (py_max_list _); [|discriminate].
  intros Hcalc.
  apply (f_equal (fun o => match o with Some x => x | None => (m, self') end)) in Hcalc.
  cbv beta iota zeta in Hcalc. apply pair_equal_spec in Hcalc.
  destruct Hcalc as [<- <-].
  cbv beta iota delta
    [StrategyMetrics.winning_trades StrategyMetrics.losing_trades
     StrategyMetrics.total_trades StrategyMetrics.total_return
     StrategyMetrics.average_win StrategyMetrics.average_loss
     StrategyMetrics.expectancy StrategyMetrics.current_capital
     StrategyMetrics.win_rate].
  set (trades := t :: ts).
  set (wins := filter (fun t0 => PaperPosition.pnl t0 >? 0) trades).
  set (losses := filter (fun t0 => PaperPosition.pnl t0 <=? 0) trades).
  destruct (wins_losses_partition trades) as [Hsum Hlen].
  fold wins losses in Hsum, Hlen.
  pose proof (average_times_count PaperPosition.pnl wins) as Hw.
  pose proof (average_times_count PaperPosition.pnl losses) as Hl.
  split; [lia|]. split; [reflexivity|]. split; [reflexivity|].
  split; [reflexivity|]. split; [reflexivity|].
  split.
  { etransitivity; [|exact Hsum]. apply f_equal2; [exact Hw | exact Hl]. }
  split.
  { assert (Hn : IZR (Z.of_nat (List.length trades)) <> 0).
    { rewrite <- INR_IZR_INZ. apply not_0_INR. discriminate. }
    unfold Rdiv. rewrite Rmult_assoc, Rinv_l by exact Hn. apply Rmult_1_r. }
  split.
  { apply (proj1 (average_sign PaperPosition.pnl wins)).
    intros p Hp. apply filter_In in Hp. destruct Hp as [_ Hp].
    apply Rgtb_true_iff in Hp. lra. }
  split.
  { apply (proj2 (average_sign PaperPosition.pnl losses)).
    intros p Hp. apply filter_In in Hp. destruct Hp as [_ Hp].
    now apply Rleb_true_iff in Hp. }
  split; [reflexivity|].
  split; [intros _; apply get_set_same | discriminate].
Qed.

Lemma metrics_identities_witness :
  exists m self',
    calculate_metrics empty_tracker (with_history four_wins) 0 = Some (m, self')
    /\ StrategyMetrics.expectancy m * IZR (StrategyMetrics.total_trades m)
       = StrategyMetrics.total_return m
    /\ get_metrics self' "Momentum" = Some m.
Proof.
  destruct (calculate_metrics_nonempty empty_tracker (with_history four_wins) 0)
    as (m & self' & Hcalc & _).
  - discriminate.
  - simpl. lra.
  - unfold history_ok. discriminate.
  - destruct (metrics_identities _ _ _ _ _ Hcalc)
      as (_ & _ & _ & _ & _ & _ & Hexp & _ & _ & _ & Hcache & _).
    exists m, self'. split; [exact Hcalc|]. split; [exact Hexp|].
    apply Hcache. discriminate.
Defined.
End MetricsIdentities.

(* ===================================================================== *)
(** * Rankings: the leaderboard and rank_strategies *)
(* ===================================================================== *)

Section Leaderboard.
Import PerformanceTracker.

(** X15.  The leaderboard holds exactly the cached metrics with at least
    [min_trades_for_ranking] trades, by descending Sharpe ratio; metrics
    with the same ratio keep the order of the cache. *)
Theorem leaderboard_ranked :
  forall self,
    StronglySorted
      (fun a b => StrategyMetrics.sharpe_ratio b <= StrategyMetrics.sharpe_ratio a)
      (get_leaderboard self)
    /\ (forall m,
          In m (get_leaderboard self)
          <-> In m (Dict.values (_metrics self))
              /\ (PerformanceConfig.min_trades_for_ranking (config self)
                  <= StrategyMetrics.total_trades m)%Z)
    /\ (forall s,
          filter (fun m => StrategyMetrics.sharpe_ratio m =? s) (get_leaderboard self)
          = filter (fun m => StrategyMetrics.sharpe_ratio m =? s)
              (filter (fun m => (StrategyMetrics.total_trades m
                                 >=? PerformanceConfig.min_trades_for_ranking
                                       (config self))%Z)
                      (Dict.values (_metrics self)))).
Proof.
  intros self. unfold get_leaderboard.
  set (qualified := filter _ (Dict.values (_metrics self))).
  split; [|split].
  - eapply StronglySorted_weaken; [|apply sorted_by_key_sorted].
    simpl. intros a b H. lra.
  - intros m. split.
    + intros Hin.
      apply (Permutation_in _ (sorted_by_key_perm _ qualified)) in Hin.
      apply filter_In in Hin. destruct Hin as [Hin Hq]. split; [exact Hin|].
      now apply Z.geb_le.
    + intros [Hin Hq].
      apply (Permutation_in _ (Permutation_sym (sorted_by_key_perm _ qualified))).
      apply filter_In. split; [exact Hin | now apply Z.geb_le].
  - intros s.
    pose proof (sorted_by_key_stable (fun m => - StrategyMetrics.sharpe_ratio m)
                  (- s) qualified) as Hst.
    assert (Hext : forall l : list StrategyMetrics.t,
               filter (fun m => StrategyMetrics.sharpe_ratio m =? s) l
               = filter (fun m => - StrategyMetrics.sharpe_ratio m =? - s) l).
    { intros l. apply filter_ext. intros m.
      float_case (StrategyMetrics.sharpe_ratio m =? s).
      - symmetry. apply Reqb_true_iff. lra.
      - symmetry. apply Reqb_false_iff. lra. }
    now rewrite !Hext.
Qed.
End Leaderboard.

Section ScoreBounds.
Import CapitalAllocator.

Lemma score_nonneg self m : 0 <= calculate_strategy_score self m.
Proof.
  unfold calculate_strategy_score.
  destruct (StrategyMetrics.total_trades m <? 3)%Z; [lra|]. apply py_max_ge_l.
Qed.

Lemma score_at_most_weight self m :
  0 <= AllocatorConfig.performance_weight (config self) ->
  0 <= AllocatorConfig.risk_weight (config self) ->
  0 <= StrategyMetrics.win_rate m <= 100 ->
  0 <= StrategyMetrics.max_drawdown m ->
  calculate_strategy_score self m <= AllocatorConfig.performance_weight (config self).
Proof.
  intros Hpw Hrw Hwr Hdd. rewrite score_as_coded. unfold coded_score.
  destruct (StrategyMetrics.total_trades m <? 3)%Z; [exact Hpw|].
  set (s := clamp (StrategyMetrics.sharpe_ratio m / 2) 0 1).
  set (p := clamp_x (x_div_pos (x_sub (StrategyMetrics.profit_factor m) 1) 2) 0 1).
  set (d := Rmin 1 (StrategyMetrics.max_drawdown m / 20)).
  assert (Hclamp : forall x, 0 <= clamp x 0 1 <= 1).
  { intros x. unfold clamp. split; [apply Rmax_l|]. apply Rmax_lub; [lra | apply Rmin_l]. }
  assert (Hs : 0 <= s <= 1) by apply Hclamp.
  assert (Hp : 0 <= p <= 1).
  { unfold p, clamp_x. destruct (x_div_pos _ _); [apply Hclamp | lra]. }
  assert (Hd : 0 <= d) by (unfold d; apply Rmin_glb; lra).
  apply Rmax_lub; [exact Hpw|].
  set (perf := 4 / 10 * s + 3 / 10 * (StrategyMetrics.win_rate m / 100) + 3 / 10 * p).
  assert (Hperf : perf <= 1) by (unfold perf; lra).
  assert (Hrisk : 0 <= AllocatorConfig.risk_weight (config self) * d)
    by now apply Rmult_le_pos.
  assert (Hprod : AllocatorConfig.performance_weight (config self) * perf
                  <= AllocatorConfig.performance_weight (config self) * 1)
    by now apply Rmult_le_compat_l.
  lra.
Qed.

(** X16.  The score of metrics that [calculate_metrics] returned lies between 0
    and the performance weight, for weights that are not negative, and it
    is 0 for a strategy with fewer than three closed trades. *)
Theorem score_bounds :
  forall self tracker portfolio now m tracker',
    PerformanceTracker.calculate_metrics tracker portfolio now = Some (m, tracker') ->
    0 <= AllocatorConfig.performance_weight (config self) ->
    0 <= AllocatorConfig.risk_weight (config self) ->
    0 <= calculate_strategy_score self m
      <= AllocatorConfig.performance_weight (config self)
    /\ ((StrategyPortfolio.total_trades portfolio < 3)%Z ->
        calculate_strategy_score self m = 0).
Proof.
  intros self tracker portfolio now m tracker' Hcalc Hpw Hrw.
  destruct (calculate_metrics_ranges _ _ _ _ _ Hcalc) as [Hwr Hdd].
  split; [split; [apply score_nonneg | now apply score_at_most_weight]|].
  intros Hfew. unfold calculate_strategy_score.
  replace (StrategyMetrics.total_trades m) with (StrategyPortfolio.total_trades portfolio).
  - now rewrite (proj2 (Z.ltb_lt _ _) Hfew).
  - revert Hcalc. unfold PerformanceTracker.calculate_metrics,
      StrategyPortfolio.total_trades.
    destruct (StrategyPortfolio.closed_positions portfolio) as [|t ts];
      [now intros [= <- _]|].
    destruct (py_div _ _); [|discriminate].
    destruct (PerformanceTracker._calculate_sharpe _ _ _); [|discriminate].
    destruct (PerformanceTracker._calculate_sortino _ _ _); [|discriminate].
    destruct (py_max_list _); [|discriminate].
    now intros [= <- _].
Qed.

Lemma score_bounds_witness :
  exists m tracker',
    PerformanceTracker.calculate_metrics empty_tracker (funded "Momentum" four_wins) 0
    = Some (m, tracker')
    /\ 0 <= calculate_strategy_score allocator_200 m <= 7 / 10.
Proof.
  destruct (four_wins_metrics empty_tracker "Momentum" 0) as (m & tracker' & Hcalc & _).
  - unfold history_ok. discriminate.
  - exists m, tracker'. split; [exact Hcalc|].
    apply (score_bounds allocator_200 _ _ _ _ _ Hcalc); simpl; lra.
Defined.
End ScoreBounds.

Section RankStrategies.
Import CapitalAllocator.

Lemma Forall2_In_left {A B : Type} (P : A -> B -> Prop) l l' x :
  Forall2 P l l' -> In x l -> exists y, In y l' /\ P x y.
Proof.
  induction 1 as [|a b l l' Hab _ IH]; intros Hin; [destruct Hin|].
  destruct Hin as [<-|Hin].
  - exists b. split; [now left | exact Hab].
  - destruct (IH Hin) as (y & Hy & Hxy). exists y. split; [now right | exact Hxy].
Qed.

Lemma rank_loop_entries self now items :
  forall tracker rankings tracker',
    rank_loop self tracker items now = Some (rankings, tracker') ->
    map (fun x : Ranking => fst (fst x)) rankings = Dict.keys items
    /\ Forall2
         (fun (x : Ranking) (item : string * StrategyPortfolio.t) =>
            fst (fst x) = fst item
            /\ snd (fst x) = calculate_strategy_score self (snd x)
            /\ exists tr tr',
                 PerformanceTracker.calculate_metrics tr (snd item) now
                 = Some (snd x, tr'))
         rankings items.
Proof.
  induction items as [|[name portfolio] rest IH]; intros tracker rankings tracker';
    simpl.
  - intros [= <- _]. split; [reflexivity | constructor].
  - destruct (PerformanceTracker.calculate_metrics tracker portfolio now)
      as [[m tr1]|] eqn:Hcalc; [|discriminate].
    destruct (rank_loop self tr1 rest now) as [[rs tr2]|] eqn:Hloop; [|discriminate].
    intros [= <- _]. destruct (IH _ _ _ Hloop) as [Hnames Hall].
    split; [simpl; now rewrite Hnames|].
    constructor; [|exact Hall]. simpl. split; [reflexivity|].
    split; [reflexivity | eauto].
Qed.

Lemma rank_strategies_sorted_loop self now rankings self' :
  rank_strategies self now = Some (rankings, self') ->
  exists unsorted tracker',
    rank_loop self (performance_tracker self)
      (PaperTrader.portfolios (paper_trader self)) now = Some (unsorted, tracker')
    /\ rankings = sorted_by_key (fun x : Ranking => - snd (fst x)) unsorted
    /\ self' = with_tracker self tracker'.
Proof.
  unfold rank_strategies.
  destruct (rank_loop self (performance_tracker self)
              (PaperTrader.portfolios (paper_trader self)) now)
    as [[unsorted tr]|]; [|discriminate].
  intros Hsome. apply Some_inj in Hsome. apply pair_equal_spec in Hsome.
  destruct Hsome as [<- <-]. now exists unsorted, tr.
Qed.

(** X17.  [rank_strategies] returns one entry per portfolio, by descending
    score; entries with the same score keep the order of the portfolios.
    Every entry carries the metrics that [calculate_metrics] returned for
    its portfolio and the score of these metrics, which is not negative.
    The allocator changes in its tracker only. *)
Theorem rank_strategies_ranked :
  forall self now rankings self',
    rank_strategies self now = Some (rankings, self') ->
    StronglySorted (fun a b : Ranking => snd (fst b) <= snd (fst a)) rankings
    /\ Permutation (map (fun x : Ranking => fst (fst x)) rankings)
                   (Dict.keys (PaperTrader.portfolios (paper_trader self)))
    /\ (forall name score metrics,
          In (name, score, metrics) rankings ->
          score = calculate_strategy_score self metrics
          /\ 0 <= score
          /\ exists portfolio tr tr',
               In (name, portfolio) (PaperTrader.portfolios (paper_trader self))
               /\ PerformanceTracker.calculate_metrics tr portfolio now
                  = Some (metrics, tr'))
    /\ (exists unsorted,
          map (fun x : Ranking => fst (fst x)) unsorted
          = Dict.keys (PaperTrader.portfolios (paper_trader self))
          /\ forall s,
               filter (fun x : Ranking => snd (fst x) =? s) rankings
               = filter (fun x : Ranking => snd (fst x) =? s) unsorted)
    /\ paper_trader self' = paper_trader self
    /\ config self' = config self
    /\ total_capital self' = total_capital self
    /\ _last_rebalance self' = _last_rebalance self.
Proof.
  intros self now rankings self' Hrank.
  destruct (rank_strategies_sorted_loop _ _ _ _ Hrank)
    as (unsorted & tr & Hloop & -> & ->).
  destruct (rank_loop_entries _ _ _ _ _ _ Hloop) as [Hnames Hall].
  pose proof (sorted_by_key_perm (fun x : Ranking => - snd (fst x)) unsorted) as Hperm.
  split; [|split; [|split; [|split]]].
  - eapply StronglySorted_weaken; [|apply sorted_by_key_sorted].
    simpl. intros a b H. lra.
  - rewrite <- Hnames. now apply Permutation_map.
  - intros name score metrics Hin.
    apply (Permutation_in _ Hperm) in Hin.
    destruct (Forall2_In_left _ _ _ _ Hall Hin)
      as ([n portfolio] & Hitem & Hn & Hs & tr0 & tr1 & Hcalc).
    simpl in Hn, Hs, Hcalc. subst n. split; [exact Hs|].
    split; [rewrite Hs; apply score_nonneg|].
    exists portfolio, tr0, tr1. auto.
  - exists unsorted. split; [exact Hnames|]. intros s.
    pose proof (sorted_by_key_stable (fun x : Ranking => - snd (fst x)) (- s) unsorted)
      as Hst.
    assert (Hext : forall l : list Ranking,
               filter (fun x : Ranking => snd (fst x) =? s) l
               = filter (fun x : Ranking => - snd (fst x) =? - s) l).
    { intros l. apply filter_ext. intros x.
      float_case (snd (fst x) =? s).
      - symmetry. apply Reqb_true_iff. lra.
      - symmetry. apply Reqb_false_iff. lra. }
    now rewrite !Hext.
  - repeat split.
Qed.

Lemma rank_strategies_ranked_witness :
  exists rankings self',
    rank_strategies example_allocator 0 = Some (rankings, self')
    /\ StronglySorted (fun a b : Ranking => snd (fst b) <= snd (fst a)) rankings.
Proof.
  destruct (example_ranking 0) as (m1 & m2 & m3 & self' & Hrank & _).
  eexists. exists self'. split; [exact Hrank|].
  exact (proj1 (rank_strategies_ranked _ _ _ _ Hrank)).
Defined.
End RankStrategies.

(* ===================================================================== *)
(** * The allocator: the shape and the size of the allocations *)
(* ===================================================================== *)

Section AllocationShape.
Import CapitalAllocator.

Lemma rank_succ (rank : nat) : (Z.of_nat rank + 1)%Z = Z.of_nat (S rank).
Proof. lia. Qed.

Lemma equal_allocation_for self per_strategy xs :
  forall rank,
    allocations_for self rank xs
      (equal_allocation self per_strategy (Z.of_nat rank) xs).
Proof.
  induction xs as [|[[name score] metrics] rest IH]; intros rank; simpl; [exact I|].
  split; [repeat split|]. rewrite rank_succ. apply IH.
Qed.

Lemma proportional_allocation_for self total_score min_allocation n xs :
  forall rank,
    allocations_for self rank xs
      (proportional_allocation self total_score min_allocation n (Z.of_nat rank) xs).
Proof.
  induction xs as [|[[name score] metrics] rest IH]; intros rank; simpl; [exact I|].
  split; [repeat split|]. rewrite rank_succ. apply IH.
Qed.

Lemma rescale_for self scale xs :
  forall rank results,
    allocations_for self rank xs results ->
    allocations_for self rank xs (map (rescale scale) results).
Proof.
  induction xs as [|x rest IH]; intros rank [|r results]; simpl; try tauto.
  intros [(Hn & Hs & Hr & Hc & _) Hrest].
  split; [repeat split; assumption | now apply IH].
Qed.

Lemma normalize_cases self rs results :
  normalize self rs = Some results ->
  results = rs
  \/ exists scale,
       total_allocated rs > total_capital self
       /\ total_allocated rs <> 0
       /\ scale = total_capital self / total_allocated rs
       /\ results = map (rescale scale) rs.
Proof.
  unfold normalize. float_case (total_allocated rs >? total_capital self).
  - unfold py_div. float_case (total_allocated rs =? 0); [discriminate|].
    intros [= <-]. right. eauto.
  - intros [= <-]. now left.
Qed.

(** X18.  Whatever the allocation step returns answers the qualified rankings
    (all rankings, when none qualifies) one by one and in their order: the
    result carries the name and the score of its ranking, ranks count from
    1, the current capital is the one of the strategy's portfolio (0
    without portfolio), and the allocation change is the new allocation
    minus the current capital, also after normalisation. *)
Theorem allocations_shape :
  forall self rankings results,
    allocate self rankings = Some results ->
    allocations_for self 1 (allocated_rankings self rankings) results.
Proof.
  intros self rankings results. unfold allocate, allocated_rankings.
  destruct rankings as [|x rest]; [now intros [= <-]|].
  destruct (filter (is_qualified self) (x :: rest)) as [|q qs].
  - intros [= <-]. apply (equal_allocation_for self _ (x :: rest) 1%nat).
  - intros Hnorm.
    pose proof (proportional_allocation_for self
                  (py_sum (map (fun x : Ranking => snd (fst x)) (q :: qs)))
                  (total_capital self / len (q :: qs) * (1 / 10))
                  (len (q :: qs)) (q :: qs) 1%nat) as Hprop.
    destruct (normalize_cases _ _ _ Hnorm) as [->|(scale & _ & _ & _ & ->)].
    + exact Hprop.
    + now apply rescale_for.
Qed.

Lemma allocations_shape_witness :
  allocations_for allocator_200 1
    (allocated_rankings allocator_200 example_rankings)
    (proposed allocator_200 example_rankings).
Proof.
  apply (allocations_shape allocator_200 example_rankings).
  exact (scored_allocate allocator_200 "MeanReversion" "Momentum" "MarketMaking"
           (metrics_of 10 60) (metrics_of 10 40) (metrics_of 2 0)
           eq_refl eq_refl eq_refl).
Defined.
End AllocationShape.

Section AllocationSizes.
Import CapitalAllocator.

Lemma equal_allocation_each self per_strategy xs :
  forall rank,
    Forall (fun r => AllocationResult.new_allocation r = per_strategy)
           (equal_allocation self per_strategy rank xs).
Proof.
  induction xs as [|[[name score] metrics] rest IH]; intros rank; simpl;
    constructor; [reflexivity | apply IH].
Qed.

Lemma proportional_allocation_each self total_score min_allocation n xs :
  0 <= total_capital self -> 0 <= min_allocation ->
  forall rank,
    Forall (fun r => 0 <= AllocationResult.new_allocation r
                     <= total_capital self * (5 / 10))
           (proportional_allocation self total_score min_allocation n rank xs).
Proof.
  intros Hcap Hmin.
  induction xs as [|[[name score] metrics] rest IH]; intros rank; simpl;
    constructor; [|apply IH].
  simpl. rewrite py_min_Rmin, py_max_Rmax. split.
  - apply Rmin_glb; [|lra].
    eapply Rle_trans; [exact Hmin | apply Rmax_l].
  - apply Rmin_r.
Qed.

(** X19.  The size of the allocations, for a capital pool that is not negative.
    When no strategy qualifies, every strategy receives the same share,
    the pool divided by the number of strategies, and the shares add up
    to the pool.  Otherwise no allocation is negative and none exceeds
    half of the pool. *)
Theorem allocation_sizes :
  forall self rankings results,
    0 <= total_capital self ->
    allocate self rankings = Some results ->
    (filter (is_qualified self) rankings = [] ->
     Forall (fun r => AllocationResult.new_allocation r
                      = total_capital self / len rankings) results
     /\ (rankings <> [] -> total_allocated results = total_capital self))
    /\ (filter (is_qualified self) rankings <> [] ->
        Forall (fun r => 0 <= AllocationResult.new_allocation r
                         <= total_capital self * (5 / 10)) results).
Proof.
  intros self rankings results Hcap. unfold allocate.
  destruct rankings as [|x rest].
  { intros [= <-]. split; [|intros _; constructor].
    intros _. split; [constructor | congruence]. }
  destruct (filter (is_qualified self) (x :: rest)) as [|q qs] eqn:Hq.
  - intros Hsome. apply Some_inj in Hsome. subst results.
    split; [|congruence]. intros _. split.
    + apply equal_allocation_each.
    + intros _. rewrite total_allocated_equal.
      pose proof (len_pos x rest). rewrite Rmult_div_same; lra.
  - intros Hnorm. split; [discriminate|]. intros _.
    assert (Hprop : Forall (fun r => 0 <= AllocationResult.new_allocation r
                                     <= total_capital self * (5 / 10))
                           (proposed self (q :: qs))).
    { apply proportional_allocation_each; [exact Hcap|].
      pose proof (len_pos q qs) as Hn.
      assert (0 < / len (q :: qs)) by now apply Rinv_0_lt_compat.
      unfold Rdiv. nra. }
    destruct (normalize_cases _ _ _ Hnorm) as [->|(scale & Hgt & Hnz & Hscale & ->)];
      [exact Hprop|].
    assert (Hs : 0 <= scale <= 1).
    { assert (Hpos : 0 < total_allocated (proposed self (q :: qs))) by lra.
      assert (Hinv : 0 < / total_allocated (proposed self (q :: qs)))
        by now apply Rinv_0_lt_compat.
      rewrite Hscale. unfold Rdiv. split; [nra|].
      apply (Rmult_le_reg_r (total_allocated (proposed self (q :: qs)))); [exact Hpos|].
      rewrite Rmult_assoc, Rinv_l by lra. lra. }
    apply Forall_map. eapply Forall_impl; [|exact Hprop].
    intros r [H0 Hhalf]. simpl. split; nra.
Qed.

Lemma allocation_sizes_witness :
  (filter (is_qualified allocator_200) example_rankings = [] ->
   Forall (fun r => AllocationResult.new_allocation r
                    = total_capital allocator_200 / len example_rankings)
          (proposed allocator_200 example_rankings)
   /\ (example_rankings <> [] ->
       total_allocated (proposed allocator_200 example_rankings)
       = total_capital allocator_200))
  /\ (filter (is_qualified allocator_200) example_rankings <> [] ->
      Forall (fun r => 0 <= AllocationResult.new_allocation r
                       <= total_capital allocator_200 * (5 / 10))
             (proposed allocator_200 example_rankings)).
Proof.
  apply (allocation_sizes allocator_200 example_rankings).
  - simpl. lra.
  - exact (scored_allocate allocator_200 "MeanReversion" "Momentum" "MarketMaking"
             (metrics_of 10 60) (metrics_of 10 40) (metrics_of 2 0)
             eq_refl eq_refl eq_refl).
Defined.
End AllocationSizes.

(* ===================================================================== *)
(** * The allocator: rebalance *)
(* ===================================================================== *)

Section Rebalance.
Import CapitalAllocator.

Lemma apply_allocations_cons trader alloc rest :
  fst (apply_allocations trader (alloc :: rest))
  = fst (apply_allocations (fst (apply_allocation trader alloc)) rest).
Proof.
  simpl. destruct (apply_allocation trader alloc) as [trader1 log1]. simpl.
  now destruct (apply_allocations trader1 rest).
Qed.

Lemma get_Some_keys {V : Type} (d : Dict.t V) k v :
  Dict.get d k = Some v -> In k (Dict.keys d).
Proof. intros H. apply get_In in H. apply (in_map fst) in H. exact H. Qed.

Lemma apply_allocation_spec trader alloc :
  let trader' := fst (apply_allocation trader alloc) in
  PaperTrader.risk_config trader' = PaperTrader.risk_config trader
  /\ PaperTrader._daily_pnl trader' = PaperTrader._daily_pnl trader
  /\ Dict.keys (PaperTrader.portfolios trader') = Dict.keys (PaperTrader.portfolios trader)
  /\ forall name pf,
       PaperTrader.get_portfolio trader name = Some pf ->
       exists pf',
         PaperTrader.get_portfolio trader' name = Some pf'
         /\ reallocated [alloc] name pf pf'.
Proof.
  unfold apply_allocation, PaperTrader.get_portfolio.
  destruct (Dict.get (PaperTrader.portfolios trader)
              (AllocationResult.strategy_name alloc)) as [pa|] eqn:Hget; simpl.
  - split; [reflexivity|]. split; [reflexivity|].
    split; [apply keys_set_present; eapply get_Some_keys; eauto|].
    intros name pf Hpf.
    destruct (string_dec name (AllocationResult.strategy_name alloc)) as [->|Hne].
    + rewrite Hget in Hpf. injection Hpf as <-.
      eexists. split; [apply get_set_same|].
      repeat split; simpl; try reflexivity.
      * destruct H as [<-|[]]. reflexivity.
      * destruct H as [<-|[]]. reflexivity.
      * intros Hnone. exfalso. apply (Hnone alloc); [now left | reflexivity].
    + exists pf. split; [now rewrite get_set_other|].
      repeat split; try reflexivity.
      * destruct H as [<-|[]]. congruence.
      * destruct H as [<-|[]]. congruence.
  - split; [reflexivity|]. split; [reflexivity|]. split; [reflexivity|].
    intros name pf Hpf. exists pf. split; [exact Hpf|].
    repeat split; try reflexivity.
    + destruct H as [<-|[]]. congruence.
    + destruct H as [<-|[]]. congruence.
Qed.

Lemma apply_allocations_spec allocations :
  NoDup (map AllocationResult.strategy_name allocations) ->
  forall trader,
    let trader' := fst (apply_allocations trader allocations) in
    PaperTrader.risk_config trader' = PaperTrader.risk_config trader
    /\ PaperTrader._daily_pnl trader' = PaperTrader._daily_pnl trader
    /\ Dict.keys (PaperTrader.portfolios trader')
       = Dict.keys (PaperTrader.portfolios trader)
    /\ forall name pf,
         PaperTrader.get_portfolio trader name = Some pf ->
         exists pf',
           PaperTrader.get_portfolio trader' name = Some pf'
           /\ reallocated allocations name pf pf'.
Proof.
  induction allocations as [|a rest IH]; intros Hnd trader.
  - simpl. repeat split; try reflexivity.
    intros name pf Hpf. exists pf. split; [exact Hpf|].
    repeat split; try reflexivity; destruct H.
  - inversion Hnd as [|? ? Ha Hrest]; subst. cbv zeta.
    rewrite apply_allocations_cons.
    destruct (apply_allocation_spec trader a) as (Hr1 & Hd1 & Hk1 & Hp1).
    destruct (IH Hrest (fst (apply_allocation trader a))) as (Hr2 & Hd2 & Hk2 & Hp2).
    split; [congruence|]. split; [congruence|]. split; [congruence|].
    intros name pf Hpf.
    destruct (Hp1 name pf Hpf) as (pf1 & Hget1 & Hn1 & Hpos1 & Hcl1 & Hnew1 & Hold1).
    destruct (Hp2 name pf1 Hget1) as (pf2 & Hget2 & Hn2 & Hpos2 & Hcl2 & Hnew2 & Hold2).
    exists pf2. split; [exact Hget2|].
    split; [congruence|]. split; [congruence|]. split; [congruence|]. split.
    + intros alloc [<-|Hin] Hname.
      * rewrite Hold2; [apply Hnew1; [now left | exact Hname]|].
        intros b Hb E. apply Ha. rewrite Hname, <- E. now apply in_map.
      * now apply Hnew2.
    + intros Hnone.
      rewrite Hold2 by (intros b Hb; apply Hnone; now right).
      apply Hold1. intros b [<-|[]]. apply Hnone. now left.
Qed.

Lemma equal_allocation_names self per_strategy xs :
  forall rank,
    map AllocationResult.strategy_name (equal_allocation self per_strategy rank xs)
    = map (fun x : Ranking => fst (fst x)) xs.
Proof.
  induction xs as [|[[name score] metrics] rest IH]; intros rank; simpl;
    [reflexivity | now rewrite IH].
Qed.

Lemma proportional_allocation_names self total_score min_allocation n xs :
  forall rank,
    map AllocationResult.strategy_name
        (proportional_allocation self total_score min_allocation n rank xs)
    = map (fun x : Ranking => fst (fst x)) xs.
Proof.
  induction xs as [|[[name score] metrics] rest IH]; intros rank; simpl;
    [reflexivity | now rewrite IH].
Qed.

Lemma allocate_names self rankings results :
  allocate self rankings = Some results ->
  map AllocationResult.strategy_name results
  = map (fun x : Ranking => fst (fst x)) (allocated_rankings self rankings).
Proof.
  unfold allocate, allocated_rankings.
  destruct rankings as [|x rest]; [now intros [= <-]|].
  destruct (filter (is_qualified self) (x :: rest)) as [|q qs].
  - intros Hsome. apply Some_inj in Hsome. subst results.
    apply equal_allocation_names.
  - intros Hnorm.
    destruct (normalize_cases _ _ _ Hnorm) as [->|(scale & _ & _ & _ & ->)].
    + apply proportional_allocation_names.
    + rewrite map_map. simpl.
      apply (proportional_allocation_names self _ _ _ (q :: qs) 1%Z).
Qed.

Lemma NoDup_map_filter {A B : Type} (f : A -> B) (p : A -> bool) l :
  NoDup (map f l) -> NoDup (map f (filter p l)).
Proof.
  induction l as [|x l IH]; simpl; [auto|].
  intros Hnd. inversion Hnd as [|? ? Hx Hl]; subst.
  destruct (p x); simpl; [|auto].
  constructor; [|auto]. intros Hin. apply Hx.
  apply in_map_iff in Hin. destruct Hin as (y & Hy & Hin).
  apply filter_In in Hin. rewrite <- Hy. apply in_map. tauto.
Qed.

Lemma calculate_allocations_names self now allocations self1 :
  NoDup (Dict.keys (PaperTrader.portfolios (paper_trader self))) ->
  calculate_allocations self now = Some (allocations, self1) ->
  NoDup (map AllocationResult.strategy_name allocations)
  /\ paper_trader self1 = paper_trader self
  /\ config self1 = config self
  /\ total_capital self1 = total_capital self
  /\ _last_rebalance self1 = _last_rebalance self
  /\ _allocation_history self1 = _allocation_history self.
Proof.
  intros Hkeys. unfold calculate_allocations.
  destruct (rank_strategies self now) as [[rankings self2]|] eqn:Hrank; [|discriminate].
  destruct (allocate self2 rankings) as [results|] eqn:Halloc; [|discriminate].
  intros Hsome. apply Some_inj in Hsome. apply pair_equal_spec in Hsome.
  destruct Hsome as [<- <-].
  destruct (rank_strategies_sorted_loop _ _ _ _ Hrank)
    as (unsorted & tr & Hloop & Hsorted & ->).
  destruct (rank_loop_entries _ _ _ _ _ _ Hloop) as [Hunsorted _].
  split; [|repeat split].
  rewrite (allocate_names _ _ _ Halloc).
  assert (Hnd : NoDup (map (fun x : Ranking => fst (fst x)) rankings)).
  { rewrite Hsorted.
    eapply Permutation_NoDup;
      [apply Permutation_sym, Permutation_map, sorted_by_key_perm|].
    now rewrite Hunsorted. }
  unfold allocated_rankings.
  pose proof (NoDup_map_filter (fun x : Ranking => fst (fst x))
                (is_qualified (with_tracker self tr)) rankings Hnd) as Hq.
  destruct (filter (is_qualified (with_tracker self tr)) rankings);
    [exact Hnd | exact Hq].
Qed.

Lemma rebalance_due self now stamp allocations self' log :
  should_rebalance self now = true ->
  rebalance self now stamp = Some (allocations, self', log) ->
  exists self1,
    calculate_allocations self now = Some (allocations, self1)
    /\ self' = mk (config self1) (performance_tracker self1)
                  (fst (apply_allocations (paper_trader self1) allocations))
                  (total_capital self1) (Some stamp)
                  (_allocation_history self1 ++ [(stamp, allocations)]).
Proof.
  intros Hdue. unfold rebalance. rewrite Hdue. simpl.
  destruct (calculate_allocations self now) as [[allocs self1]|]; [|discriminate].
  destruct (apply_allocations (paper_trader self1) allocs) as [trader' log'] eqn:Happly.
  intros Hsome. apply Some_inj in Hsome. apply pair_equal_spec in Hsome.
  destruct Hsome as [Hsome _]. apply pair_equal_spec in Hsome.
  destruct Hsome as [<- <-]. exists self1. split; [reflexivity|].
  now rewrite Happly.
Qed.

(** X20.  A rebalance that is due stamps the allocator, appends the allocations
    to its history and goes through the allocations of
    [calculate_allocations]: every portfolio keeps its place, its name,
    its open positions and its closed trades; a portfolio with an
    allocation gets the new allocation both as capital and as baseline,
    and the others are left as they are.  The risk limits and the daily
    P&L of the trader are not touched.  Strategy names are unique, as the
    keys of a dict are. *)
Theorem rebalance_effects :
  forall self now stamp allocations self' log,
    NoDup (Dict.keys (PaperTrader.portfolios (paper_trader self))) ->
    should_rebalance self now = true ->
    rebalance self now stamp = Some (allocations, self', log) ->
    (exists self1, calculate_allocations self now = Some (allocations, self1))
    /\ _last_rebalance self' = Some stamp
    /\ _allocation_history self' = _allocation_history self ++ [(stamp, allocations)]
    /\ config self' = config self
    /\ total_capital self' = total_capital self
    /\ PaperTrader.risk_config (paper_trader self')
       = PaperTrader.risk_config (paper_trader self)
    /\ PaperTrader._daily_pnl (paper_trader self')
       = PaperTrader._daily_pnl (paper_trader self)
    /\ Dict.keys (PaperTrader.portfolios (paper_trader self'))
       = Dict.keys (PaperTrader.portfolios (paper_trader self))
    /\ forall name pf,
         PaperTrader.get_portfolio (paper_trader self) name = Some pf ->
         exists pf',
           PaperTrader.get_portfolio (paper_trader self') name = Some pf'
           /\ reallocated allocations name pf pf'.
Proof.
  intros self now stamp allocations self' log Hkeys Hdue Hreb.
  destruct (rebalance_due _ _ _ _ _ _ Hdue Hreb) as (self1 & Hcalc & ->).
  destruct (calculate_allocations_names _ _ _ _ Hkeys Hcalc)
    as (Hnd & Htrader & Hcfg & Hcap & _ & Hhist).
  destruct (apply_allocations_spec allocations Hnd (paper_trader self1))
    as (Hr & Hd & Hk & Hp).
  simpl. rewrite Htrader in *.
  split; [eauto|]. split; [reflexivity|]. split; [now rewrite Hhist|].
  repeat split; assumption.
Qed.

(** X21.  After a rebalance that was due, the next one is not due before the
    interval has passed since the stamp: until then [rebalance] returns
    no allocation and leaves the allocator, and with it every portfolio,
    as it is. *)
Theorem rebalance_waits :
  forall self now stamp allocations self' log now' stamp',
    should_rebalance self now = true ->
    rebalance self now stamp = Some (allocations, self', log) ->
    now' - stamp < AllocatorConfig.rebalance_interval_hours (config self) * 3600 ->
    rebalance self' now' stamp' = Some ([], self', ["Rebalance not due yet"]).
Proof.
  intros self now stamp allocations self' log now' stamp' Hdue Hreb Hwait.
  destruct (rebalance_due _ _ _ _ _ _ Hdue Hreb) as (self1 & Hcalc & ->).
  assert (Hcfg : config self1 = config self).
  { revert Hcalc. unfold calculate_allocations, rank_strategies.
    destruct (rank_loop _ _ _ _) as [[rs tr]|]; [|discriminate].
    destruct (allocate _ _); [|discriminate].
    intros Hsome. apply Some_inj in Hsome. apply pair_equal_spec in Hsome.
    destruct Hsome as [_ <-]. reflexivity. }
  unfold rebalance, should_rebalance. simpl. rewrite Hcfg.
  now rewrite (proj2 (Rgeb_false_iff _ _) Hwait).
Qed.

Lemma young_rebalance :
  exists allocations self' log,
    rebalance young_allocator 0 5 = Some (allocations, self', log)
    /\ map AllocationResult.strategy_name allocations = ["Momentum"].
Proof.
  assert (Hscore : calculate_strategy_score young_allocator
                     (StrategyMetrics.fresh "Momentum" 50 0) = 0) by reflexivity.
  unfold rebalance, calculate_allocations, rank_strategies.
  simpl. rewrite Hscore. unfold allocate, is_qualified. simpl.
  unfold normalize, proposed, total_allocated, py_sum, len. simpl.
  unfold py_max, py_min. float_eval.
  do 3 eexists. split; reflexivity.
Qed.

Lemma rebalance_effects_witness :
  exists allocations self' log,
    rebalance young_allocator 0 5 = Some (allocations, self', log)
    /\ _last_rebalance self' = Some 5
    /\ Dict.keys (PaperTrader.portfolios (paper_trader self')) = ["Momentum"].
Proof.
  destruct young_rebalance as (allocations & self' & log & Hreb & _).
  exists allocations, self', log. split; [exact Hreb|].
  destruct (rebalance_effects young_allocator 0 5 allocations self' log)
    as (_ & Hstamp & _ & _ & _ & _ & _ & Hkeys & _).
  - simpl. repeat constructor. simpl. tauto.
  - reflexivity.
  - exact Hreb.
  - split; [exact Hstamp | exact Hkeys].
Defined.

Lemma rebalance_waits_witness :
  exists self',
    rebalance self' 3600 3605 = Some ([], self', ["Rebalance not due yet"]).
Proof.
  destruct young_rebalance as (allocations & self' & log & Hreb & _).
  exists self'.
  apply (rebalance_waits young_allocator 0 5 allocations self' log 3600 3605).
  - reflexivity.
  - exact Hreb.
  - simpl. lra.
Defined.
End Rebalance.

(* ===================================================================== *)
(** * The ledger: realized P&L and the cash baseline, across rebalances *)
(* ===================================================================== *)

Section Baseline.
Import PaperTrader.

Lemma settled_ext marks marks' ps :
  (forall name, marks' name = marks name) -> settled marks ps -> settled marks' ps.
Proof. intros Heq Hs name pf Hget. rewrite Heq. now apply Hs. Qed.

Lemma settled_close_in_portfolio mark portfolio k position exit_price reason now :
  settled_portfolio mark portfolio ->
  settled_portfolio mark
    (snd (close_in_portfolio portfolio k position exit_price reason now)).
Proof.
  intros (Hmark & Hcap & Hall). unfold settled_portfolio. simpl.
  split; [rewrite length_app; lia|]. split.
  - rewrite skipn_app.
    replace (mark - List.length (StrategyPortfolio.closed_positions portfolio))%nat
      with 0%nat by lia.
    simpl skipn. rewrite map_app, py_sum_app. simpl map.
    unfold py_sum at 2. simpl fold_left. lra.
  - apply Forall_app. split; [exact Hall|]. constructor; [reflexivity|constructor].
Qed.

Lemma close_first_get ps k exit_price reason now :
  forall position' ps',
    close_first ps k exit_price reason now = Some (position', ps') ->
    forall n pf',
      Dict.get ps' n = Some pf' ->
      Dict.get ps n = Some pf'
      \/ exists pf position,
           Dict.get ps n = Some pf
           /\ pf' = snd (close_in_portfolio pf k position exit_price reason now).
Proof.
  induction ps as [|[name pf] rest IH]; intros position' ps' Hclose n pf' Hget;
    simpl in Hclose; [discriminate|].
  destruct (Dict.get (StrategyPortfolio.positions pf) k) as [x|] eqn:Hx.
  - apply Some_inj, pair_equal_spec in Hclose. destruct Hclose as [_ <-].
    simpl in Hget |- *. destruct (String.eqb n name).
    + apply Some_inj in Hget. subst pf'. right. now exists pf, x.
    + now left.
  - destruct (close_first rest k exit_price reason now) as [[p'' rest']|] eqn:Hrest;
      [|discriminate].
    apply Some_inj, pair_equal_spec in Hclose. destruct Hclose as [_ <-].
    simpl in Hget |- *. destruct (String.eqb n name); [now left|].
    exact (IH _ _ eq_refl n pf' Hget).
Qed.

Lemma close_position_settled marks self position_id exit_price reason now :
  settled marks (portfolios self) ->
  settled marks
    (portfolios (snd (fst (close_position self position_id exit_price reason now)))).
Proof.
  intros Hs. unfold close_position.
  destruct (close_first _ _ _ _ _) as [[position' ps']|] eqn:Hclose; simpl;
    [|exact Hs].
  intros n pf' Hget.
  destruct (close_first_get _ _ _ _ _ _ _ Hclose n pf' Hget)
    as [Hold|(pf & x & Hold & ->)].
  - now apply Hs.
  - apply settled_close_in_portfolio. now apply Hs.
Qed.

Lemma check_exits_loop_settled marks strategy market_data now snapshot :
  forall self closed,
    settled marks (portfolios self) ->
    settled marks
      (portfolios
         (snd (fst (check_exits_loop self strategy market_data snapshot now closed)))).
Proof.
  induction snapshot as [|position rest IH]; intros self closed Hs; simpl;
    [exact Hs|].
  destruct (negb _); [now apply IH|].
  destruct (Strategy.should_exit _ _ _); [|now apply IH].
  pose proof (close_position_settled marks self (PaperPosition.id position)
                (match MarketData.yes_price market_data with
                 | Some p => p | None => 5 / 10 end) "strategy_exit" now Hs) as Hc.
  destruct (close_position _ _ _ _ _) as [[result self1] log1]. simpl in Hc.
  specialize (IH self1
                (match result with Some r => closed ++ [r] | None => closed end) Hc).
  destruct (check_exits_loop _ _ _ _ _ _) as [[out self2] log2]. exact IH.
Qed.

(** The write of [rebalance] for one allocation keeps the closed lists and
    sets the mark of its strategy to the present count. *)
Lemma closed_count_apply_allocation trader alloc name :
  closed_count (fst (CapitalAllocator.apply_allocation trader alloc)) name
  = closed_count trader name.
Proof.
  unfold CapitalAllocator.apply_allocation, closed_count, get_portfolio.
  destruct (Dict.get (portfolios trader) (AllocationResult.strategy_name alloc))
    as [pa|] eqn:Hget; simpl; [|reflexivity].
  destruct (String.eqb_spec name (AllocationResult.strategy_name alloc)) as [->|Hne].
  - now rewrite get_set_same, Hget.
  - now rewrite get_set_other by exact Hne.
Qed.

Lemma apply_allocation_settled marks trader alloc :
  settled marks (portfolios trader) ->
  settled (rebased marks trader [AllocationResult.strategy_name alloc])
    (portfolios (fst (CapitalAllocator.apply_allocation trader alloc))).
Proof.
  intros Hs name pf. unfold rebased, existsb, closed_count, get_portfolio.
  rewrite orb_false_r.
  unfold CapitalAllocator.apply_allocation, get_portfolio.
  destruct (Dict.get (portfolios trader) (AllocationResult.strategy_name alloc))
    as [pa|] eqn:Hget; simpl.
  - destruct (String.eqb_spec name (AllocationResult.strategy_name alloc)) as [->|Hne].
    + rewrite get_set_same, Hget. intros Hpf. apply Some_inj in Hpf. subst pf.
      destruct (Hs _ _ Hget) as (_ & _ & Hall).
      unfold settled_portfolio. simpl. split; [lia|]. split; [|exact Hall].
      rewrite skipn_all. unfold py_sum. simpl. lra.
    + rewrite get_set_other by exact Hne. now apply Hs.
  - destruct (String.eqb_spec name (AllocationResult.strategy_name alloc)) as [->|Hne].
    + rewrite Hget. discriminate.
    + now apply Hs.
Qed.

Lemma apply_allocations_settled allocations :
  forall marks trader,
    settled marks (portfolios trader) ->
    settled (rebased marks trader (map AllocationResult.strategy_name allocations))
      (portfolios (fst (CapitalAllocator.apply_allocations trader allocations))).
Proof.
  induction allocations as [|alloc rest IH]; intros marks trader Hs.
  - simpl. exact Hs.
  - rewrite apply_allocations_cons.
    pose proof (IH _ _ (apply_allocation_settled marks trader alloc Hs)) as Hrest.
    revert Hrest. apply settled_ext. intros name. unfold rebased. simpl map.
    simpl existsb. rewrite closed_count_apply_allocation, orb_false_r.
    destruct (String.eqb name (AllocationResult.strategy_name alloc));
      destruct (existsb (String.eqb name) (map AllocationResult.strategy_name rest));
      reflexivity.
Qed.

Lemma calculate_allocations_trader self now allocations self1 :
  CapitalAllocator.calculate_allocations self now = Some (allocations, self1) ->
  CapitalAllocator.paper_trader self1 = CapitalAllocator.paper_trader self.
Proof.
  unfold CapitalAllocator.calculate_allocations, CapitalAllocator.rank_strategies.
  destruct (CapitalAllocator.rank_loop _ _ _ _) as [[ranked tracker']|];
    [|discriminate].
  destruct (CapitalAllocator.allocate _ _); [|discriminate].
  intros H. apply Some_inj, pair_equal_spec in H. destruct H as [_ <-]. reflexivity.
Qed.

Lemma rebalance_settled marks self now stamp allocations self' log :
  CapitalAllocator.rebalance self now stamp = Some (allocations, self', log) ->
  settled marks (portfolios (CapitalAllocator.paper_trader self)) ->
  settled (rebased marks (CapitalAllocator.paper_trader self)
             (map AllocationResult.strategy_name allocations))
    (portfolios (CapitalAllocator.paper_trader self')).
Proof.
  intros Hreb Hs.
  destruct (CapitalAllocator.should_rebalance self now) eqn:Hdue.
  - destruct (rebalance_due self now stamp allocations self' log Hdue Hreb)
      as (self1 & Hcalc & ->).
    simpl. rewrite <- (calculate_allocations_trader _ _ _ _ Hcalc) in Hs |- *.
    now apply apply_allocations_settled.
  - unfold CapitalAllocator.rebalance in Hreb. rewrite Hdue in Hreb. simpl in Hreb.
    apply Some_inj, pair_equal_spec in Hreb. destruct Hreb as [Hreb _].
    apply pair_equal_spec in Hreb. destruct Hreb as [<- <-]. exact Hs.
Qed.

(** X5.  In every state that the operations of the ledger and the
    rebalances of an allocator around it reach, the capital of every
    portfolio equals its baseline [initial_capital] plus the realized P&L
    of the trades it closed since the baseline was last set (by
    [initialize_portfolio], or by a rebalance that allocated to the
    strategy), and every position of its closed list has status
    [CLOSED]. *)
Theorem realized_pnl_invariant :
  forall self marks name portfolio,
    reachable_since self marks ->
    get_portfolio self name = Some portfolio ->
    (marks name <= List.length (StrategyPortfolio.closed_positions portfolio))%nat
    /\ StrategyPortfolio.current_capital portfolio
       = StrategyPortfolio.initial_capital portfolio
         + py_sum (map PaperPosition.pnl
                       (skipn (marks name)
                              (StrategyPortfolio.closed_positions portfolio)))
    /\ Forall (fun p => PaperPosition.status p = CLOSED)
              (StrategyPortfolio.closed_positions portfolio).
Proof.
  intros self marks name portfolio Hreach. revert name portfolio.
  change (settled marks (portfolios self)).
  induction Hreach as [risk | self marks name capital _ IH
                 | self marks signal market_price uuid4 now _ IH
                 | self marks position_id exit_price reason now _ IH
                 | self marks strategy market_data now _ IH
                 | self marks now' _ IH
                 | allocator marks now stamp allocations allocator' log _ IH Hreb].
  - intros n pf. discriminate.
  - intros n pf. simpl. destruct (String.eqb_spec n name) as [->|Hne].
    + rewrite get_set_same. intros Hpf. apply Some_inj in Hpf. subst pf.
      unfold settled_portfolio. simpl. split; [lia|]. split; [|constructor].
      unfold py_sum. simpl. lra.
    + rewrite get_set_other by exact Hne. now apply IH.
  - destruct (execute_signal self signal market_price uuid4 now)
      as [[[position|] self'] log] eqn:Hexec; simpl.
    + apply execute_signal_inv in Hexec.
      destruct Hexec as (portfolio & Hget & _ & _ & _ & _ & ->). simpl.
      intros n pf. destruct (String.eqb_spec n (Signal.strategy_name signal)) as [->|Hne].
      * rewrite get_set_same. intros Hpf. apply Some_inj in Hpf. subst pf.
        exact (IH _ _ Hget).
      * rewrite get_set_other by exact Hne. now apply IH.
    + apply execute_signal_rejected in Hexec. now subst self'.
  - now apply close_position_settled.
  - unfold check_exits.
    destruct (Dict.get (portfolios self) (Strategy.name strategy)); simpl;
      [|exact IH].
    now apply check_exits_loop_settled.
  - exact IH.
  - exact (rebalance_settled marks allocator now stamp allocations allocator' log
             Hreb IH).
Qed.

Lemma seasoned_portfolios :
  portfolios (CapitalAllocator.paper_trader seasoned_allocator)
  = [("Momentum", seasoned_portfolio)].
Proof. reflexivity. Qed.

Lemma reachable_since_seasoned :
  exists marks,
    reachable_since (CapitalAllocator.paper_trader seasoned_allocator) marks.
Proof.
  eexists. unfold seasoned_allocator, CapitalAllocator.__init__.
  cbn [CapitalAllocator.paper_trader]. apply since_close.
  change holding
    with (snd (fst (Some sample_position, holding, ["Paper trade opened"]))).
  rewrite <- execute_example. apply since_execute.
  unfold one_strategy. apply since_initialize, since_init.
Qed.

(** The rebalance of [seasoned_allocator] returns, with one allocation,
    for "Momentum". *)
Lemma seasoned_rebalance :
  exists allocations self' log,
    CapitalAllocator.rebalance seasoned_allocator 0 5 = Some (allocations, self', log)
    /\ map AllocationResult.strategy_name allocations = ["Momentum"].
Proof.
  destruct (calculate_metrics_nonempty empty_tracker seasoned_portfolio 0)
    as (m & tr1 & Hcalc & _);
    [discriminate | simpl; lra | unfold history_ok; discriminate |].
  set (self1 := CapitalAllocator.with_tracker seasoned_allocator tr1).
  set (rankings := [("Momentum",
                     CapitalAllocator.calculate_strategy_score seasoned_allocator m,
                     m)] : list Ranking).
  assert (Hrank : CapitalAllocator.rank_strategies seasoned_allocator 0
                  = Some (rankings, self1)).
  { unfold CapitalAllocator.rank_strategies. rewrite seasoned_portfolios.
    change (CapitalAllocator.performance_tracker seasoned_allocator) with empty_tracker.
    rewrite (rank_loop_step seasoned_allocator empty_tracker "Momentum" _ [] 0 m tr1
               [] tr1 Hcalc eq_refl).
    reflexivity. }
  destruct (allocate_within self1 rankings) as (results & Halloc & _);
    [simpl; lra|].
  pose proof (allocate_names _ _ _ Halloc) as Hnames.
  assert (Hwho : map (fun x : Ranking => fst (fst x)) (allocated_rankings self1 rankings)
                 = ["Momentum"]).
  { unfold allocated_rankings, rankings. cbn [filter].
    destruct (CapitalAllocator.is_qualified self1
                ("Momentum",
                 CapitalAllocator.calculate_strategy_score seasoned_allocator m, m));
      reflexivity. }
  rewrite Hwho in Hnames.
  unfold CapitalAllocator.rebalance, CapitalAllocator.calculate_allocations.
  change (CapitalAllocator.should_rebalance seasoned_allocator 0) with true.
  simpl negb. cbv iota. rewrite Hrank, Halloc.
  destruct (CapitalAllocator.apply_allocations
              (CapitalAllocator.paper_trader self1) results) as [trader' log].
  do 3 eexists. split; [reflexivity | exact Hnames].
Qed.

(** After the rebalance of [seasoned_allocator] the sale that came before
    it no longer counts: the capital of "Momentum" is its new baseline. *)
Lemma realized_pnl_invariant_witness :
  exists allocations self' log portfolio,
    CapitalAllocator.rebalance seasoned_allocator 0 5 = Some (allocations, self', log)
    /\ get_portfolio (CapitalAllocator.paper_trader self') "Momentum" = Some portfolio
    /\ StrategyPortfolio.current_capital portfolio
       = StrategyPortfolio.initial_capital portfolio
         + py_sum (map PaperPosition.pnl
                       (skipn 1 (StrategyPortfolio.closed_positions portfolio))).
Proof.
  destruct seasoned_rebalance as (allocations & self' & log & Hreb & Hnames).
  destruct reachable_since_seasoned as (marks & Hreach).
  destruct (rebalance_due seasoned_allocator 0 5 allocations self' log eq_refl Hreb)
    as (self1 & Hcalc & Hself').
  assert (Hnd : NoDup (map AllocationResult.strategy_name allocations)).
  { rewrite Hnames. constructor; [simpl; tauto | constructor]. }
  destruct (apply_allocations_spec allocations Hnd (CapitalAllocator.paper_trader self1))
    as (_ & _ & _ & Hget).
  destruct (Hget "Momentum" seasoned_portfolio) as (portfolio & Hportfolio & _).
  { rewrite (calculate_allocations_trader _ _ _ _ Hcalc). reflexivity. }
  exists allocations, self', log, portfolio. split; [exact Hreb|].
  assert (Hget' : get_portfolio (CapitalAllocator.paper_trader self') "Momentum"
                  = Some portfolio).
  { rewrite Hself'. exact Hportfolio. }
  split; [exact Hget'|].
  destruct (realized_pnl_invariant _ _ "Momentum" portfolio
              (since_rebalance _ _ _ _ _ _ _ Hreach Hreb) Hget')
    as (_ & Hcapital & _).
  rewrite Hnames in Hcapital. exact Hcapital.
Defined.
End Baseline.

(* ===================================================================== *)
(** * Mean reversion: position size, and the exit that follows the entry *)
(* ===================================================================== *)

Section MeanReversion.
Import PaperTrader.

(** X22.  The position size of the mean-reversion strategy, for a base size
    that is not negative and a price between 0 and 1: between one and two
    times the base size, cut at the maximum position size of the
    config. *)
Theorem mean_reversion_size_bounds :
  forall self price,
    let base := get_or (MeanReversionParams.base_position_size
                          (MeanReversionStrategy.config self)) 5 in
    let cap := get_or (MeanReversionParams.max_position_size
                         (MeanReversionStrategy.config self)) 10 in
    0 <= base -> 0 <= price <= 1 ->
    Rmin base cap <= MeanReversionStrategy._calculate_position_size self price
    /\ MeanReversionStrategy._calculate_position_size self price <= Rmin (2 * base) cap
    /\ (price = 5 / 10 ->
        MeanReversionStrategy._calculate_position_size self price = Rmin base cap).
Proof.
  intros self price base cap Hbase Hprice.
  unfold MeanReversionStrategy._calculate_position_size. fold base cap.
  rewrite py_min_Rmin.
  assert (Habs : 0 <= Rabs (price - 5 / 10) <= 5 / 10).
  { split; [apply Rabs_pos|]. apply Rabs_le. lra. }
  split; [|split].
  - apply Rle_min_compat_r. nra.
  - apply Rle_min_compat_r. nra.
  - intros ->. replace (5 / 10 - 5 / 10) with 0 by lra. rewrite Rabs_R0.
    f_equal. lra.
Qed.

Lemma mean_reversion_size_bounds_witness :
  Rmin 5 10
  <= MeanReversionStrategy._calculate_position_size
       (MeanReversionStrategy.__init__ MeanReversionParams.empty) (96 / 100)
  /\ MeanReversionStrategy._calculate_position_size
       (MeanReversionStrategy.__init__ MeanReversionParams.empty) (96 / 100)
     <= Rmin (2 * 5) 10
  /\ (96 / 100 = 5 / 10 ->
      MeanReversionStrategy._calculate_position_size
        (MeanReversionStrategy.__init__ MeanReversionParams.empty) (96 / 100)
      = Rmin 5 10).
Proof.
  apply (mean_reversion_size_bounds
           (MeanReversionStrategy.__init__ MeanReversionParams.empty) (96 / 100));
    simpl; lra.
Defined.

Lemma fade_example :
  execute_signal fader (fade 5) (96 / 100) "p1" 0
  = (Some faded_position, fading, ["Paper trade opened"]).
Proof.
  unfold execute_signal, _check_risk_limits,
    StrategyPortfolio.available_capital, StrategyPortfolio.total_exposure, py_sum.
  simpl. float_decide. simpl.
  rewrite (py_int_quotient 5 (1 - 96 / 100) 125) by lra. simpl.
  unfold faded_position, fading, with_portfolios,
    StrategyPortfolio.with_positions, fader. simpl.
  replace (125 * (1 - 96 / 100)) with 5 by lra. reflexivity.
Qed.

(** X23.  A bet against "yes" that the ledger opens for the mean-reversion
    strategy at a yes-price above 0.5 and not below the exit target is
    closed by the next [check_exits] on a snapshot of the same market and
    price, as the one of the same cycle is: [should_exit] reads the entry
    price of the position, which is the price of the "no" side.  The
    position comes back closed with a P&L of zero. *)
Theorem mean_reversion_exits_at_once :
  forall mr self signal p uuid4 now position self' log market_data now',
    reachable_fresh self ->
    ~ In uuid4 (open_ids self) ->
    execute_signal self signal p uuid4 now = (Some position, self', log) ->
    Signal.strategy_name signal = MeanReversionStrategy.name mr ->
    Signal.side signal <> "yes" ->
    MarketData.market_id market_data = Some (Signal.market_id signal) ->
    MarketData.yes_price market_data = Some p ->
    5 / 10 < p ->
    MeanReversionStrategy.exit_target mr <= p ->
    exists closed,
      In closed
         (fst (fst (check_exits self' (MeanReversionStrategy.as_strategy mr)
                      market_data now')))
      /\ PaperPosition.id closed = uuid4
      /\ PaperPosition.status closed = CLOSED
      /\ PaperPosition.pnl closed = 0.
Proof.
  intros mr self signal p uuid4 now position self' log market_data now'
    Hreach Hfresh Hexec Hname Hside Hmarket Hprice Hhigh Htarget.
  assert (Hreach' : reachable_fresh self').
  { replace self' with (snd (fst (execute_signal self signal p uuid4 now)))
      by now rewrite Hexec.
    now apply fresh_execute. }
  destruct (reachable_fresh_books self' Hreach') as ((Hnd & Hwf & _) & _).
  pose proof Hexec as Hinv. apply execute_signal_inv in Hinv.
  destruct Hinv as (portfolio & Hget & _ & _ & _ & Hpos & _).
  assert (Hkey : ~ In uuid4 (Dict.keys (StrategyPortfolio.positions portfolio))).
  { intros Hk. apply Hfresh, In_ids_held.
    unfold Dict.keys in Hk. apply in_map_iff in Hk.
    destruct Hk as ([k q] & <- & Hq).
    exists q, (Signal.strategy_name signal), portfolio.
    split; [now apply get_In | exact Hq]. }
  destruct (execute_signal_appends _ _ _ _ _ _ _ _ _ Hget Hkey Hexec)
    as [Hget' Hopen].
  set (portfolio' := StrategyPortfolio.with_positions portfolio
                       (Dict.set (StrategyPortfolio.positions portfolio)
                          uuid4 position)) in *.
  rewrite Hname in Hget'. unfold get_portfolio in Hget'.
  destruct (open_positions_filed self' _ _ Hnd Hwf (get_In _ _ _ Hget'))
    as [Hsnap Hheld].
  destruct (check_exits_loop_exact (MeanReversionStrategy.as_strategy mr) market_data
              now' _ self' [] Hnd Hsnap Hheld) as (Hout & _).
  assert (Hcheck : check_exits self' (MeanReversionStrategy.as_strategy mr)
                     market_data now'
                   = check_exits_loop self' (MeanReversionStrategy.as_strategy mr)
                       market_data (StrategyPortfolio.open_positions portfolio')
                       now' [])
    by (unfold check_exits; simpl Strategy.name; now rewrite Hget').
  rewrite <- Hcheck in Hout. simpl app in Hout.
  assert (Heff : effective_price (Signal.side signal) p = 1 - p).
  { unfold effective_price. destruct (String.eqb_spec (Signal.side signal) "yes");
      [contradiction | reflexivity]. }
  assert (Hwants : wants_exit_b (MeanReversionStrategy.as_strategy mr) market_data
                     position = true).
  { unfold wants_exit_b. rewrite Hmarket, Hpos. simpl.
    rewrite String.eqb_refl. simpl.
    unfold MeanReversionStrategy.should_exit. simpl.
    rewrite Hprice, Heff. simpl.
    rewrite (proj2 (Rgtb_false_iff (1 - p) (5 / 10))) by lra.
    rewrite (proj2 (Rltb_true_iff (1 - p) (5 / 10))) by lra.
    rewrite (proj2 (Rgeb_true_iff p (MeanReversionStrategy.exit_target mr))) by lra.
    reflexivity. }
  exists (mark_closed position (exit_yes_price market_data) "strategy_exit" now').
  split; [|split; [|split]].
  - rewrite Hout. apply in_map_iff. exists position. split; [reflexivity|].
    apply filter_In. split; [|exact Hwants].
    rewrite Hopen. apply in_or_app. right. now left.
  - simpl. now rewrite Hpos.
  - reflexivity.
  - rewrite pnl_mark_closed. unfold exit_yes_price. rewrite Hprice, Hpos. simpl.
    lra.
Qed.

Lemma mean_reversion_exits_at_once_witness :
  exists closed,
    In closed
       (fst (fst (check_exits fading
                    (MeanReversionStrategy.as_strategy
                       (MeanReversionStrategy.__init__ MeanReversionParams.empty))
                    extreme_snapshot 1)))
    /\ PaperPosition.id closed = "p1"
    /\ PaperPosition.status closed = CLOSED
    /\ PaperPosition.pnl closed = 0.
Proof.
  apply (mean_reversion_exits_at_once
           (MeanReversionStrategy.__init__ MeanReversionParams.empty)
           fader (fade 5) (96 / 100) "p1" 0 faded_position fading
           ["Paper trade opened"] extreme_snapshot 1).
  - unfold fader. apply fresh_initialize, fresh_init.
  - simpl. tauto.
  - exact fade_example.
  - reflexivity.
  - discriminate.
  - reflexivity.
  - reflexivity.
  - lra.
  - simpl. lra.
Defined.
End MeanReversion.

(* ===================================================================== *)
(** * The ledger: the daily loss limit *)
(* ===================================================================== *)

Section DailyLoss.
Import PaperTrader.

(** X24.  Once the daily P&L is below minus [max_daily_loss], [execute_signal]
    opens nothing and leaves the trader as it is, whatever the signal, the
    price and the portfolio.  After [reset_daily_stats], with a limit that
    is not negative, the risk check accepts every signal that respects the
    other four limits. *)
Theorem daily_loss_halts_trading :
  forall self signal market_price uuid4 now,
    _daily_pnl self < - RiskConfig.max_daily_loss (risk_config self) ->
    fst (fst (execute_signal self signal market_price uuid4 now)) = None
    /\ snd (fst (execute_signal self signal market_price uuid4 now)) = self
    /\ (0 <= RiskConfig.max_daily_loss (risk_config self) ->
        forall now' portfolio,
          Signal.size signal <= StrategyPortfolio.available_capital portfolio ->
          Signal.size signal <= RiskConfig.max_position_size (risk_config self) ->
          exposure_all self + Signal.size signal <= exposure_cap self ->
          (open_count self < RiskConfig.max_concurrent_positions (risk_config self))%Z ->
          fst (_check_risk_limits (reset_daily_stats self now') signal portfolio) = true).
Proof.
  intros self signal market_price uuid4 now Hloss.
  assert (Hnone : forall position self' log,
             execute_signal self signal market_price uuid4 now
             <> (Some position, self', log)).
  { intros position self' log Hexec. apply execute_signal_inv in Hexec.
    destruct Hexec as (portfolio & _ & Hrisk & _).
    apply check_risk_limits_iff in Hrisk.
    destruct Hrisk as (_ & _ & _ & _ & Hdaily). lra. }
  destruct (execute_signal self signal market_price uuid4 now)
    as [[[position|] self'] log] eqn:Hexec.
  - exfalso. now apply (Hnone position self' log).
  - simpl. split; [reflexivity|]. split; [now apply execute_signal_rejected in Hexec|].
    intros Hlimit now' portfolio H1 H2 H3 H4.
    apply check_risk_limits_iff. unfold within_limits, exposure_all, exposure_cap,
      open_count in *. simpl. repeat split; try assumption. lra.
Qed.

Lemma daily_loss_halts_trading_witness :
  fst (fst (execute_signal stopped (buy "yes" 5) (1 / 5) "p2" 0)) = None
  /\ snd (fst (execute_signal stopped (buy "yes" 5) (1 / 5) "p2" 0)) = stopped.
Proof.
  destruct (daily_loss_halts_trading stopped (buy "yes" 5) (1 / 5) "p2" 0)
    as (Hnone & Hsame & _).
  - simpl. lra.
  - split; [exact Hnone | exact Hsame].
Defined.
End DailyLoss.

(* ===================================================================== *)
(** * The ledger: a position from entry to exit *)
(* ===================================================================== *)

Section RoundTrip.
Import PaperTrader.

(** X27.  A position that the ledger opened under a fresh id can be closed
    under that id at any exit price.  Its P&L is the number of contracts
    times the move of the price of its side; its P&L percentage is the
    relative move of that price, whatever the size; and it is a winning
    trade exactly when the yes-price rose (side "yes") or fell (any other
    side) between entry and exit. *)
Theorem round_trip_pnl :
  forall self signal p uuid4 now position self' log exit_price reason now',
    reachable_fresh self ->
    ~ In uuid4 (open_ids self) ->
    execute_signal self signal p uuid4 now = (Some position, self', log) ->
    exists closed self'',
      close_position self' uuid4 exit_price reason now'
      = (Some closed, self'', ["Paper trade closed"])
      /\ PaperPosition.pnl closed
         = IZR (PaperPosition.quantity position)
           * (effective_price (Signal.side signal) exit_price
              - effective_price (Signal.side signal) p)
      /\ PaperPosition.pnl_pct closed
         = (effective_price (Signal.side signal) exit_price
            / effective_price (Signal.side signal) p - 1) * 100
      /\ (0 < PaperPosition.pnl closed
          <-> if String.eqb (Signal.side signal) "yes" then p < exit_price
              else exit_price < p).
Proof.
  intros self signal p uuid4 now position self' log exit_price reason now'
    Hreach Hfresh Hexec.
  assert (Hreach' : reachable_fresh self').
  { replace self' with (snd (fst (execute_signal self signal p uuid4 now)))
      by now rewrite Hexec.
    now apply fresh_execute. }
  destruct (reachable_fresh_books self' Hreach') as ((Hnd & _ & _) & _).
  apply execute_signal_inv in Hexec.
  destruct Hexec as (portfolio & Hget & _ & Hq & Hprice & Hpos & ->).
  assert (Hheld : held (portfolios
                          (with_portfolios self
                             (Dict.set (portfolios self) (Signal.strategy_name signal)
                                (StrategyPortfolio.with_positions portfolio
                                   (Dict.set (StrategyPortfolio.positions portfolio)
                                      uuid4 position)))))
                       uuid4 position).
  { eexists. eexists. split; [apply get_In, get_set_same|].
    simpl. apply get_In, get_set_same. }
  destruct (close_first_held _ _ _ exit_price reason now' Hnd Hheld)
    as (ps' & Hclose & _).
  unfold close_position. rewrite Hclose.
  do 2 eexists. split; [reflexivity|].
  set (q := PaperPosition.quantity position).
  set (e0 := effective_price (Signal.side signal) p) in *.
  set (e1 := effective_price (Signal.side signal) exit_price).
  assert (Hside : PaperPosition.side position = Signal.side signal)
    by now rewrite Hpos.
  assert (Hcost : PaperPosition.entry_cost position = IZR q * e0)
    by (unfold q; now rewrite Hpos).
  assert (Hqpos : 0 < IZR q) by (apply IZR_lt; exact Hq).
  assert (Hpnl : PaperPosition.pnl (mark_closed position exit_price reason now')
                 = IZR q * (e1 - e0)).
  { rewrite pnl_mark_closed, Hside, Hcost. fold e1 q. lra. }
  split; [exact Hpnl|]. split.
  - unfold PaperPosition.pnl_pct. rewrite Hpnl.
    change (PaperPosition.entry_cost (mark_closed position exit_price reason now'))
      with (PaperPosition.entry_cost position).
    rewrite Hcost.
    assert (Hne : IZR q * e0 <> 0) by (apply Rmult_integral_contrapositive; lra).
    rewrite (proj2 (Reqb_false_iff _ _) Hne).
    assert (Hf : forall a b c : R,
               a <> 0 -> c <> 0 -> a * (b - c) / (a * c) * 100 = (b / c - 1) * 100)
      by (intros; field; auto).
    apply Hf; lra.
  - rewrite Hpnl. unfold e1, e0, effective_price.
    destruct (String.eqb (Signal.side signal) "yes"); split; intros H; nra.
Qed.

Lemma round_trip_pnl_witness :
  exists closed self'',
    close_position holding "p1" (3 / 10) "signal" 1
    = (Some closed, self'', ["Paper trade closed"])
    /\ PaperPosition.pnl closed = 25 * (3 / 10 - 1 / 5).
Proof.
  destruct (round_trip_pnl (one_strategy 50) (buy "yes" 5) (1 / 5) "p1" 0
              sample_position holding ["Paper trade opened"] (3 / 10) "signal" 1)
    as (closed & self'' & Hclose & Hpnl & _).
  - unfold one_strategy. apply fresh_initialize, fresh_init.
  - simpl. tauto.
  - exact execute_example.
  - exists closed, self''. split; [exact Hclose | exact Hpnl].
Defined.
End RoundTrip.

(* ===================================================================== *)
(** * The ledger: the summary *)
(* ===================================================================== *)

Section SummaryRows.
Import PaperTrader.




End SummaryRows.

(* ===================================================================== *)
(** * The ledger: the position lists *)
(* ===================================================================== *)

Section PositionLists.
Import PaperTrader.

(** X29.  In every state that the public operations of the ledger reach, the
    positions listed as open are all the entries of the open maps and
    have status [OPEN], the positions listed as closed have status
    [CLOSED], and any other status lists, portfolio by portfolio, the open
    positions followed by the closed ones. *)
Theorem position_lists :
  forall self,
    reachable self ->
    get_all_positions self "open" = all_open (portfolios self)
    /\ Forall (fun p => PaperPosition.status p = OPEN) (get_all_positions self "open")
    /\ Forall (fun p => PaperPosition.status p = CLOSED)
              (get_all_positions self "closed")
    /\ forall status,
         status <> "open" -> status <> "closed" ->
         Permutation (get_all_positions self status)
                     (get_all_positions self "open" ++ get_all_positions self "closed").
Proof.
  intros self Hreach.
  pose proof (reachable_well_filed self Hreach) as Hwf.
  pose proof (reachable_balanced self Hreach) as Hbal.
  assert (Hopen : forall name pf,
             In (name, pf) (portfolios self) ->
             StrategyPortfolio.open_positions pf
             = Dict.values (StrategyPortfolio.positions pf)).
  { intros name pf Hin. apply open_positions_all. intros k p Hp.
    apply (Hwf k p). now exists name, pf. }
  unfold get_all_positions, all_open. simpl.
  revert Hwf Hbal Hopen. generalize (portfolios self) as ps.
  induction ps as [|[name pf] rest IH]; intros Hwf Hbal Hopen.
  { simpl. repeat split; try constructor. }
  assert (Hwf' : well_filed rest)
    by (intros k p (n & f & Hin & Hp); apply Hwf; exists n, f; split;
        [now right | exact Hp]).
  assert (Hbal' : all_balanced rest) by (intros n f Hin; apply (Hbal n f); now right).
  assert (Hopen' : forall n f, In (n, f) rest ->
                     StrategyPortfolio.open_positions f
                     = Dict.values (StrategyPortfolio.positions f))
    by (intros n f Hin; apply (Hopen n f); now right).
  destruct (IH Hwf' Hbal' Hopen') as (IH1 & IH2 & IH3 & IH4).
  pose proof (Hopen name pf (or_introl eq_refl)) as Hpf.
  simpl. split; [|split; [|split]].
  - now rewrite Hpf, IH1.
  - apply Forall_app. split; [|exact IH2].
    rewrite Hpf. apply Forall_forall. intros p Hp. unfold Dict.values in Hp.
    apply in_map_iff in Hp. destruct Hp as ([k q] & <- & Hq). simpl.
    apply (Hwf k q). exists name, pf. split; [now left | exact Hq].
  - apply Forall_app. split; [|exact IH3].
    apply (Hbal name pf). now left.
  - intros status Ho Hc. specialize (IH4 status Ho Hc).
    destruct (String.eqb_spec status "open") as [E|_]; [contradiction|].
    destruct (String.eqb_spec status "closed") as [E|_]; [contradiction|].
    simpl in IH4 |- *. rewrite Hpf.
    rewrite <- !app_assoc. apply Permutation_app_head.
    etransitivity; [apply Permutation_app_head; exact IH4|].
    rewrite !app_assoc. apply Permutation_app_tail. apply Permutation_app_comm.
Qed.

Lemma position_lists_witness :
  get_all_positions holding "open" = all_open (portfolios holding)
  /\ Forall (fun p => PaperPosition.status p = OPEN) (get_all_positions holding "open").
Proof.
  destruct (position_lists holding reachable_holding) as (H1 & H2 & _).
  split; [exact H1 | exact H2].
Defined.
End PositionLists.

(* ===================================================================== *)
(** * The metrics engine: the peak capital *)
(* ===================================================================== *)

Section PeakCapital.
Import PerformanceTracker.

Lemma fold_py_max xs :
  forall a,
    (fold_left py_max xs a = a \/ In (fold_left py_max xs a) xs)
    /\ a <= fold_left py_max xs a
    /\ Forall (fun x => x <= fold_left py_max xs a) xs.
Proof.
  induction xs as [|x xs IH]; intros a; simpl.
  - split; [now left|]. split; [lra | constructor].
  - destruct (IH (py_max a x)) as (Hin & Hle & Hall).
    assert (Hmax : a <= py_max a x /\ x <= py_max a x
                   /\ (py_max a x = a \/ py_max a x = x)).
    { unfold py_max. float_case (x >? a); repeat split; try lra; auto. }
    destruct Hmax as (Ha & Hx & Hcase).
    split; [|split; [lra | constructor; [lra | exact Hall]]].
    destruct Hin as [Heq|Hin]; [|right; now right].
    rewrite Heq. destruct Hcase as [->| ->]; [now left | right; now left].
Qed.

Lemma py_max_list_maximum xs m :
  py_max_list xs = Some m -> In m xs /\ Forall (fun x => x <= m) xs.
Proof.
  destruct xs as [|x xs]; simpl; [discriminate|]. intros [= <-].
  destruct (fold_py_max xs x) as (Hin & Hle & Hall).
  split; [destruct Hin as [->|Hin]; [now left | now right]|].
  constructor; [exact Hle | exact Hall].
Qed.

(** X30.  For a portfolio with a closed trade, the peak capital of the metrics
    is the largest capital of the strategy's recorded history; without a
    recorded history it is the initial capital of the portfolio, whatever
    the closed trades brought in. *)
Theorem peak_capital_is_maximum :
  forall self portfolio now m self',
    StrategyPortfolio.closed_positions portfolio <> [] ->
    calculate_metrics self portfolio now = Some (m, self') ->
    match Dict.get (_capital_history self) (StrategyPortfolio.strategy_name portfolio)
    with
    | Some history =>
        In (StrategyMetrics.peak_capital m) history
        /\ Forall (fun capital => capital <= StrategyMetrics.peak_capital m) history
    | None =>
        StrategyMetrics.peak_capital m = StrategyPortfolio.initial_capital portfolio
    end.
Proof.
  intros self portfolio now m self' Htrades. unfold calculate_metrics.
  destruct (StrategyPortfolio.closed_positions portfolio) as [|t ts]; [congruence|].
  destruct (py_div _ _); [|discriminate].
  destruct (_calculate_sharpe _ _ _); [|discriminate].
  destruct (_calculate_sortino _ _ _); [|discriminate].
  destruct (py_max_list _) as [peak|] eqn:Hpeak; [|discriminate].
  intros Hsome. apply Some_inj in Hsome. apply pair_equal_spec in Hsome.
  destruct Hsome as [<- _]. cbv beta iota delta [StrategyMetrics.peak_capital].
  destruct (Dict.get (_capital_history self)
              (StrategyPortfolio.strategy_name portfolio)) as [history|].
  - now apply py_max_list_maximum.
  - simpl in Hpeak. now injection Hpeak as <-.
Qed.

Lemma peak_capital_is_maximum_witness :
  exists m self',
    calculate_metrics example_tracker (funded "Momentum" four_wins) 0 = Some (m, self')
    /\ In (StrategyMetrics.peak_capital m) [10; 8]
    /\ Forall (fun capital => capital <= StrategyMetrics.peak_capital m) [10; 8].
Proof.
  destruct (four_wins_metrics example_tracker "Momentum" 0) as (m & self' & Hcalc & _).
  - unfold history_ok. discriminate.
  - exists m, self'. split; [exact Hcalc|].
    apply (peak_capital_is_maximum example_tracker (funded "Momentum" four_wins) 0
             m self'); [discriminate | exact Hcalc].
Defined.
End PeakCapital.
